(** * libmobile: the stub DNS resolver (dns.c)

    A shallow embedding of the resolver of the adapter library: the name
    encoder [dns_make_name], the query builder [dns_make_query], the name
    comparison walk [dns_compare_name], the response checks
    [dns_verify_response] and [dns_get_answer], and the two public entry
    points [mobile_dns_query_send] and [mobile_dns_query_recv].

    Conventions of the embedding.
    - A byte ([unsigned char]) is a [Z] in [0, 256); an array is a [list Z]
      read with [load] and written with [store].  An access outside the
      array is undefined in C; [load] then yields 0 and [store] does
      nothing.  The parser checks every offset against [buffer_len] before
      it reads, so these values are not observed on a buffer that holds
      [buffer_len] bytes.
    - [unsigned] and [int] values are [Z].  Offsets never exceed
      [buffer_len] and lengths are 16-bit fields, so the only arithmetic
      that can wrap is the increment of the 16-bit transaction id, whose
      reduction modulo 2^16 is written out in [dns_make_query].
    - The two loops of the walk are bounded differently: the inner
      [while (len--)] runs [len] times and is a structural recursion; the
      outer [for (;;)] has no bound in the source and takes a fuel
      argument, [None] meaning that the fuel ran out before the loop left.
    - The board (socket) callbacks are outside the resolver; their answers
      are arguments of the entry points and their calls are returned as a
      list of events. *)

From Stdlib Require Import ZArith Lia Bool Ascii String.
From stdpp Require Import base option list.

Local Open Scope Z_scope.

(** ** Bytes and arrays *)

Definition load (a : list Z) (i : Z) : Z := default 0 (a !! Z.to_nat i).

Definition store (a : list Z) (i : Z) (v : Z) : list Z := <[Z.to_nat i := v]> a.

(** [unsigned char] conversion of an integer value. *)
Definition u8 (v : Z) : Z := v mod 256.

(** [uint16_t] conversion of an integer value. *)
Definition u16 (v : Z) : Z := v mod 65536.

(** [b0 << 8 | b1]: the big-endian 16-bit field at [i]. *)
Definition be16 (a : list Z) (i : Z) : Z :=
  Z.lor (Z.shiftl (load a i) 8) (load a (i + 1)).

(** [memcpy (a + off, src, length src)]: the bytes of [a] at
    [off .. off + length src) are replaced by [src].  (A copy that runs past
    the end of the destination is undefined in C; the list then grows.) *)
Definition memcpy (a : list Z) (off : Z) (src : list Z) : list Z :=
  take (Z.to_nat off) a ++ src ++ drop (Z.to_nat off + length src) a.

(** The [n] bytes of [a] from [off] on. *)
Fixpoint bytes_at (a : list Z) (off : Z) (n : nat) : list Z :=
  match n with
  | O => []
  | S n' => load a off :: bytes_at a (off + 1) n'
  end.

Definition char_code (c : ascii) : Z := Z.of_N (N_of_ascii c).

(** ** Constants and the resolver state *)

Definition DNS_HEADER_SIZE : Z := 12.
Definition DNS_QD_SIZE : Z := 4.
Definition DNS_RR_SIZE : Z := 10.
Definition DNS_PORT : Z := 53.

Inductive dns_qtype : Type :=
  | DNS_QTYPE_A
  | DNS_QTYPE_AAAA.

Definition qtype_code (t : dns_qtype) : Z :=
  match t with
  | DNS_QTYPE_A => 1
  | DNS_QTYPE_AAAA => 28
  end.

(** Modelled from the spec: the declaration of [struct mobile_adapter_dns]
    (dns.h) is not among the sources.  The fields are the ones dns.c uses;
    [id] is the 16-bit transaction id of the data model, [type] holds a
    [enum dns_qtype], [name] and [buffer] are the two fixed arrays. *)
Record mobile_adapter_dns : Type := {
  id : Z;
  type : dns_qtype;
  name : list Z;
  name_len : Z;
  buffer : list Z;
  buffer_len : Z
}.

Definition set_name (s : mobile_adapter_dns) (nm : list Z) : mobile_adapter_dns :=
  {| id := id s; type := type s; name := nm; name_len := name_len s;
     buffer := buffer s; buffer_len := buffer_len s |}.

Definition set_name_len (s : mobile_adapter_dns) (n : Z) : mobile_adapter_dns :=
  {| id := id s; type := type s; name := name s; name_len := n;
     buffer := buffer s; buffer_len := buffer_len s |}.

Definition set_buffer (s : mobile_adapter_dns) (b : list Z) : mobile_adapter_dns :=
  {| id := id s; type := type s; name := name s; name_len := name_len s;
     buffer := b; buffer_len := buffer_len s |}.

Definition set_buffer_len (s : mobile_adapter_dns) (n : Z) : mobile_adapter_dns :=
  {| id := id s; type := type s; name := name s; name_len := name_len s;
     buffer := buffer s; buffer_len := n |}.

(** ** dns_make_name *)

Section MakeName.

(** The capacity of [state->name]; the macro is defined in dns.h, which is
    not among the sources, so the encoder is stated for every value. *)
Variable MOBILE_DNS_MAX_NAME_SIZE : Z.

(** The [for] loop over the characters of the host.  [d] and [len] are the
    two cursors, as indices into [state->name].  The result is the exit
    flag ([false] for the two [return false]), the array and the final [d]. *)
Fixpoint dns_make_name_loop (cs : list ascii) (nm : list Z) (d len : Z)
  : bool * list Z * Z :=
  match cs with
  | [] => (true, nm, d)
  | c :: cs' =>
    if d >=? MOBILE_DNS_MAX_NAME_SIZE - 1 then (false, nm, d)
    else if Ascii.eqb c "."%char then
      dns_make_name_loop cs' (store nm d 0) (d + 1) d
    else if load nm len >=? 63 then (false, nm, d)
    else
      let nm1 := store nm d (char_code c) in
      let nm2 := store nm1 len (u8 (load nm1 len + 1)) in
      dns_make_name_loop cs' nm2 (d + 1) len
  end.

Definition dns_make_name (state : mobile_adapter_dns) (host : string)
  : bool * mobile_adapter_dns :=
  let nm0 := store (name state) 0 0 in
  match dns_make_name_loop (list_ascii_of_string host) nm0 1 0 with
  | (false, nm, _) => (false, set_name state nm)
  | (true, nm, d) =>
    let nm' := store nm d 0 in
    (true, set_name_len (set_name state nm') (d + 1))
  end.

End MakeName.

(** ** dns_compare_name *)

(** The local variables of the walk: [name] and [cmp] as indices into
    [state->name] and [state->buffer], and [end]. *)
Record walk : Type := {
  w_name : Z;
  w_cmp : Z;
  w_end : Z
}.

(** How one pass through the body of [for (;;)] leaves it. *)
Inductive outcome : Type :=
  | Ret (r : Z)        (* a [return r] inside the loop *)
  | Brk (w : walk)     (* the [break] *)
  | Cont (w : walk).   (* back to the head of the loop *)

(** The inner [while (len--)] loop, which compares the bytes under the two
    cursors and advances both: [true] when all [n] bytes agree, [false]
    for its [return -1]. *)
Fixpoint label_equal (buf nm : list Z) (cmp nam : Z) (n : nat) : bool :=
  match n with
  | O => true
  | S n' =>
    if negb (load buf cmp =? load nm nam) then false
    else label_equal buf nm (cmp + 1) (nam + 1) n'
  end.

Definition dns_compare_step (state : mobile_adapter_dns) (w : walk) : outcome :=
  let c := load (buffer state) (w_cmp w) in
  if c =? 0 then Brk w
  else if Z.land c 0xC0 =? 0xC0 then
    if w_cmp w + 2 >? buffer_len state then Ret (-1)
    else
      let e := if w_end w <? 0 then w_cmp w + 2 else w_end w in
      let off := Z.lor (Z.shiftl (Z.land c 0x3F) 8)
                       (load (buffer state) (w_cmp w + 1)) in
      if off >=? buffer_len state then Ret (-1)
      else Cont {| w_name := w_name w; w_cmp := off; w_end := e |}
  else if Z.land c 0xC0 =? 0x00 then
    let len := c + 1 in
    if w_name w + len >=? name_len state then Ret (-1)
    else if w_cmp w + len >=? buffer_len state then Ret (-1)
    else if label_equal (buffer state) (name state) (w_cmp w) (w_name w)
                        (Z.to_nat len)
    then Cont {| w_name := w_name w + len; w_cmp := w_cmp w + len;
                 w_end := w_end w |}
    else Ret (-1)
  else Ret 0.

(** The [for (;;)] loop: [Some (inl r)] for a [return r] from inside,
    [Some (inr w)] for the [break], [None] when [fuel] passes did not leave
    the loop. *)
Fixpoint dns_compare_loop (fuel : nat) (state : mobile_adapter_dns) (w : walk)
  : option (Z + walk) :=
  match fuel with
  | O => None
  | S fuel' =>
    match dns_compare_step state w with
    | Ret r => Some (inl r)
    | Brk w' => Some (inr w')
    | Cont w' => dns_compare_loop fuel' state w'
    end
  end.

(** What follows the loop: the terminator check and the write through
    [offset].  The result is the return value and the offset left behind. *)
Definition dns_compare_finish (state : mobile_adapter_dns) (offset : Z) (w : walk)
  : Z * Z :=
  if negb (load (buffer state) (w_cmp w) =? 0)
     || negb (load (name state) (w_name w) =? 0)
  then (-1, offset)
  else
    let e := if w_end w <? 0 then w_cmp w + 1 else w_end w in
    (0, e).

Definition walk_start (offset : Z) : walk :=
  {| w_name := 0; w_cmp := offset; w_end := -1 |}.

Definition dns_compare_name (fuel : nat) (state : mobile_adapter_dns) (offset : Z)
  : option (Z * Z) :=
  if offset >=? buffer_len state then Some (0, offset)
  else if name_len state =? 0 then Some (0, offset)
  else
    r ← dns_compare_loop fuel state (walk_start offset);
    match r with
    | inl v => Some (v, offset)
    | inr w => Some (dns_compare_finish state offset w)
    end.

(** ** dns_make_query *)

Definition dns_make_query (state : mobile_adapter_dns) (t : dns_qtype)
  : bool * mobile_adapter_dns :=
  let id' := u16 (id state + 1) in
  let header :=
    [ Z.land (Z.shiftr id' 8) 0xFF; Z.land (Z.shiftr id' 0) 0xFF;
      0x01; 0x00;
      0; 1;
      0; 0;
      0; 0;
      0; 0 ] in
  let b1 := memcpy (buffer state) 0 header in
  let b2 := memcpy b1 DNS_HEADER_SIZE
              (bytes_at (name state) 0 (Z.to_nat (name_len state))) in
  let question := DNS_HEADER_SIZE + name_len state in
  let b3 := store b2 question (Z.land (Z.shiftr (qtype_code t) 8) 0xFF) in
  let b4 := store b3 (question + 1) (Z.land (Z.shiftr (qtype_code t) 0) 0xFF) in
  let b5 := store b4 (question + 2) 0 in
  let b6 := store b5 (question + 3) 1 in
  (true,
   {| id := id'; type := t; name := name state; name_len := name_len state;
      buffer := b6;
      buffer_len := DNS_HEADER_SIZE + name_len state + DNS_QD_SIZE |}).

(** ** dns_verify_response *)

(** [offset] is what the out-parameter holds on entry; the result is the
    return value and what the out-parameter holds on exit.  ([flags] is an
    [unsigned], so the error code is computed modulo 2^32 and converted to
    the [int] result, which gives back the value written here.) *)
Definition dns_verify_response (fuel : nat) (state : mobile_adapter_dns) (offset : Z)
  : option (Z * Z) :=
  if buffer_len state <? DNS_HEADER_SIZE then Some (-1, offset)
  else if negb (be16 (buffer state) 0 =? id state) then Some (-1, offset)
  else
    let flags := be16 (buffer state) 2 in
    if negb (Z.land flags 0xFBFF =? 0x8180) then Some (-2 - Z.land flags 0xF, offset)
    else
      let qdcount := be16 (buffer state) 4 in
      let ancount := be16 (buffer state) 6 in
      if negb (qdcount =? 1) then Some (-18, offset)
      else if ancount <? 1 then Some (-18, offset)
      else
        let offset := DNS_HEADER_SIZE in
        '(cmp, offset) ← dns_compare_name fuel state offset;
        if negb (cmp =? 0) || (offset + DNS_QD_SIZE >? buffer_len state)
        then Some (-19, offset)
        else
          let qflags := offset in
          if negb (be16 (buffer state) qflags =? qtype_code (type state))
          then Some (-19, offset)
          else if negb (be16 (buffer state) (qflags + 2) =? 1)
          then Some (-19, offset)
          else Some (ancount, offset + DNS_QD_SIZE).

(** ** dns_get_answer *)

Definition is_A (t : dns_qtype) : bool :=
  match t with DNS_QTYPE_A => true | DNS_QTYPE_AAAA => false end.

Definition is_AAAA (t : dns_qtype) : bool :=
  match t with DNS_QTYPE_A => false | DNS_QTYPE_AAAA => true end.

Definition dns_get_answer (fuel : nat) (state : mobile_adapter_dns) (offset : Z)
  : option (Z * Z) :=
  '(name_cmp, offset) ← dns_compare_name fuel state offset;
  if offset + DNS_RR_SIZE >? buffer_len state then Some (-1, offset)
  else
    let info := offset in
    let rdlength := be16 (buffer state) (info + 8) in
    let rdata := offset + DNS_RR_SIZE in
    if offset + DNS_RR_SIZE + rdlength >? buffer_len state then Some (-1, offset)
    else
      let offset := offset + (DNS_RR_SIZE + rdlength) in
      if negb (name_cmp =? 0) then Some (-2, offset)
      else if negb (be16 (buffer state) info =? qtype_code (type state))
      then Some (-2, offset)
      else if negb (be16 (buffer state) (info + 2) =? 1) then Some (-2, offset)
      else if is_A (type state) && negb (rdlength =? 4) then Some (-2, offset)
      else if is_AAAA (type state) && negb (rdlength =? 16) then Some (-2, offset)
      else Some (rdata, offset).

(** ** Addresses, the adapter and the board *)

(** Modelled from the spec: [struct mobile_addr], [struct mobile_addr4] and
    [enum mobile_addrtype] (mobile.h) are not among the sources.  An address
    is a tagged union; the IPv4 member carries a port and the four host
    bytes.  [memcmp] over two [struct mobile_addr4] is equality of the
    members (padding is not modelled). *)
Inductive mobile_addrtype : Type :=
  | MOBILE_ADDRTYPE_NONE
  | MOBILE_ADDRTYPE_IPV4
  | MOBILE_ADDRTYPE_IPV6.

Definition host4 : Type := (Z * Z * Z * Z)%type.

Inductive mobile_addr : Type :=
  | addr_none
  | addr4 (port : Z) (host : host4)
  | addr6 (port : Z) (host : list Z).

Definition addr_type (a : mobile_addr) : mobile_addrtype :=
  match a with
  | addr_none => MOBILE_ADDRTYPE_NONE
  | addr4 _ _ => MOBILE_ADDRTYPE_IPV4
  | addr6 _ _ => MOBILE_ADDRTYPE_IPV6
  end.

Definition addrtype_eqb (a b : mobile_addrtype) : bool :=
  match a, b with
  | MOBILE_ADDRTYPE_NONE, MOBILE_ADDRTYPE_NONE => true
  | MOBILE_ADDRTYPE_IPV4, MOBILE_ADDRTYPE_IPV4 => true
  | MOBILE_ADDRTYPE_IPV6, MOBILE_ADDRTYPE_IPV6 => true
  | _, _ => false
  end.

Definition host4_eqb (a b : host4) : bool :=
  match a, b with
  | (a0, a1, a2, a3), (b0, b1, b2, b3) =>
    (a0 =? b0) && (a1 =? b1) && (a2 =? b2) && (a3 =? b3)
  end.

(** [memcmp (&addr_send, addr_recv4, sizeof (struct mobile_addr4)) == 0],
    for a received address already known to be of the IPv4 type. *)
Definition addr4_memcmp_eq (port_s : Z) (host_s : host4) (recv : mobile_addr) : bool :=
  match recv with
  | addr4 port_r host_r => (port_s =? port_r) && host4_eqb host_s host_r
  | _ => false
  end.

(** The part of [struct mobile_adapter] the resolver touches: its own
    state and the configured resolver address [commands.dns1]. *)
Record mobile_adapter : Type := {
  dns : mobile_adapter_dns;
  dns1 : host4
}.

Definition set_dns (adapter : mobile_adapter) (s : mobile_adapter_dns) : mobile_adapter :=
  {| dns := s; dns1 := dns1 adapter |}.

(** The calls made on the board, in order. *)
Inductive board_event : Type :=
  | board_sock_send (conn : Z) (data : list Z) (addr : mobile_addr)
  | board_sock_close (conn : Z).

(** What one call of [mobile_board_sock_recv] did: its return value, the
    bytes it put at the start of the buffer it was handed, and the sender
    address it left in the out-parameter ([addr_none] is the zeroed
    structure the caller passes in). *)
Record sock_recv_result : Type := {
  recv_ret : Z;
  recv_data : list Z;
  recv_from : mobile_addr
}.

(** ** mobile_dns_init *)

Definition mobile_dns_init (adapter : mobile_adapter) : mobile_adapter :=
  let state := dns adapter in
  set_dns adapter
    {| id := 0; type := type state; name := name state;
       name_len := name_len state; buffer := buffer state;
       buffer_len := buffer_len state |}.

(** ** mobile_dns_query_send *)

Section QuerySend.

Variable MOBILE_DNS_MAX_NAME_SIZE : Z.

(** [send_ok] is the answer of [mobile_board_sock_send], should it be
    called. *)
Definition mobile_dns_query_send (adapter : mobile_adapter) (conn : Z)
    (host : string) (send_ok : bool)
  : bool * mobile_adapter * list board_event :=
  let s := dns adapter in
  match dns_make_name MOBILE_DNS_MAX_NAME_SIZE s host with
  | (false, s) => (false, set_dns adapter s, [])
  | (true, s) =>
    match dns_make_query s DNS_QTYPE_A with
    | (false, s) => (false, set_dns adapter s, [])
    | (true, s) =>
      let addr_send := addr4 DNS_PORT (dns1 adapter) in
      let sent :=
        board_sock_send conn
          (bytes_at (buffer s) 0 (Z.to_nat (buffer_len s))) addr_send in
      if negb send_ok
      then (false, set_dns adapter s, [sent; board_sock_close conn])
      else (true, set_dns adapter s, [sent])
    end
  end.

End QuerySend.

(** ** mobile_dns_query_recv *)

(** The [while (ancount--)] loop over the answer records.  The result is
    the return value of [mobile_dns_query_recv] and the caller's [ip]
    buffer. *)
Fixpoint answer_scan (fuel : nat) (s : mobile_adapter_dns) (ancount : nat)
    (offset : Z) (ip : list Z) : option (Z * list Z) :=
  match ancount with
  | O => Some (1, ip)
  | S ancount' =>
    '(anoffset, offset) ← dns_get_answer fuel s offset;
    if anoffset <? -1 then answer_scan fuel s ancount' offset ip
    else if anoffset =? -1 then Some (-1, ip)
    else Some (1, memcpy ip 0 (bytes_at (buffer s) anoffset 4))
  end.

(** [rx] is what the one call of [mobile_board_sock_recv] did.  The result
    is the return value, the adapter and the caller's [ip] buffer; [None]
    when the name walk did not leave its loop within [fuel] passes.  The
    local [offset] is not initialised in the source; it is written by
    [dns_verify_response] before it is read. *)
Definition mobile_dns_query_recv (fuel : nat) (adapter : mobile_adapter)
    (conn : Z) (ip : list Z) (rx : sock_recv_result)
  : option (Z * mobile_adapter * list Z) :=
  let s := dns adapter in
  let s := set_buffer s (memcpy (buffer s) 0 (recv_data rx)) in
  let recv := recv_ret rx in
  if recv <=? 0 then Some (recv, set_dns adapter s, ip)
  else
    let s := set_buffer_len s recv in
    if negb (addrtype_eqb MOBILE_ADDRTYPE_IPV4 (addr_type (recv_from rx)))
    then Some (0, set_dns adapter s, ip)
    else if negb (addr4_memcmp_eq DNS_PORT (dns1 adapter) (recv_from rx))
    then Some (0, set_dns adapter s, ip)
    else
      '(ancount, offset) ← dns_verify_response fuel s 0;
      if ancount <? 0 then Some (-1, set_dns adapter s, ip)
      else
        '(ret, ip) ← answer_scan fuel s (Z.to_nat ancount) offset ip;
        Some (ret, set_dns adapter s, ip).

(** * Reference notions, written from the specification *)

(** The labels of a dotted host name: the pieces between the dots. *)
Fixpoint split_labels (cs : list ascii) : list (list ascii) :=
  match cs with
  | [] => [[]]
  | c :: cs' =>
    if Ascii.eqb c "."%char then [] :: split_labels cs'
    else
      match split_labels cs' with
      | l :: ls => (c :: l) :: ls
      | [] => [[c]]
      end
  end.

(** Some label is longer than 63 bytes. *)
Definition label_too_long (cs : list ascii) : Prop :=
  Exists (fun l => (63 < length l)%nat) (split_labels cs).

(** A label is too long once [k] characters of the first label have
    already gone by. *)
Definition too_long_after (k : Z) (cs : list ascii) : Prop :=
  match split_labels cs with
  | l :: ls =>
    63 < k + Z.of_nat (length l) \/ Exists (fun l => (63 < length l)%nat) ls
  | [] => False
  end.

(** The size of the wire form of a host name: one length byte per label,
    the characters, and the terminating zero. *)
Definition encoded_size (cs : list ascii) : Z := Z.of_nat (length cs) + 2.

(** The happy-path pattern of the flags field, bit by bit (bit 10, AA, is
    the one bit that does not count). *)
Definition flags_pattern (flags : Z) : bool :=
  Z.testbit flags 15                              (* QR: a response *)
  && negb (Z.testbit flags 14) && negb (Z.testbit flags 13)
  && negb (Z.testbit flags 12) && negb (Z.testbit flags 11)
                                                  (* OPCODE: standard query *)
  && negb (Z.testbit flags 9)                     (* TC: not truncated *)
  && Z.testbit flags 8                            (* RD *)
  && Z.testbit flags 7                            (* RA *)
  && negb (Z.testbit flags 6) && negb (Z.testbit flags 5)
  && negb (Z.testbit flags 4)                     (* Z, AD, CD *)
  && negb (Z.testbit flags 3) && negb (Z.testbit flags 2)
  && negb (Z.testbit flags 1) && negb (Z.testbit flags 0).
                                                  (* RCODE: no error *)

(** The 4-bit response code of a flags field. *)
Definition rcode (flags : Z) : Z := flags mod 16.

(** The fields of the answer record whose fixed block starts at [info]. *)
Definition record_type (s : mobile_adapter_dns) (info : Z) : Z := be16 (buffer s) info.
Definition record_class (s : mobile_adapter_dns) (info : Z) : Z := be16 (buffer s) (info + 2).
Definition record_rdlength (s : mobile_adapter_dns) (info : Z) : Z := be16 (buffer s) (info + 8).
Definition record_rdata (info : Z) : Z := info + 10.

(** The fixed block and the declared RDATA span lie inside the received
    buffer. *)
Definition record_in_buffer (s : mobile_adapter_dns) (info : Z) : bool :=
  (info + 10 <=? buffer_len s)
  && (info + 10 + record_rdlength s info <=? buffer_len s).

Definition address_size (t : dns_qtype) : Z :=
  match t with
  | DNS_QTYPE_A => 4
  | DNS_QTYPE_AAAA => 16
  end.

(** The answer filter: name comparison passed, type of the query, class IN,
    RDLENGTH of the address family. *)
Definition record_accepted (s : mobile_adapter_dns) (name_cmp info : Z) : bool :=
  (name_cmp =? 0)
  && (record_type s info =? qtype_code (type s))
  && (record_class s info =? 1)
  && (record_rdlength s info =? address_size (type s)).

(** A byte that starts a compression pointer. *)
Definition is_pointer (c : Z) : bool := negb (c =? 0) && (Z.land c 0xC0 =? 0xC0).

(** The positions of the compression pointers the walk follows, in the
    order it follows them. *)
Fixpoint pointers_followed (fuel : nat) (state : mobile_adapter_dns) (w : walk)
  : list Z :=
  match fuel with
  | O => []
  | S fuel' =>
    match dns_compare_step state w with
    | Cont w' =>
      (if is_pointer (load (buffer state) (w_cmp w)) then [w_cmp w] else [])
      ++ pointers_followed fuel' state w'
    | _ => []
    end
  end.

(** Each of the next [n] records, from [offset] on, lies in the buffer and
    does not pass the answer filter. *)
Fixpoint all_filtered (fuel : nat) (s : mobile_adapter_dns) (n : nat) (offset : Z)
  : Prop :=
  match n with
  | O => True
  | S n' =>
    exists offset',
      dns_get_answer fuel s offset = Some (-2, offset')
      /\ all_filtered fuel s n' offset'
  end.

(** Every element is an [unsigned char]. *)
Definition bytes (a : list Z) : Prop := Forall (fun b => 0 <= b < 256) a.

(** The resolver state once [rx] has been taken in: the bytes are in the
    buffer and [buffer_len] is the count. *)
Definition taken_in (s : mobile_adapter_dns) (rx : sock_recv_result) : mobile_adapter_dns :=
  set_buffer_len (set_buffer s (memcpy (buffer s) 0 (recv_data rx))) (recv_ret rx).

(** The address datagrams are sent to and must come from. *)
Definition resolver_addr (adapter : mobile_adapter) : mobile_addr :=
  addr4 DNS_PORT (dns1 adapter).

(** * Sample data *)

Definition blank (n : nat) : list Z := replicate n 0.

(** An adapter after [mobile_dns_init], with a 256-byte name array, a
    512-byte packet buffer and the resolver 8.8.8.8. *)
Definition adapter0 : mobile_adapter :=
  {| dns := {| id := 0; type := DNS_QTYPE_A; name := blank 256; name_len := 0;
               buffer := blank 512; buffer_len := 0 |};
     dns1 := (8, 8, 8, 8) |}.

(** The adapter after a query for "a.b" went out (transaction id 1). *)
Definition adapter1 : mobile_adapter :=
  snd (fst (mobile_dns_query_send 256 adapter0 3 "a.b" true)).

Definition from_resolver (d : list Z) : sock_recv_result :=
  {| recv_ret := Z.of_nat (length d); recv_data := d;
     recv_from := addr4 53 (8, 8, 8, 8) |}.

(** Header of a response to transaction 1 with [an] answers, and the echoed
    question for "a.b", type A, class IN. *)
Definition sample_header (an : Z) : list Z :=
  [0; 1; 0x81; 0x80; 0; 1; 0; an; 0; 0; 0; 0].

Definition sample_question : list Z := [1; 97; 1; 98; 0; 0; 1; 0; 1].

(** Answer records, each named by a pointer to offset 12: an A record for
    93.184.216.34, a CNAME record, an A record with RDLENGTH 3, and a AAAA
    record. *)
Definition sample_rr_a : list Z :=
  [0xC0; 0x0C; 0; 1; 0; 1; 0; 0; 0; 60; 0; 4; 93; 184; 216; 34].

Definition sample_rr_cname : list Z :=
  [0xC0; 0x0C; 0; 5; 0; 1; 0; 0; 0; 60; 0; 2; 0xC0; 0x0C].

Definition sample_rr_short_a : list Z :=
  [0xC0; 0x0C; 0; 1; 0; 1; 0; 0; 0; 60; 0; 3; 93; 184; 216].

Definition sample_rr_aaaa : list Z :=
  [0xC0; 0x0C; 0; 28; 0; 1; 0; 0; 0; 60; 0; 16;
   32; 1; 13; 184; 0; 0; 0; 0; 0; 0; 0; 0; 0; 0; 0; 1].

(** An A record for 10.0.0.1 owned by "a.c", its name written in full:
    name at 0..4, TYPE, CLASS, TTL and RDLENGTH at 5..14, RDATA at 15..18. *)
Definition sample_rr_a_other : list Z :=
  [1; 97; 1; 99; 0; 0; 1; 0; 1; 0; 0; 0; 60; 0; 4; 10; 0; 0; 1].

(** A response to the query of [adapter1] with two answers: the record of
    "a.c" (bytes 21..39, its fixed block at 26) and the A record of "a.b"
    behind it (bytes 40..55). *)
Definition sample_response_other_owner : list Z :=
  sample_header 2 ++ sample_question ++ sample_rr_a_other ++ sample_rr_a.

(** Three responses to the query of [adapter1]: one A record; one CNAME
    record and nothing else; one AAAA record and nothing else. *)
Definition sample_response_a : list Z :=
  sample_header 1 ++ sample_question ++ sample_rr_a.

Definition sample_response_cname : list Z :=
  sample_header 1 ++ sample_question ++ sample_rr_cname.

Definition sample_response_aaaa : list Z :=
  sample_header 1 ++ sample_question ++ sample_rr_aaaa.

(** The same as [sample_response_a] with response code 3 (name error). *)
Definition sample_response_nxdomain : list Z :=
  [0; 1; 0x81; 0x83; 0; 1; 0; 1; 0; 0; 0; 0] ++ sample_question ++ sample_rr_a.

(** The resolver state of [adapter1] with the transaction id at its
    maximum. *)
Definition dns_at_ffff : mobile_adapter_dns :=
  {| id := 0xFFFF; type := type (dns adapter1); name := name (dns adapter1);
     name_len := name_len (dns adapter1); buffer := buffer (dns adapter1);
     buffer_len := buffer_len (dns adapter1) |}.

(** The adapter after a query for "example.com", and a response to it with
    one A record for 93.184.216.34. *)
Definition adapter_example : mobile_adapter :=
  (mobile_dns_query_send 256 adapter0 3 "example.com" true).1.2.

Definition sample_response_example : list Z :=
  sample_header 1
  ++ [7; 101; 120; 97; 109; 112; 108; 101; 3; 99; 111; 109; 0; 0; 1; 0; 1]
  ++ sample_rr_a.

(** The adapter of [dns_at_ffff] after one more query for "a.b", and a
    response to that query: id 0x0000. *)
Definition adapter_wrapped : mobile_adapter :=
  (mobile_dns_query_send 256 (set_dns adapter1 dns_at_ffff) 3 "a.b" true).1.2.

Definition sample_response_wrapped : list Z :=
  [0; 0; 0x81; 0x80; 0; 1; 0; 1; 0; 0; 0; 0] ++ sample_question ++ sample_rr_a.

(** A resolver state whose name array has a capacity of 5 bytes, with three
    bytes of other memory behind it. *)
Definition sample_name_state : mobile_adapter_dns :=
  set_name (dns adapter0) (replicate 8 7).

(** A datagram from somewhere else. *)
Definition from_stranger (d : list Z) : sock_recv_result :=
  {| recv_ret := Z.of_nat (length d); recv_data := d;
     recv_from := addr4 53 (1, 1, 1, 1) |}.

(** [bytes], as a check that computes. *)
Definition bytesb (a : list Z) : bool :=
  forallb (fun b => (0 <=? b) && (b <? 256)) a.

(** A response whose question name is a pointer to itself. *)
Definition sample_cycle : list Z :=
  sample_header 1 ++ [0xC0; 0x0C; 0; 1; 0; 1] ++ sample_rr_a.

(** The resolver state once a datagram [d] from the resolver has been
    received into it. *)
Definition received (adapter : mobile_adapter) (d : list Z) : mobile_adapter_dns :=
  taken_in (dns adapter) (from_resolver d).

(** * Further reference notions *)

(** The wire form of a list of labels: each label behind its length byte;
    a name is its labels and the terminating zero. *)
Definition wire_labels (ls : list (list ascii)) : list Z :=
  flat_map (fun l => Z.of_nat (length l) :: map char_code l) ls.

Definition wire_name (ls : list (list ascii)) : list Z := wire_labels ls ++ [0].

(** [cur], the characters already seen of the label in progress, put in
    front of the labels still to come. *)
Definition join_label (cur : list ascii) (ls : list (list ascii))
  : list (list ascii) :=
  match ls with
  | l :: ls' => (cur ++ l) :: ls'
  | [] => [cur]
  end.

(** The datagram of a query as RFC 1035 lays it out: the header with the
    id, the flags "standard query, recursion desired" and one question; the
    name; the type and the class IN. *)
Definition dns_query_header (i : Z) : list Z :=
  [Z.land (Z.shiftr i 8) 0xFF; Z.land i 0xFF; 1; 0; 0; 1; 0; 0; 0; 0; 0; 0].

Definition dns_question_trailer (t : dns_qtype) : list Z := [0; qtype_code t; 0; 1].

(** The resolver state after [n] more calls of [dns_make_query]. *)
Fixpoint after_queries (n : nat) (t : dns_qtype) (s : mobile_adapter_dns)
  : mobile_adapter_dns :=
  match n with
  | O => s
  | S n' => (dns_make_query (after_queries n' t s) t).2
  end.

(** The bytes [bs] stand in the array [a] from offset [off] on. *)
Definition holds_at (a : list Z) (off : Z) (bs : list Z) : Prop :=
  take (length bs) (drop (Z.to_nat off) a) = bs.

(** A label that a name on the wire can carry: 1 to 63 bytes. *)
Definition label_ok (l : list ascii) : Prop := (1 <= length l <= 63)%nat.

(** The stored name of the state is the wire form of the labels [ls]. *)
Definition name_is (s : mobile_adapter_dns) (ls : list (list ascii)) : Prop :=
  Forall label_ok ls
  /\ holds_at (name s) 0 (wire_name ls)
  /\ name_len s = Z.of_nat (length (wire_name ls)).

(** The two bytes at [q] are a compression pointer to [target]. *)
Definition points_to (a : list Z) (q target : Z) : Prop :=
  Z.land (load a q) 0xC0 = 0xC0
  /\ Z.lor (Z.shiftl (Z.land (load a q) 0x3F) 8) (load a (q + 1)) = target.

(** A bound that computes, for facts on the 64 values of six bits. *)
Definition six_bits_all (f : Z -> bool) : bool :=
  forallb (fun k => f (Z.of_nat k)) (seq 0 64).

(** A response as a resolver sends it: the header with the id of the query,
    the flags 81 80, one question and [an] answers; the question echoed;
    and a type A record whose name is a pointer to the question at offset
    12, with the time to live [ttl] and the four address bytes [a]. *)
Definition dns_response_header (i an : Z) : list Z :=
  [Z.land (Z.shiftr i 8) 0xFF; Z.land i 0xFF; 0x81; 0x80; 0; 1; 0; an; 0; 0; 0; 0].

Definition dns_answer_a (ttl a : list Z) : list Z :=
  [0xC0; 0x0C; 0; 1; 0; 1] ++ ttl ++ [0; 4] ++ a.

Definition dns_response_a (i an : Z) (ls : list (list ascii)) (ttl a tail : list Z)
  : list Z :=
  dns_response_header i an ++ wire_name ls ++ dns_question_trailer DNS_QTYPE_A
  ++ dns_answer_a ttl a ++ tail.

(** The datagram [d] as it comes from the configured resolver. *)
Definition datagram_from_resolver (adapter : mobile_adapter) (d : list Z)
  : sock_recv_result :=
  {| recv_ret := Z.of_nat (length d); recv_data := d;
     recv_from := resolver_addr adapter |}.

(** The labels of "a.b" and of "a.c"; a response for "a.c" with the id of
    the query of [adapter1]; a response whose question name starts with a
    byte of label type 01. *)
Definition sample_labels : list (list ascii) := [["a"%char]; ["b"%char]].

Definition sample_labels_other : list (list ascii) := [["a"%char]; ["c"%char]].

Definition sample_response_other : list Z :=
  dns_response_a 1 1 sample_labels_other [0; 0; 0; 60] [93; 184; 216; 34] [].

Definition sample_unknown_label : list Z :=
  sample_header 1 ++ [0x40; 1; 0; 1; 0; 0; 0; 60; 0; 4; 93; 184; 216; 34].

(** The offset a compression pointer at [p] refers to. *)
Definition pointer_target (a : list Z) (p : Z) : Z :=
  Z.lor (Z.shiftl (Z.land (load a p) 0x3F) 8) (load a (p + 1)).

(** A number of passes after which a walk from [w] that only follows
    pointers to lower offsets has ended. *)
Definition walk_bound (s : mobile_adapter_dns) (w : walk) : Z :=
  (name_len s - w_name w) * (buffer_len s + 1) + w_cmp w + 1.

(** * Arrays *)

Lemma length_store a i v : length (store a i v) = length a.
Proof. unfold store. apply length_insert. Qed.

Lemma load_store_eq a i v :
  (Z.to_nat i < length a)%nat -> load (store a i v) i = v.
Proof.
  intros Hi. unfold load, store.
  rewrite list_lookup_insert_eq by exact Hi. reflexivity.
Qed.

Lemma load_store_ne a i j v :
  0 <= i -> 0 <= j -> i <> j -> load (store a i v) j = load a j.
Proof.
  intros Hi Hj Hne. unfold load, store.
  rewrite list_lookup_insert_ne by lia. reflexivity.
Qed.

Lemma load_app_l a b i :
  0 <= i -> (Z.to_nat i < length a)%nat -> load (a ++ b) i = load a i.
Proof.
  intros _ Hi. unfold load. rewrite lookup_app_l by exact Hi. reflexivity.
Qed.

Lemma take_memcpy_0 a src : take (length src) (memcpy a 0 src) = src.
Proof.
  unfold memcpy. simpl. rewrite take_app_length. reflexivity.
Qed.

(** * dns_make_name: when the encoder fails *)

Lemma split_labels_cons cs : exists l ls, split_labels cs = l :: ls.
Proof.
  induction cs as [|c cs IH]; simpl.
  - eauto.
  - destruct (Ascii.eqb c "."); [eauto|].
    destruct IH as (l & ls & ->). eauto.
Qed.

Lemma too_long_after_0 cs : too_long_after 0 cs <-> label_too_long cs.
Proof.
  unfold too_long_after, label_too_long.
  destruct (split_labels_cons cs) as (l & ls & ->).
  rewrite Exists_cons. split; (intros [H|H]; [left; lia | right; exact H]).
Qed.

Lemma too_long_after_dot k cs :
  k <= 63 -> too_long_after k ("."%char :: cs) <-> too_long_after 0 cs.
Proof.
  intros Hk. rewrite too_long_after_0.
  unfold too_long_after, label_too_long. simpl.
  split; [intros [H|H]; [lia | exact H] | intros H; right; exact H].
Qed.

Lemma too_long_after_char k c cs :
  Ascii.eqb c "."%char = false ->
  too_long_after k (c :: cs) <-> too_long_after (k + 1) cs.
Proof.
  intros Hc. unfold too_long_after. simpl. rewrite Hc.
  destruct (split_labels_cons cs) as (l & ls & ->). simpl.
  split; (intros [H|H]; [left; lia | right; exact H]).
Qed.

Section MakeNameFacts.

Variable MAX : Z.

Lemma dns_make_name_loop_fails cs :
  forall nm d len,
    Z.of_nat (length nm) = MAX ->
    0 <= len < d -> d <= MAX - 1 ->
    0 <= load nm len <= 63 ->
    (dns_make_name_loop MAX cs nm d len).1.1 = false <->
    (MAX - 1 < d + Z.of_nat (length cs) \/ too_long_after (load nm len) cs).
Proof.
  induction cs as [|c cs IH]; intros nm d len Hlen Hd Hmax Hk.
  - simpl. split; [discriminate|]. intros [H|H]; [lia|].
    unfold too_long_after in H. simpl in H.
    destruct H as [H|H]; [lia | inversion H].
  - cbn [dns_make_name_loop].
    destruct (Z.geb_spec d (MAX - 1)) as [Hge|Hlt].
    { simpl. split; [intros _; left|reflexivity].
      cbn [length]. lia. }
    destruct (Ascii.eqb c ".") eqn:Hc.
    + apply Ascii.eqb_eq in Hc. subst c.
      rewrite IH.
      * rewrite load_store_eq by lia.
        rewrite too_long_after_dot by lia.
        cbn [length]. split; (intros [H|H]; [left; lia | right; exact H]).
      * rewrite length_store. exact Hlen.
      * lia.
      * lia.
      * rewrite load_store_eq by lia. lia.
    + rewrite (too_long_after_char _ _ _ Hc).
      destruct (Z.geb_spec (load nm len) 63) as [Hfull|Hroom].
      { simpl. split; [intros _; right|reflexivity].
        unfold too_long_after.
        destruct (split_labels_cons cs) as (l & ls & ->). left. lia. }
      assert (Hk1 : load (store nm d (char_code c)) len = load nm len).
      { apply load_store_ne; lia. }
      assert (Hk2 : load (store (store nm d (char_code c)) len
                            (u8 (load (store nm d (char_code c)) len + 1))) len
                    = load nm len + 1).
      { rewrite load_store_eq by (rewrite length_store; lia).
        rewrite Hk1. unfold u8. apply Z.mod_small. lia. }
      rewrite IH.
      * rewrite Hk2. cbn [length].
        split; (intros [H|H]; [left; lia | right; exact H]).
      * rewrite !length_store. exact Hlen.
      * lia.
      * lia.
      * rewrite Hk2. lia.
Qed.

Lemma dns_make_name_fst state host :
  (dns_make_name MAX state host).1
  = (dns_make_name_loop MAX (list_ascii_of_string host)
       (store (name state) 0 0) 1 0).1.1.
Proof.
  unfold dns_make_name.
  destruct (dns_make_name_loop _ _ _ _ _) as [[[] nm] d]; reflexivity.
Qed.

End MakeNameFacts.

(** C4 (as amended).  [dns_make_name] returns failure exactly when some
    label of the host is longer than 63 bytes or the encoded form (the
    host's length plus 2) is larger than [MOBILE_DNS_MAX_NAME_SIZE]; no
    other input fails, so an empty host and empty labels are encoded. *)
Theorem dns_make_name_fails_iff (MAX : Z) (state : mobile_adapter_dns) (host : string) :
  Z.of_nat (length (name state)) = MAX ->
  2 <= MAX ->
  (dns_make_name MAX state host).1 = false <->
  (label_too_long (list_ascii_of_string host)
   \/ MAX < encoded_size (list_ascii_of_string host)).
Proof.
  intros Hlen Hmax. rewrite dns_make_name_fst.
  rewrite dns_make_name_loop_fails.
  - rewrite load_store_eq by lia. rewrite too_long_after_0.
    unfold encoded_size.
    split; intros [H|H]; [right; lia | left; exact H | right; exact H | left; lia].
  - rewrite length_store. exact Hlen.
  - lia.
  - lia.
  - rewrite load_store_eq by lia. lia.
Qed.

(** * dns_verify_response: the flags check *)

Lemma land_0xF flags : Z.land flags 0xF = rcode flags.
Proof. unfold rcode. change 0xF with (Z.ones 4). apply Z.land_ones. lia. Qed.

Lemma rcode_range flags : 0 <= rcode flags < 16.
Proof. unfold rcode. apply Z.mod_pos_bound. lia. Qed.

(** Bit [i] of [flags], read off an equation on the masked field. *)
Ltac masked_bit H i :=
  let Hi := fresh "Hbit" in
  pose proof (f_equal (fun x => Z.testbit x i) H) as Hi;
  cbv beta in Hi; rewrite Z.land_spec in Hi;
  let m := eval vm_compute in (Z.testbit 0xFBFF i) in
  change (Z.testbit 0xFBFF i) with m in Hi;
  let v := eval vm_compute in (Z.testbit 0x8180 i) in
  change (Z.testbit 0x8180 i) with v in Hi;
  rewrite andb_true_r in Hi.

Lemma flags_mask_pattern flags :
  Z.land flags 0xFBFF = 0x8180 -> flags_pattern flags = true.
Proof.
  intros H.
  masked_bit H 15. masked_bit H 14. masked_bit H 13. masked_bit H 12.
  masked_bit H 11. masked_bit H 9. masked_bit H 8. masked_bit H 7.
  masked_bit H 6. masked_bit H 5. masked_bit H 4. masked_bit H 3.
  masked_bit H 2. masked_bit H 1. masked_bit H 0.
  unfold flags_pattern.
  repeat match goal with Hb : Z.testbit flags _ = _ |- _ => rewrite Hb; clear Hb end.
  reflexivity.
Qed.

Lemma flags_pattern_mask flags :
  flags_pattern flags = true -> Z.land flags 0xFBFF = 0x8180.
Proof.
  unfold flags_pattern. intros H.
  repeat match goal with
         | Hb : _ && _ = true |- _ => apply andb_prop in Hb; destruct Hb
         end.
  repeat match goal with
         | Hb : negb _ = true |- _ => apply negb_true_iff in Hb
         end.
  apply Z.bits_inj'. intros n Hn. rewrite Z.land_spec.
  destruct (Z.lt_ge_cases n 16) as [Hlo|Hhi].
  - assert (Hk : (Z.to_nat n < 16)%nat) by lia.
    rewrite <- (Z2Nat.id n Hn). clear Hlo Hn.
    generalize dependent (Z.to_nat n). clear n. intros k Hk.
    do 16 (destruct k as [|k];
           [ match goal with
             | |- context [Z.of_nat ?m] =>
               let v := eval vm_compute in (Z.of_nat m) in
               change (Z.of_nat m) with v
             end;
             first [ match goal with
                     | Hb : Z.testbit flags _ = _ |- _ => rewrite Hb
                     end; reflexivity
                   | destruct (Z.testbit flags 10); reflexivity ]
           | ]).
    lia.
  - rewrite (Z.bits_above_log2 0xFBFF n), (Z.bits_above_log2 0x8180 n);
      [apply andb_false_r | lia | simpl; lia | lia | simpl; lia].
Qed.

Lemma flags_pattern_spec flags :
  flags_pattern flags = (Z.land flags 0xFBFF =? 0x8180).
Proof.
  destruct (Z.eqb_spec (Z.land flags 0xFBFF) 0x8180) as [H|H].
  - apply flags_mask_pattern, H.
  - destruct (flags_pattern flags) eqn:E; [|reflexivity].
    exfalso. apply H, flags_pattern_mask, E.
Qed.

Lemma dns_verify_response_past_flags fuel state offset r o :
  DNS_HEADER_SIZE <= buffer_len state ->
  be16 (buffer state) 0 = id state ->
  flags_pattern (be16 (buffer state) 2) = true ->
  dns_verify_response fuel state offset = Some (r, o) ->
  r = -18 \/ r = -19 \/ 1 <= r.
Proof.
  intros Hlen Hid Hpat. unfold dns_verify_response.
  destruct (Z.ltb_spec (buffer_len state) DNS_HEADER_SIZE); [lia|].
  rewrite Hid, Z.eqb_refl, <- flags_pattern_spec, Hpat. cbn [negb].
  destruct (negb (be16 (buffer state) 4 =? 1)); [intros [= <- <-]; auto|].
  destruct (Z.ltb_spec (be16 (buffer state) 6) 1); [intros [= <- <-]; auto|].
  destruct (dns_compare_name fuel state DNS_HEADER_SIZE) as [[c o']|];
    [|discriminate].
  cbn [mbind option_bind].
  repeat match goal with
         | |- context [if ?b then _ else _] => destruct b
         end; intros [= <- <-]; auto.
Qed.

Lemma dns_verify_response_bad_flags fuel state offset :
  DNS_HEADER_SIZE <= buffer_len state ->
  be16 (buffer state) 0 = id state ->
  flags_pattern (be16 (buffer state) 2) = false ->
  dns_verify_response fuel state offset
  = Some (-2 - rcode (be16 (buffer state) 2), offset).
Proof.
  intros Hlen Hid Hpat. unfold dns_verify_response.
  destruct (Z.ltb_spec (buffer_len state) DNS_HEADER_SIZE); [lia|].
  rewrite Hid, Z.eqb_refl, <- flags_pattern_spec, Hpat, land_0xF.
  reflexivity.
Qed.

(** C7.  Past the header-size and id checks, [dns_verify_response] lets the
    flags field through exactly when it shows the happy-path pattern (bit
    10 apart); a field that does not is rejected with [-2 - rcode], a code
    in [-17, -2] that no later check returns and that two rejected
    responses share only when their 4-bit response codes are equal. *)
Theorem dns_verify_response_flags (fuel fuel' : nat)
    (state state' : mobile_adapter_dns) (offset offset' : Z) :
  DNS_HEADER_SIZE <= buffer_len state ->
  be16 (buffer state) 0 = id state ->
  DNS_HEADER_SIZE <= buffer_len state' ->
  be16 (buffer state') 0 = id state' ->
  let flags := be16 (buffer state) 2 in
  let flags' := be16 (buffer state') 2 in
  let rejected :=
    dns_verify_response fuel state offset = Some (-2 - rcode flags, offset) in
  (flags_pattern flags = true <-> ~ rejected)
  /\ (flags_pattern flags = true ->
      forall r o, dns_verify_response fuel state offset = Some (r, o) ->
                  r = -18 \/ r = -19 \/ 1 <= r)
  /\ -17 <= -2 - rcode flags <= -2
  /\ (flags_pattern flags = false -> flags_pattern flags' = false ->
      (fst <$> dns_verify_response fuel state offset
       = fst <$> dns_verify_response fuel' state' offset'
       <-> rcode flags = rcode flags')).
Proof.
  intros Hlen Hid Hlen' Hid' flags flags' rejected.
  pose proof (rcode_range flags) as Hrc.
  split; [|split; [|split]].
  - split.
    + intros Hpat Hrej.
      destruct (dns_verify_response_past_flags _ _ _ _ _ Hlen Hid Hpat Hrej)
        as [H|[H|H]]; lia.
    + intros Hnot. destruct (flags_pattern flags) eqn:E; [reflexivity|].
      exfalso. apply Hnot. apply dns_verify_response_bad_flags; assumption.
  - intros Hpat r o. apply dns_verify_response_past_flags; assumption.
  - lia.
  - intros Hpat Hpat'.
    rewrite (dns_verify_response_bad_flags fuel state offset Hlen Hid Hpat).
    rewrite (dns_verify_response_bad_flags fuel' state' offset' Hlen' Hid' Hpat').
    cbn. fold flags flags'. split; [intros [= H]; lia | intros ->; reflexivity].
Qed.

(** * dns_compare_name: the walk *)

Lemma load_bytes a i : bytes a -> 0 <= load a i < 256.
Proof.
  intros Ha. unfold load.
  destruct (a !! Z.to_nat i) as [b|] eqn:E; simpl; [|lia].
  unfold bytes in Ha. rewrite Forall_lookup in Ha. exact (Ha _ _ E).
Qed.

Lemma dns_compare_name_walks fuel state offset :
  offset < buffer_len state -> name_len state <> 0 ->
  dns_compare_name fuel state offset
  = (r ← dns_compare_loop fuel state (walk_start offset);
     match r with
     | inl v => Some (v, offset)
     | inr w => Some (dns_compare_finish state offset w)
     end).
Proof.
  intros Hoff Hlen. unfold dns_compare_name.
  destruct (Z.geb_spec offset (buffer_len state)); [lia|].
  destruct (Z.eqb_spec (name_len state) 0); [contradiction|]. reflexivity.
Qed.

(** What a pass that goes round again did to the cursors: it followed a
    pointer, or it consumed a label. *)
Lemma dns_compare_step_cont state w w' :
  bytes (buffer state) ->
  dns_compare_step state w = Cont w' ->
  let c := load (buffer state) (w_cmp w) in
  (is_pointer c = true /\ 0 <= w_cmp w' /\ w_name w' = w_name w
   /\ w_end w' = (if w_end w <? 0 then w_cmp w + 2 else w_end w))
  \/ (is_pointer c = false /\ w_cmp w' = w_cmp w + (c + 1)
      /\ w_name w' = w_name w + (c + 1) /\ 0 < c /\ w_end w' = w_end w).
Proof.
  intros Hb. unfold dns_compare_step, is_pointer.
  pose proof (load_bytes (buffer state) (w_cmp w) Hb) as Hc.
  pose proof (load_bytes (buffer state) (w_cmp w + 1) Hb) as Hc1.
  destruct (Z.eqb_spec (load (buffer state) (w_cmp w)) 0) as [|Hnz];
    [discriminate|].
  destruct (Z.eqb_spec (Z.land (load (buffer state) (w_cmp w)) 192) 192)
    as [Hptr|Hnptr].
  - destruct (w_cmp w + 2 >? buffer_len state); [discriminate|].
    destruct (_ >=? buffer_len state); [discriminate|].
    intros [= <-]. left. cbn. repeat split; try reflexivity.
    apply Z.lor_nonneg. split; [|lia].
    apply Z.shiftl_nonneg, Z.land_nonneg. right. lia.
  - destruct (Z.eqb_spec (Z.land (load (buffer state) (w_cmp w)) 192) 0);
      [|discriminate].
    destruct (_ >=? name_len state); [discriminate|].
    destruct (_ >=? buffer_len state); [discriminate|].
    destruct (label_equal _ _ _ _ _); [|discriminate].
    intros [= <-]. right. cbn. repeat split; try reflexivity. lia.
Qed.

Lemma dns_compare_step_brk state w w' :
  dns_compare_step state w = Brk w' ->
  w' = w /\ load (buffer state) (w_cmp w) = 0.
Proof.
  unfold dns_compare_step.
  destruct (Z.eqb_spec (load (buffer state) (w_cmp w)) 0) as [Hz|Hnz].
  - intros [= <-]. auto.
  - repeat match goal with
           | |- context [if ?b then _ else _] => destruct b
           end; discriminate.
Qed.

(** The value of [end] at the [break]: fixed by the first pointer followed,
    untouched by every later pass. *)
Lemma dns_compare_loop_end fuel state :
  bytes (buffer state) ->
  forall w0 w,
    0 <= w_cmp w0 ->
    dns_compare_loop fuel state w0 = Some (inr w) ->
    load (buffer state) (w_cmp w) = 0
    /\ (if w_end w <? 0 then w_cmp w + 1 else w_end w)
       = (if w_end w0 <? 0
          then match pointers_followed fuel state w0 with
               | p :: _ => p + 2
               | [] => w_cmp w + 1
               end
          else w_end w0).
Proof.
  intros Hb. induction fuel as [|fuel IH]; intros w0 w Hcmp Hloop;
    [discriminate|].
  cbn [dns_compare_loop pointers_followed] in *.
  destruct (dns_compare_step state w0) as [r|w'|w'] eqn:Hstep.
  - discriminate.
  - apply dns_compare_step_brk in Hstep as [-> Hz].
    injection Hloop as <-. split; [exact Hz|].
    destruct (w_end w0 <? 0); reflexivity.
  - pose proof (load_bytes (buffer state) (w_cmp w0) Hb) as Hc.
    destruct (dns_compare_step_cont _ _ _ Hb Hstep)
      as [(Hp & Hpos & _ & He)|(Hp & Hc' & _ & Hlen & He)]; rewrite Hp.
    + destruct (IH w' w Hpos Hloop) as [Hz Hend]. split; [exact Hz|].
      rewrite Hend, He. cbn [app].
      destruct (Z.ltb_spec (w_end w0) 0) as [Hneg|Hset].
      * destruct (Z.ltb_spec (w_cmp w0 + 2) 0); [lia|reflexivity].
      * destruct (Z.ltb_spec (w_end w0) 0); [lia|reflexivity].
    + assert (Hpos : 0 <= w_cmp w') by lia.
      destruct (IH w' w Hpos Hloop) as [Hz Hend]. split; [exact Hz|].
      rewrite Hend, He. reflexivity.
Qed.

(** C6.  When the walk ends at a zero byte and the stored name is at its
    terminator too (a successful match), the offset written back is the
    position of the first pointer followed plus 2, whatever pointers came
    after it, and one past the terminating zero byte when no pointer was
    followed. *)
Theorem dns_compare_name_end_offset (fuel : nat) (state : mobile_adapter_dns)
    (offset : Z) (w : walk) :
  bytes (buffer state) ->
  0 <= offset < buffer_len state ->
  name_len state <> 0 ->
  dns_compare_loop fuel state (walk_start offset) = Some (inr w) ->
  load (name state) (w_name w) = 0 ->
  load (buffer state) (w_cmp w) = 0
  /\ dns_compare_name fuel state offset
     = Some (0, match pointers_followed fuel state (walk_start offset) with
                | p :: _ => p + 2
                | [] => w_cmp w + 1
                end).
Proof.
  intros Hb Hoff Hlen Hloop Hname.
  destruct (dns_compare_loop_end fuel state Hb (walk_start offset) w
              (proj1 Hoff) Hloop) as [Hz Hend].
  split; [exact Hz|].
  rewrite dns_compare_name_walks by lia. rewrite Hloop. cbn [mbind option_bind].
  unfold dns_compare_finish. rewrite Hz, Hname. cbn [Z.eqb negb orb].
  rewrite Hend. reflexivity.
Qed.

Lemma dns_compare_loop_cmp_nonneg fuel state :
  bytes (buffer state) ->
  forall w0 w,
    0 <= w_cmp w0 ->
    dns_compare_loop fuel state w0 = Some (inr w) ->
    0 <= w_cmp w.
Proof.
  intros Hb. induction fuel as [|fuel IH]; intros w0 w Hcmp Hloop;
    [discriminate|].
  cbn [dns_compare_loop] in Hloop.
  destruct (dns_compare_step state w0) as [r|w'|w'] eqn:Hstep.
  - discriminate.
  - apply dns_compare_step_brk in Hstep as [-> _].
    injection Hloop as <-. exact Hcmp.
  - apply (IH w' w); [|exact Hloop].
    destruct (dns_compare_step_cont _ _ _ Hb Hstep)
      as [(_ & Hpos & _)|(_ & Hc' & _ & Hlen & _)]; lia.
Qed.

(** The offset that [dns_compare_name] leaves is an offset. *)
Lemma dns_compare_name_offset_nonneg fuel state offset c info :
  bytes (buffer state) ->
  0 <= offset ->
  dns_compare_name fuel state offset = Some (c, info) ->
  0 <= info.
Proof.
  intros Hb Hoff. unfold dns_compare_name.
  destruct (offset >=? buffer_len state); [intros [= _ <-]; exact Hoff|].
  destruct (name_len state =? 0); [intros [= _ <-]; exact Hoff|].
  destruct (dns_compare_loop fuel state (walk_start offset)) as [[v|w]|] eqn:Hloop;
    cbn [mbind option_bind]; [intros [= _ <-]; exact Hoff| |discriminate].
  pose proof (dns_compare_loop_cmp_nonneg fuel state Hb (walk_start offset) w
                Hoff Hloop) as Hw.
  unfold dns_compare_finish.
  destruct (_ || _); [intros [= _ <-]; exact Hoff|].
  intros [= _ <-]. destruct (Z.ltb_spec (w_end w) 0); lia.
Qed.

(** A result reached within some fuel is the result with any larger fuel. *)
Lemma dns_compare_loop_more_fuel fuel fuel' state w r :
  (fuel <= fuel')%nat ->
  dns_compare_loop fuel state w = Some r ->
  dns_compare_loop fuel' state w = Some r.
Proof.
  revert fuel' w. induction fuel as [|fuel IH]; intros fuel' w Hle Hloop;
    [discriminate|].
  destruct fuel' as [|fuel']; [lia|].
  cbn [dns_compare_loop] in *.
  destruct (dns_compare_step state w); try exact Hloop.
  apply IH; [lia|exact Hloop].
Qed.

Lemma dns_compare_name_more_fuel fuel fuel' state offset r :
  (fuel <= fuel')%nat ->
  dns_compare_name fuel state offset = Some r ->
  dns_compare_name fuel' state offset = Some r.
Proof.
  intros Hle. unfold dns_compare_name.
  destruct (offset >=? buffer_len state); [auto|].
  destruct (name_len state =? 0); [auto|].
  destruct (dns_compare_loop fuel state (walk_start offset)) as [x|] eqn:Hloop;
    [|discriminate].
  rewrite (dns_compare_loop_more_fuel _ _ _ _ _ Hle Hloop). auto.
Qed.

(** The walk of the self-pointing name goes round for ever. *)
Lemma dns_compare_loop_cycle fuel :
  dns_compare_loop fuel (received adapter1 sample_cycle)
    {| w_name := 0; w_cmp := 12; w_end := 14 |} = None.
Proof.
  induction fuel as [|fuel IH]; [reflexivity|].
  cbn [dns_compare_loop].
  replace (dns_compare_step (received adapter1 sample_cycle)
             {| w_name := 0; w_cmp := 12; w_end := 14 |})
    with (Cont {| w_name := 0; w_cmp := 12; w_end := 14 |})
    by (vm_compute; reflexivity).
  exact IH.
Qed.

Lemma dns_compare_name_cycle fuel :
  dns_compare_name fuel (received adapter1 sample_cycle) 12 = None.
Proof.
  rewrite dns_compare_name_walks by (vm_compute; congruence).
  destruct fuel as [|fuel]; [reflexivity|].
  cbn [dns_compare_loop].
  replace (dns_compare_step (received adapter1 sample_cycle) (walk_start 12))
    with (Cont {| w_name := 0; w_cmp := 12; w_end := 14 |})
    by (vm_compute; reflexivity).
  rewrite dns_compare_loop_cycle. reflexivity.
Qed.

(** * dns_make_query: the transaction id *)

Lemma testbit_above_16 v n : 0 <= v < 65536 -> 16 <= n -> Z.testbit v n = false.
Proof.
  intros Hv Hn. destruct (Z.eq_dec v 0) as [->|Hnz]; [apply Z.testbit_0_l|].
  apply Z.bits_above_log2; [lia|].
  assert (Z.log2 v < 16) by (apply Z.log2_lt_pow2; lia). lia.
Qed.

Lemma be16_of_id_bytes v rest :
  0 <= v < 65536 ->
  be16 (Z.land (Z.shiftr v 8) 0xFF :: Z.land (Z.shiftr v 0) 0xFF :: rest) 0 = v.
Proof.
  intros Hv.
  change (Z.lor (Z.shiftl (Z.land (Z.shiftr v 8) (Z.ones 8)) 8)
                (Z.land (Z.shiftr v 0) (Z.ones 8)) = v).
  rewrite Z.shiftr_0_r.
  apply Z.bits_inj'. intros n Hn. rewrite Z.lor_spec, Z.land_spec.
  destruct (Z.lt_ge_cases n 8) as [Hlo|Hhi].
  - rewrite Z.shiftl_spec_low, Z.ones_spec_low by lia.
    rewrite andb_true_r. reflexivity.
  - rewrite Z.shiftl_spec, Z.land_spec, Z.shiftr_spec by lia.
    rewrite (Z.ones_spec_high 8 n) by lia.
    replace (n - 8 + 8) with n by lia. rewrite andb_false_r, orb_false_r.
    destruct (Z.lt_ge_cases n 16) as [Hlo16|Hhi16].
    + rewrite Z.ones_spec_low by lia. apply andb_true_r.
    + rewrite testbit_above_16 by lia. reflexivity.
Qed.

Lemma memcpy_after_prefix a hdr src :
  memcpy (memcpy a 0 hdr) (Z.of_nat (length hdr)) src
  = hdr ++ src ++ drop (length hdr + length src) (memcpy a 0 hdr).
Proof.
  unfold memcpy at 1. rewrite Nat2Z.id. f_equal.
  unfold memcpy. simpl. apply take_app_length.
Qed.

Lemma u16_range v : 0 <= u16 v < 65536.
Proof. unfold u16. apply Z.mod_pos_bound. lia. Qed.

Lemma dns_make_query_id state t : id (dns_make_query state t).2 = u16 (id state + 1).
Proof. reflexivity. Qed.

(** The id field of the header that [dns_make_query] writes is the new id. *)
Lemma dns_make_query_wire_id state t :
  0 <= name_len state ->
  be16 (buffer (dns_make_query state t).2) 0 = id (dns_make_query state t).2.
Proof.
  intros Hlen. rewrite dns_make_query_id.
  unfold dns_make_query. cbn [snd buffer]. unfold be16.
  rewrite !load_store_ne by (unfold DNS_HEADER_SIZE; lia).
  match goal with
  | |- context [memcpy (memcpy _ 0 ?h) DNS_HEADER_SIZE ?src] =>
    change DNS_HEADER_SIZE with (Z.of_nat (length h));
    rewrite (memcpy_after_prefix _ h src)
  end.
  cbn [app]. apply be16_of_id_bytes, u16_range.
Qed.

Lemma length_bytes_at a off n : length (bytes_at a off n) = n.
Proof.
  revert off. induction n as [|n IH]; intros off; [reflexivity|].
  cbn [bytes_at length]. rewrite IH. reflexivity.
Qed.

(** The question that [dns_make_query] writes behind the name carries the
    type it was called with, provided the query fits the buffer. *)
Lemma dns_make_query_wire_qtype state t :
  0 <= name_len state ->
  16 + name_len state <= Z.of_nat (length (buffer state)) ->
  be16 (buffer (dns_make_query state t).2) (DNS_HEADER_SIZE + name_len state)
  = qtype_code t.
Proof.
  intros Hlen Hfit. unfold dns_make_query. cbn [snd buffer]. unfold be16.
  match goal with
  | |- context [memcpy (memcpy ?a 0 ?h) DNS_HEADER_SIZE ?src] =>
    assert (Hsize : (Z.to_nat (DNS_HEADER_SIZE + name_len state + 4)
                     <= length (memcpy (memcpy a 0 h) DNS_HEADER_SIZE src))%nat);
    [ change DNS_HEADER_SIZE with (Z.of_nat (length h)) at 2;
      rewrite (memcpy_after_prefix a h src);
      unfold memcpy; rewrite !length_app, !length_drop, !length_app,
        !length_drop, length_take, length_bytes_at;
      cbn [length]; unfold DNS_HEADER_SIZE; lia
    | generalize dependent (memcpy (memcpy a 0 h) DNS_HEADER_SIZE src) ]
  end.
  intros b Hsize. unfold DNS_HEADER_SIZE in *.
  rewrite !(load_store_ne _ _ (12 + name_len state)) by lia.
  rewrite load_store_eq by lia.
  rewrite !(load_store_ne _ _ (12 + name_len state + 1)) by lia.
  rewrite load_store_eq by (rewrite length_store; lia).
  destruct t; reflexivity.
Qed.

Lemma u16_succ_neq v : u16 (v + 1) <> v.
Proof.
  unfold u16. intros H.
  pose proof (Z.mod_pos_bound (v + 1) 65536) as Hr.
  assert (Hv : 0 <= v < 65536) by lia.
  destruct (Z.eq_dec v 65535) as [->|Hne]; [discriminate|].
  rewrite Z.mod_small in H by lia. lia.
Qed.

Lemma dns_make_name_loop_d MAX cs :
  forall nm d len, d <= (dns_make_name_loop MAX cs nm d len).2.
Proof.
  induction cs as [|c cs IH]; intros nm d len; cbn [dns_make_name_loop].
  - cbn. lia.
  - destruct (d >=? MAX - 1); [cbn; lia|].
    destruct (Ascii.eqb c "."); [etransitivity; [|apply IH]; lia|].
    destruct (load nm len >=? 63); [cbn; lia|].
    etransitivity; [|apply IH]. lia.
Qed.

Lemma dns_make_name_name_len MAX state host s :
  dns_make_name MAX state host = (true, s) -> 2 <= name_len s.
Proof.
  unfold dns_make_name.
  pose proof (dns_make_name_loop_d MAX (list_ascii_of_string host)
                (store (name state) 0 0) 1 0) as Hd.
  destruct (dns_make_name_loop _ _ _ _ _) as [[[] nm] d];
    intros [= <-]; cbn in *. lia.
Qed.

Lemma dns_make_name_id MAX state host :
  id (dns_make_name MAX state host).2 = id state.
Proof.
  unfold dns_make_name.
  destruct (dns_make_name_loop _ _ _ _ _) as [[[] nm] d]; reflexivity.
Qed.

Lemma be16_bytes_at a n : (2 <= n)%nat -> be16 (bytes_at a 0 n) 0 = be16 a 0.
Proof.
  intros Hn. destruct n as [|[|n]]; [lia|lia|]. reflexivity.
Qed.

(** The datagram that [mobile_dns_query_send] hands to the board carries the
    new id, which is the old one plus 1 modulo 2^16. *)
Lemma mobile_dns_query_send_wire_id MAX adapter conn host send_ok ok adapter'
    c data addr rest :
  mobile_dns_query_send MAX adapter conn host send_ok
  = (ok, adapter', board_sock_send c data addr :: rest) ->
  be16 data 0 = id (dns adapter')
  /\ id (dns adapter') = u16 (id (dns adapter) + 1).
Proof.
  unfold mobile_dns_query_send.
  destruct (dns_make_name MAX (dns adapter) host) as [[] s] eqn:Hname;
    [|discriminate].
  pose proof (dns_make_name_name_len _ _ _ _ Hname) as Hlen.
  assert (Hid : id (dns_make_query s DNS_QTYPE_A).2 = u16 (id (dns adapter) + 1)).
  { rewrite dns_make_query_id. f_equal. f_equal.
    change s with (true, s).2. rewrite <- Hname. apply dns_make_name_id. }
  assert (Hwire : be16 (bytes_at (buffer (dns_make_query s DNS_QTYPE_A).2) 0
                          (Z.to_nat (buffer_len (dns_make_query s DNS_QTYPE_A).2))) 0
                  = id (dns_make_query s DNS_QTYPE_A).2).
  { rewrite be16_bytes_at;
      [apply dns_make_query_wire_id; lia|].
    cbn [dns_make_query snd buffer_len]. unfold DNS_HEADER_SIZE, DNS_QD_SIZE. lia. }
  destruct (dns_make_query s DNS_QTYPE_A) as [[] q] eqn:Hq; cbn [snd] in *;
    [|discriminate].
  destruct send_ok; cbn [negb]; intros [= <- <- <- <- <- <-]; cbn [dns set_dns];
    auto.
Qed.

(** The ids on the wire of two consecutive queries sent through the public
    entry point differ. *)
Lemma mobile_dns_query_send_consecutive MAX adapter conn conn' host host'
    send_ok send_ok' ok ok' adapter' adapter'' c data addr rest c' data' addr' rest' :
  mobile_dns_query_send MAX adapter conn host send_ok
  = (ok, adapter', board_sock_send c data addr :: rest) ->
  mobile_dns_query_send MAX adapter' conn' host' send_ok'
  = (ok', adapter'', board_sock_send c' data' addr' :: rest') ->
  be16 data 0 <> be16 data' 0.
Proof.
  intros H1 H2.
  apply mobile_dns_query_send_wire_id in H1 as [-> _].
  apply mobile_dns_query_send_wire_id in H2 as [-> ->].
  intros H. exact (u16_succ_neq _ (eq_sym H)).
Qed.

(** * dns_verify_response: the id check *)

Lemma dns_verify_response_id fuel state offset :
  DNS_HEADER_SIZE <= buffer_len state ->
  be16 (buffer state) 0 = id state <->
  dns_verify_response fuel state offset <> Some (-1, offset).
Proof.
  intros Hlen. split.
  - intros Hid Hret.
    destruct (flags_pattern (be16 (buffer state) 2)) eqn:Hpat.
    + destruct (dns_verify_response_past_flags _ _ _ _ _ Hlen Hid Hpat Hret)
        as [H|[H|H]]; lia.
    + rewrite dns_verify_response_bad_flags in Hret by assumption.
      pose proof (rcode_range (be16 (buffer state) 2)).
      injection Hret as Hret. lia.
  - intros Hret. destruct (Z.eq_dec (be16 (buffer state) 0) (id state)) as [|Hne];
      [assumption|].
    exfalso. apply Hret. unfold dns_verify_response.
    destruct (Z.ltb_spec (buffer_len state) DNS_HEADER_SIZE); [reflexivity|].
    destruct (Z.eqb_spec (be16 (buffer state) 0) (id state)); [contradiction|].
    reflexivity.
Qed.

(** C5.  The id written into the wire header is the id of the state; the
    ids of two consecutive queries differ; from 0xFFFF the id goes to
    0x0000; and a response that carries the id of the outstanding query,
    the wrapped one included, passes the id check of
    [dns_verify_response]. *)
Theorem dns_make_query_fresh_id (state : mobile_adapter_dns) (t t' : dns_qtype)
    (fuel : nat) (response : list Z) (n offset : Z) :
  0 <= name_len state ->
  let q1 := (dns_make_query state t).2 in
  let q2 := (dns_make_query q1 t').2 in
  let r1 := set_buffer_len (set_buffer q1 response) n in
  be16 (buffer q1) 0 = id q1
  /\ be16 (buffer q2) 0 = id q2
  /\ be16 (buffer q1) 0 <> be16 (buffer q2) 0
  /\ (id state = 0xFFFF -> be16 (buffer q1) 0 = 0x0000)
  /\ (DNS_HEADER_SIZE <= n ->
      (be16 response 0 = be16 (buffer q1) 0 <->
       dns_verify_response fuel r1 offset <> Some (-1, offset))).
Proof.
  intros Hlen q1 q2 r1.
  assert (H1 : be16 (buffer q1) 0 = id q1)
    by (apply dns_make_query_wire_id; exact Hlen).
  assert (H2 : be16 (buffer q2) 0 = id q2)
    by (apply dns_make_query_wire_id; exact Hlen).
  split; [exact H1|]. split; [exact H2|]. split; [|split].
  - rewrite H1, H2. subst q2. rewrite dns_make_query_id.
    intros H. symmetry in H. exact (u16_succ_neq _ H).
  - intros Hid. rewrite H1. subst q1. rewrite dns_make_query_id, Hid.
    reflexivity.
  - intros Hn. rewrite H1.
    exact (dns_verify_response_id fuel r1 offset Hn).
Qed.

(** * mobile_dns_query_recv: the sender check *)

Lemma host4_eqb_eq a b : host4_eqb a b = true <-> a = b.
Proof.
  destruct a as [[[a0 a1] a2] a3], b as [[[b0 b1] b2] b3]. unfold host4_eqb.
  rewrite !andb_true_iff, !Z.eqb_eq. split.
  - intros [[[-> ->] ->] ->]. reflexivity.
  - intros [= -> -> -> ->]. auto.
Qed.

Lemma sender_check adapter from :
  addrtype_eqb MOBILE_ADDRTYPE_IPV4 (addr_type from)
  && addr4_memcmp_eq DNS_PORT (dns1 adapter) from = true
  <-> from = resolver_addr adapter.
Proof.
  unfold resolver_addr.
  destruct from as [|port host|port host];
    cbn [addr_type addrtype_eqb addr4_memcmp_eq andb].
  - split; discriminate.
  - rewrite andb_true_iff, Z.eqb_eq, host4_eqb_eq. split.
    + intros [<- <-]. reflexivity.
    + intros [= -> ->]. auto.
  - split; discriminate.
Qed.

Lemma mobile_dns_query_recv_stray fuel adapter conn ip rx :
  0 < recv_ret rx ->
  recv_from rx <> resolver_addr adapter ->
  mobile_dns_query_recv fuel adapter conn ip rx
  = Some (0, set_dns adapter (taken_in (dns adapter) rx), ip).
Proof.
  intros Hn Hfrom. unfold mobile_dns_query_recv.
  destruct (Z.leb_spec (recv_ret rx) 0); [lia|].
  pose proof (sender_check adapter (recv_from rx)) as Hchk.
  destruct (addrtype_eqb _ _); cbn [negb]; [|reflexivity].
  destruct (addr4_memcmp_eq _ _ _); cbn [negb]; [|reflexivity].
  exfalso. apply Hfrom, Hchk. reflexivity.
Qed.

Lemma mobile_dns_query_recv_resolver fuel adapter conn ip rx :
  0 < recv_ret rx ->
  recv_from rx = resolver_addr adapter ->
  mobile_dns_query_recv fuel adapter conn ip rx
  = ('(ancount, offset) ← dns_verify_response fuel (taken_in (dns adapter) rx) 0;
     if ancount <? 0
     then Some (-1, set_dns adapter (taken_in (dns adapter) rx), ip)
     else
       '(ret, ip) ← answer_scan fuel (taken_in (dns adapter) rx)
                       (Z.to_nat ancount) offset ip;
       Some (ret, set_dns adapter (taken_in (dns adapter) rx), ip)).
Proof.
  intros Hn Hfrom. unfold mobile_dns_query_recv.
  destruct (Z.leb_spec (recv_ret rx) 0); [lia|].
  apply sender_check, andb_true_iff in Hfrom as [-> ->]. reflexivity.
Qed.

(** C8.  A datagram (a positive count from the board) whose sender is not
    the configured resolver address, by type, port or host, makes
    [mobile_dns_query_recv] return 0 whatever bytes it carries; the
    caller's buffer is left alone. *)
Theorem mobile_dns_query_recv_wrong_sender (fuel : nat) (adapter : mobile_adapter)
    (conn : Z) (ip : list Z) (rx : sock_recv_result) :
  0 < recv_ret rx ->
  recv_from rx <> resolver_addr adapter ->
  exists adapter',
    mobile_dns_query_recv fuel adapter conn ip rx = Some (0, adapter', ip).
Proof.
  intros Hn Hfrom. eexists.
  apply mobile_dns_query_recv_stray; assumption.
Qed.

(** C10.  On that pending return the resolver's buffer already starts with
    the bytes of the stray datagram and [buffer_len] is its count, so the
    state has changed whenever the count differs from the old
    [buffer_len]; [id], [type], [name] and [name_len] are as before. *)
Theorem mobile_dns_query_recv_stray_overwrites (fuel : nat)
    (adapter : mobile_adapter) (conn : Z) (ip : list Z) (rx : sock_recv_result) :
  0 < recv_ret rx ->
  recv_from rx <> resolver_addr adapter ->
  exists adapter',
    mobile_dns_query_recv fuel adapter conn ip rx = Some (0, adapter', ip)
    /\ take (length (recv_data rx)) (buffer (dns adapter')) = recv_data rx
    /\ buffer_len (dns adapter') = recv_ret rx
    /\ (recv_ret rx <> buffer_len (dns adapter) -> adapter' <> adapter)
    /\ id (dns adapter') = id (dns adapter)
    /\ type (dns adapter') = type (dns adapter)
    /\ name (dns adapter') = name (dns adapter)
    /\ name_len (dns adapter') = name_len (dns adapter).
Proof.
  intros Hn Hfrom. eexists. split.
  - apply mobile_dns_query_recv_stray; assumption.
  - cbn. split; [apply take_memcpy_0|]. split; [reflexivity|].
    split; [|auto]. intros Hne Heq. apply Hne.
    apply (f_equal (fun a => buffer_len (dns a))) in Heq. exact Heq.
Qed.

(** * The answer-record scan *)

Lemma dns_get_answer_record fuel s offset name_cmp info :
  0 <= info ->
  dns_compare_name fuel s offset = Some (name_cmp, info) ->
  dns_get_answer fuel s offset
  = Some (if negb (record_in_buffer s info) then (-1, info)
          else if record_accepted s name_cmp info
               then (record_rdata info, info + 10 + record_rdlength s info)
               else (-2, info + 10 + record_rdlength s info)).
Proof.
  intros Hinfo Hcmp. unfold dns_get_answer. rewrite Hcmp.
  cbn [mbind option_bind].
  unfold record_in_buffer, record_accepted, record_rdata, record_type,
    record_class, record_rdlength, DNS_RR_SIZE.
  destruct (Z.gtb_spec (info + 10) (buffer_len s)) as [H1|H1].
  { destruct (Z.leb_spec (info + 10) (buffer_len s)); [lia|]. reflexivity. }
  destruct (Z.leb_spec (info + 10) (buffer_len s)); [|lia]. cbn [andb].
  destruct (Z.gtb_spec (info + 10 + be16 (buffer s) (info + 8)) (buffer_len s)).
  { destruct (Z.leb_spec (info + 10 + be16 (buffer s) (info + 8)) (buffer_len s));
      [lia|]. reflexivity. }
  destruct (Z.leb_spec (info + 10 + be16 (buffer s) (info + 8)) (buffer_len s));
    [|lia]. cbn [negb].
  rewrite Z.add_assoc.
  destruct (name_cmp =? 0); cbn [negb andb]; [|reflexivity].
  destruct (be16 (buffer s) info =? qtype_code (type s)); cbn [negb andb];
    [|reflexivity].
  destruct (be16 (buffer s) (info + 2) =? 1); cbn [negb andb]; [|reflexivity].
  destruct (type s); cbn [is_A is_AAAA address_size andb];
    destruct (be16 (buffer s) (info + 8) =? _); reflexivity.
Qed.

Lemma take_bytes_at a off n m :
  (n <= m)%nat -> take n (bytes_at a off m) = bytes_at a off n.
Proof.
  revert off m. induction n as [|n IH]; intros off m Hnm; [reflexivity|].
  destruct m as [|m]; [lia|]. cbn [bytes_at take]. f_equal.
  apply IH. lia.
Qed.

(** One pass of the [while (ancount--)] loop, stated over what the name
    walk of the record gave: its result [name_cmp] and the offset [info] it
    left (behind the name when the walk reached the end of the name, the
    first byte of the name when it returned -1).  The fixed block is read at
    [info]: a block or an RDATA span outside the buffer ends the call with
    -1; else a record that passes the filter stops the scan with four bytes
    copied to [ip]; else the scan goes on at [info + 10 + RDLENGTH] with one
    record less to look at. *)
Lemma answer_scan_record (fuel : nat) (s : mobile_adapter_dns) (n : nat)
    (offset : Z) (ip : list Z) (name_cmp info : Z) :
  bytes (buffer s) ->
  0 <= offset ->
  dns_compare_name fuel s offset = Some (name_cmp, info) ->
  let rdata :=
    bytes_at (buffer s) (record_rdata info) (Z.to_nat (record_rdlength s info)) in
  answer_scan fuel s (S n) offset ip
  = (if negb (record_in_buffer s info) then Some (-1, ip)
     else if record_accepted s name_cmp info
          then Some (1, memcpy ip 0 (take 4 rdata))
          else answer_scan fuel s n (info + 10 + record_rdlength s info) ip)
  /\ (record_accepted s name_cmp info = true -> type s = DNS_QTYPE_A ->
      take 4 rdata = rdata).
Proof.
  intros Hb Hoff Hcmp rdata.
  pose proof (dns_compare_name_offset_nonneg _ _ _ _ _ Hb Hoff Hcmp) as Hinfo.
  assert (Hfour : record_accepted s name_cmp info = true ->
                  take 4 rdata = bytes_at (buffer s) (record_rdata info) 4
                  /\ (type s = DNS_QTYPE_A -> take 4 rdata = rdata)).
  { unfold record_accepted. rewrite !andb_true_iff, !Z.eqb_eq.
    intros (_ & Hlen). subst rdata. rewrite Hlen.
    split; [|intros ->; reflexivity].
    apply take_bytes_at. destruct (type s); cbn; lia. }
  split; [|intros Hacc; apply Hfour, Hacc].
  cbn [answer_scan]. rewrite (dns_get_answer_record _ _ _ _ _ Hinfo Hcmp).
  destruct (negb (record_in_buffer s info)); [reflexivity|].
  destruct (record_accepted s name_cmp info) eqn:Hacc; cbn [mbind option_bind].
  - unfold record_rdata in *.
    destruct (Z.ltb_spec (info + 10) (-1)); [lia|].
    destruct (Z.eqb_spec (info + 10) (-1)); [lia|].
    destruct (Hfour eq_refl) as [-> _]. reflexivity.
  - reflexivity.
Qed.

Lemma dns_get_answer_more_fuel fuel fuel' s offset r :
  (fuel <= fuel')%nat ->
  dns_get_answer fuel s offset = Some r ->
  dns_get_answer fuel' s offset = Some r.
Proof.
  intros Hle. unfold dns_get_answer.
  destruct (dns_compare_name fuel s offset) as [x|] eqn:Hcmp; [|discriminate].
  rewrite (dns_compare_name_more_fuel _ _ _ _ _ Hle Hcmp). auto.
Qed.

Lemma dns_verify_response_more_fuel fuel fuel' s offset r :
  (fuel <= fuel')%nat ->
  dns_verify_response fuel s offset = Some r ->
  dns_verify_response fuel' s offset = Some r.
Proof.
  intros Hle. unfold dns_verify_response.
  repeat match goal with
         | |- context [if ?b then Some _ else _] => destruct b; [auto|]
         end.
  destruct (dns_compare_name fuel s DNS_HEADER_SIZE) as [x|] eqn:Hcmp;
    [|discriminate].
  rewrite (dns_compare_name_more_fuel _ _ _ _ _ Hle Hcmp). auto.
Qed.

Lemma answer_scan_more_fuel fuel fuel' s n :
  (fuel <= fuel')%nat ->
  forall offset ip r,
    answer_scan fuel s n offset ip = Some r ->
    answer_scan fuel' s n offset ip = Some r.
Proof.
  intros Hle. induction n as [|n IH]; intros offset ip r; [auto|].
  cbn [answer_scan].
  destruct (dns_get_answer fuel s offset) as [[a o]|] eqn:Hget; [|discriminate].
  rewrite (dns_get_answer_more_fuel _ _ _ _ _ Hle Hget). cbn [mbind option_bind].
  destruct (a <? -1); [apply IH|auto].
Qed.

(** The result of [mobile_dns_query_recv] does not depend on the fuel that
    was enough to reach it. *)
Lemma mobile_dns_query_recv_more_fuel fuel fuel' adapter conn ip rx r :
  (fuel <= fuel')%nat ->
  mobile_dns_query_recv fuel adapter conn ip rx = Some r ->
  mobile_dns_query_recv fuel' adapter conn ip rx = Some r.
Proof.
  intros Hle. unfold mobile_dns_query_recv.
  repeat match goal with
         | |- context [if ?b then Some _ else _] => destruct b; [auto|]
         end.
  match goal with
  | |- context [dns_verify_response fuel ?s 0] =>
    destruct (dns_verify_response fuel s 0) as [[a o]|] eqn:Hver; [|discriminate];
    rewrite (dns_verify_response_more_fuel _ _ _ _ _ Hle Hver)
  end.
  cbn [mbind option_bind]. destruct (a <? 0); [auto|].
  match goal with
  | |- context [answer_scan fuel ?s ?n ?o ?i] =>
    destruct (answer_scan fuel s n o i) as [x|] eqn:Hscan; [|discriminate];
    rewrite (answer_scan_more_fuel _ _ _ _ Hle _ _ _ Hscan)
  end.
  auto.
Qed.

(** * Evaluations *)

Lemma bytesb_bytes a : bytesb a = true -> bytes a.
Proof.
  unfold bytesb, bytes. rewrite forallb_forall, Forall_forall.
  intros H b Hb. apply list_elem_of_In, H in Hb.
  apply andb_true_iff in Hb as [H0 H1].
  apply Z.leb_le in H0. apply Z.ltb_lt in H1. lia.
Qed.

Lemma dns_verify_response_question fuel state offset :
  DNS_HEADER_SIZE <= buffer_len state ->
  be16 (buffer state) 0 = id state ->
  flags_pattern (be16 (buffer state) 2) = true ->
  be16 (buffer state) 4 = 1 ->
  1 <= be16 (buffer state) 6 ->
  dns_compare_name fuel state DNS_HEADER_SIZE = None ->
  dns_verify_response fuel state offset = None.
Proof.
  intros Hlen Hid Hpat Hqd Han Hwalk. unfold dns_verify_response.
  destruct (Z.ltb_spec (buffer_len state) DNS_HEADER_SIZE); [lia|].
  rewrite Hid, Z.eqb_refl, <- flags_pattern_spec, Hpat, Hqd. cbn [negb Z.eqb Pos.eqb].
  destruct (Z.ltb_spec (be16 (buffer state) 6) 1); [lia|].
  rewrite Hwalk. reflexivity.
Qed.

(** C2.  The code at a response whose question name is a compression
    pointer to itself: whatever the number of passes allowed, the walk of
    [dns_compare_name] has not left its loop, and neither has the call of
    [mobile_dns_query_recv] that took the datagram in. *)
Theorem dns_compare_name_pointer_cycle :
  forall fuel : nat,
    dns_compare_name fuel (received adapter1 sample_cycle) 12 = None
    /\ mobile_dns_query_recv fuel adapter1 3 [0; 0; 0; 0]
         (from_resolver sample_cycle) = None.
Proof.
  intros fuel. split; [apply dns_compare_name_cycle|].
  rewrite mobile_dns_query_recv_resolver by (vm_compute; reflexivity).
  change (taken_in (dns adapter1) (from_resolver sample_cycle))
    with (received adapter1 sample_cycle).
  assert (Hverify : dns_verify_response fuel (received adapter1 sample_cycle) 0
                    = None).
  { apply dns_verify_response_question;
      [ vm_compute; congruence | vm_compute; reflexivity
      | vm_compute; reflexivity | vm_compute; reflexivity
      | vm_compute; congruence | apply dns_compare_name_cycle ]. }
  rewrite Hverify. reflexivity.
Qed.

(** When every declared answer record is filtered out the loop ends without
    a copy, and the call still returns 1. *)
Lemma answer_scan_all_filtered fuel s n :
  forall offset ip,
    all_filtered fuel s n offset ->
    answer_scan fuel s n offset ip = Some (1, ip).
Proof.
  induction n as [|n IH]; intros offset ip Hall; [reflexivity|].
  destruct Hall as (offset' & Hget & Hall). cbn [answer_scan].
  rewrite Hget. cbn. apply IH, Hall.
Qed.

Lemma mobile_dns_query_recv_all_filtered fuel adapter conn ip rx ancount offset :
  0 < recv_ret rx ->
  recv_from rx = resolver_addr adapter ->
  dns_verify_response fuel (taken_in (dns adapter) rx) 0 = Some (ancount, offset) ->
  0 <= ancount ->
  all_filtered fuel (taken_in (dns adapter) rx) (Z.to_nat ancount) offset ->
  mobile_dns_query_recv fuel adapter conn ip rx
  = Some (1, set_dns adapter (taken_in (dns adapter) rx), ip).
Proof.
  intros Hn Hfrom Hver Han Hall.
  rewrite mobile_dns_query_recv_resolver by assumption.
  rewrite Hver. cbn [mbind option_bind].
  destruct (Z.ltb_spec ancount 0); [lia|].
  rewrite (answer_scan_all_filtered _ _ _ _ _ Hall). reflexivity.
Qed.

(** C1.  The code at a response that passes every check of
    [dns_verify_response] and whose only answer is a CNAME record: the
    record is filtered out with -2, no record is left, and
    [mobile_dns_query_recv] returns 1 with the caller's [ip] as it was. *)
Theorem mobile_dns_query_recv_no_answer_returns_1 :
  dns_verify_response 8 (received adapter1 sample_response_cname) 0 = Some (1, 21)
  /\ dns_get_answer 8 (received adapter1 sample_response_cname) 21 = Some (-2, 35)
  /\ mobile_dns_query_recv 8 adapter1 3 [0; 0; 0; 0]
       (from_resolver sample_response_cname)
     = Some (1, set_dns adapter1 (received adapter1 sample_response_cname),
             [0; 0; 0; 0]).
Proof. vm_compute. auto. Qed.

(** Every query that [mobile_dns_query_send] builds is of type A. *)
Lemma mobile_dns_query_send_type_A MAX adapter conn host send_ok ok adapter' events :
  mobile_dns_query_send MAX adapter conn host send_ok = (ok, adapter', events) ->
  events <> [] ->
  type (dns adapter') = DNS_QTYPE_A
  /\ exists data, head events = Some (board_sock_send conn data (resolver_addr adapter)).
Proof.
  unfold mobile_dns_query_send.
  destruct (dns_make_name MAX (dns adapter) host) as [[] s].
  - cbn [dns_make_query]. destruct send_ok; cbn [negb];
      intros [= <- <- <-] _; (split; [reflexivity|eexists; reflexivity]).
  - intros [= <- <- <-] Hne. contradiction.
Qed.

(** C9.  The code at a response to the type A query of [adapter1] whose only
    answer is a AAAA record: the record does not pass the filter, and
    [mobile_dns_query_recv] returns 1 although no byte was copied to the
    caller's [ip]. *)
Theorem mobile_dns_query_recv_returns_1_without_copy :
  type (dns adapter1) = DNS_QTYPE_A
  /\ dns_get_answer 8 (received adapter1 sample_response_aaaa) 21 = Some (-2, 49)
  /\ mobile_dns_query_recv 8 adapter1 3 [7; 7; 7; 7]
       (from_resolver sample_response_aaaa)
     = Some (1, set_dns adapter1 (received adapter1 sample_response_aaaa),
             [7; 7; 7; 7]).
Proof. vm_compute. auto. Qed.

(** C3.  The code at a response to the query of [adapter1] with two answer
    records, both inside the buffer: an A record owned by "a.c" and, behind
    it, the A record of "a.b".  The first record fails the filter by its
    name alone (type A, class IN, RDLENGTH 4, fixed block at 26) and the
    second passes it, with RDATA 93.184.216.34 at 52.  The name walk over
    the first record returns -1 and leaves the offset at 21, the first byte
    of the name, so [dns_get_answer] reads the fixed block there: its
    RDLENGTH comes out as 256 (the low byte of CLASS and the high byte of
    TTL), the span does not fit, and [mobile_dns_query_recv] returns -1
    without a look at the second record. *)
Theorem mobile_dns_query_recv_other_owner_aborts :
  let s := received adapter1 sample_response_other_owner in
  type (dns adapter1) = DNS_QTYPE_A
  /\ buffer_len s = 56
  /\ dns_verify_response 8 s 0 = Some (2, 21)
  /\ dns_compare_name 8 s 21 = Some (-1, 21)
  /\ record_in_buffer s 26 = true
  /\ record_accepted s 0 26 = true
  /\ dns_get_answer 8 s 40 = Some (52, 56)
  /\ bytes_at (buffer s) 52 4 = [93; 184; 216; 34]
  /\ record_rdlength s 21 = 256
  /\ dns_get_answer 8 s 21 = Some (-1, 21)
  /\ mobile_dns_query_recv 8 adapter1 3 [0; 0; 0; 0]
       (from_resolver sample_response_other_owner)
     = Some (-1, set_dns adapter1 s, [0; 0; 0; 0]).
Proof. vm_compute. auto 12. Qed.

(** The end-to-end case of the specification: one A record with RDLENGTH 4
    and matching id and flags yields those four bytes. *)
Example example_com_resolves :
  exists adapter',
    mobile_dns_query_recv 8 adapter_example 3 [0; 0; 0; 0]
      (from_resolver sample_response_example)
    = Some (1, adapter', [93; 184; 216; 34]).
Proof. eexists. vm_compute. reflexivity. Qed.

(** A CNAME record and an A record with RDLENGTH 3 are skipped on the way
    to the A record behind them. *)
Example skipped_records_then_answer :
  exists adapter',
    mobile_dns_query_recv 8 adapter1 3 [0; 0; 0; 0]
      (from_resolver (sample_header 3 ++ sample_question ++ sample_rr_cname
                      ++ sample_rr_short_a ++ sample_rr_a))
    = Some (1, adapter', [93; 184; 216; 34]).
Proof. eexists. vm_compute. reflexivity. Qed.

(** After the id has wrapped the query goes out with id 0x0000, and the
    response with that id is resolved. *)
Example wrapped_id_resolves :
  id (dns adapter_wrapped) = 0
  /\ take 2 (buffer (dns adapter_wrapped)) = [0; 0]
  /\ exists adapter',
       mobile_dns_query_recv 8 adapter_wrapped 3 [0; 0; 0; 0]
         (from_resolver sample_response_wrapped)
       = Some (1, adapter', [93; 184; 216; 34]).
Proof. split; [|split]; [reflexivity|reflexivity|]. eexists. vm_compute. reflexivity. Qed.

(** A response with the id of the query before is turned down. *)
Example stale_id_fails :
  exists adapter',
    mobile_dns_query_recv 8 adapter_wrapped 3 [0; 0; 0; 0]
      (from_resolver sample_response_a)
    = Some (-1, adapter', [0; 0; 0; 0]).
Proof. eexists. vm_compute. reflexivity. Qed.

(** C4, the claim as stated fails: the empty host and a host with an empty
    label are encoded, not rejected. *)
Lemma dns_make_name_accepts_empty :
  (dns_make_name 256 (dns adapter0) "").1 = true
  /\ name_len (dns_make_name 256 (dns adapter0) "").2 = 2
  /\ take 2 (name (dns_make_name 256 (dns adapter0) "").2) = [0; 0]
  /\ (dns_make_name 256 (dns adapter0) "a..b").1 = true
  /\ name_len (dns_make_name 256 (dns adapter0) "a..b").2 = 6
  /\ take 6 (name (dns_make_name 256 (dns adapter0) "a..b").2)
     = [1; 97; 0; 1; 98; 0].
Proof. vm_compute. auto 10. Qed.

(** * Instances at the sample data *)

Lemma dns_make_name_fails_iff_witness :
  Z.of_nat (length (name (dns adapter0))) = 256
  /\ 2 <= 256
  /\ ((dns_make_name 256 (dns adapter0) "a.b").1 = false <->
      (label_too_long (list_ascii_of_string "a.b")
       \/ 256 < encoded_size (list_ascii_of_string "a.b"))).
Proof.
  split; [reflexivity|]. split; [lia|].
  apply (dns_make_name_fails_iff 256 (dns adapter0) "a.b"); [reflexivity|lia].
Defined.

Lemma dns_make_query_fresh_id_witness :
  0 <= name_len dns_at_ffff
  /\ be16 (buffer (dns_make_query dns_at_ffff DNS_QTYPE_A).2) 0 = 0x0000
  /\ be16 (buffer (dns_make_query dns_at_ffff DNS_QTYPE_A).2) 0
     <> be16 (buffer (dns_make_query (dns_make_query dns_at_ffff DNS_QTYPE_A).2
                        DNS_QTYPE_A).2) 0.
Proof.
  assert (H0 : 0 <= name_len dns_at_ffff) by (vm_compute; congruence).
  destruct (dns_make_query_fresh_id dns_at_ffff DNS_QTYPE_A DNS_QTYPE_A
              8 sample_response_a 37 0 H0) as (_ & _ & Hne & Hwrap & _).
  split; [exact H0|]. split; [apply Hwrap; reflexivity|exact Hne].
Defined.

Lemma dns_compare_name_end_offset_witness :
  bytes (buffer (received adapter1 sample_response_a))
  /\ 0 <= 21 < buffer_len (received adapter1 sample_response_a)
  /\ name_len (received adapter1 sample_response_a) <> 0
  /\ dns_compare_loop 8 (received adapter1 sample_response_a) (walk_start 21)
     = Some (inr {| w_name := 4; w_cmp := 16; w_end := 23 |})
  /\ dns_compare_name 8 (received adapter1 sample_response_a) 21 = Some (0, 23).
Proof.
  assert (Hb : bytes (buffer (received adapter1 sample_response_a)))
    by (apply bytesb_bytes; vm_compute; reflexivity).
  assert (Hoff : 0 <= 21 < buffer_len (received adapter1 sample_response_a))
    by (vm_compute; split; congruence).
  assert (Hlen : name_len (received adapter1 sample_response_a) <> 0)
    by (vm_compute; congruence).
  assert (Hloop : dns_compare_loop 8 (received adapter1 sample_response_a)
                    (walk_start 21)
                  = Some (inr {| w_name := 4; w_cmp := 16; w_end := 23 |}))
    by (vm_compute; reflexivity).
  repeat (split; [assumption|]).
  destruct (dns_compare_name_end_offset 8 (received adapter1 sample_response_a)
              21 {| w_name := 4; w_cmp := 16; w_end := 23 |} Hb Hoff Hlen Hloop)
    as [_ H]; [vm_compute; reflexivity|].
  rewrite H. vm_compute. reflexivity.
Defined.

Lemma dns_verify_response_flags_witness :
  DNS_HEADER_SIZE <= buffer_len (received adapter1 sample_response_a)
  /\ be16 (buffer (received adapter1 sample_response_a)) 0
     = id (received adapter1 sample_response_a)
  /\ DNS_HEADER_SIZE <= buffer_len (received adapter1 sample_response_nxdomain)
  /\ be16 (buffer (received adapter1 sample_response_nxdomain)) 0
     = id (received adapter1 sample_response_nxdomain)
  /\ -17 <= -2 - rcode (be16 (buffer (received adapter1 sample_response_a)) 2) <= -2.
Proof.
  assert (H1 : DNS_HEADER_SIZE <= buffer_len (received adapter1 sample_response_a))
    by (vm_compute; congruence).
  assert (H2 : be16 (buffer (received adapter1 sample_response_a)) 0
               = id (received adapter1 sample_response_a))
    by (vm_compute; reflexivity).
  assert (H3 : DNS_HEADER_SIZE
               <= buffer_len (received adapter1 sample_response_nxdomain))
    by (vm_compute; congruence).
  assert (H4 : be16 (buffer (received adapter1 sample_response_nxdomain)) 0
               = id (received adapter1 sample_response_nxdomain))
    by (vm_compute; reflexivity).
  repeat (split; [assumption|]).
  apply (dns_verify_response_flags 8 8
           (received adapter1 sample_response_a)
           (received adapter1 sample_response_nxdomain) 0 0 H1 H2 H3 H4).
Defined.

Lemma mobile_dns_query_recv_wrong_sender_witness :
  0 < recv_ret (from_stranger sample_response_a)
  /\ recv_from (from_stranger sample_response_a) <> resolver_addr adapter1
  /\ exists adapter',
       mobile_dns_query_recv 8 adapter1 3 [0; 0; 0; 0]
         (from_stranger sample_response_a)
       = Some (0, adapter', [0; 0; 0; 0]).
Proof.
  assert (H1 : 0 < recv_ret (from_stranger sample_response_a))
    by (vm_compute; reflexivity).
  assert (H2 : recv_from (from_stranger sample_response_a) <> resolver_addr adapter1)
    by (vm_compute; congruence).
  split; [exact H1|]. split; [exact H2|].
  exact (mobile_dns_query_recv_wrong_sender 8 adapter1 3 [0; 0; 0; 0]
           (from_stranger sample_response_a) H1 H2).
Defined.

Lemma mobile_dns_query_recv_stray_overwrites_witness :
  0 < recv_ret (from_stranger sample_response_cname)
  /\ recv_from (from_stranger sample_response_cname) <> resolver_addr adapter1
  /\ exists adapter',
       mobile_dns_query_recv 8 adapter1 3 [0; 0; 0; 0]
         (from_stranger sample_response_cname)
       = Some (0, adapter', [0; 0; 0; 0])
       /\ buffer_len (dns adapter') = 35
       /\ adapter' <> adapter1.
Proof.
  assert (H1 : 0 < recv_ret (from_stranger sample_response_cname))
    by (vm_compute; reflexivity).
  assert (H2 : recv_from (from_stranger sample_response_cname)
               <> resolver_addr adapter1)
    by (vm_compute; congruence).
  split; [exact H1|]. split; [exact H2|].
  destruct (mobile_dns_query_recv_stray_overwrites 8 adapter1 3 [0; 0; 0; 0]
              (from_stranger sample_response_cname) H1 H2)
    as (adapter' & Hret & _ & Hlen & Hchg & _).
  exists adapter'. split; [exact Hret|]. split; [exact Hlen|].
  apply Hchg. vm_compute. congruence.
Defined.

(** * dns_make_name: what the encoder stores *)

Lemma take_succ_store a d v :
  0 <= d -> (Z.to_nat d < length a)%nat ->
  take (Z.to_nat (d + 1)) (store a d v) = take (Z.to_nat d) a ++ [v].
Proof.
  intros Hd Hlt. unfold store.
  replace (Z.to_nat (d + 1)) with (S (Z.to_nat d)) by lia.
  rewrite (take_S_r _ _ v) by (apply list_lookup_insert_eq; exact Hlt).
  rewrite take_insert_ge by lia. reflexivity.
Qed.

Lemma take_store_inside a n i v :
  (Z.to_nat i < n)%nat ->
  take n (store a i v) = <[Z.to_nat i := v]> (take n a).
Proof. intros Hi. unfold store. apply take_insert_lt. exact Hi. Qed.

Lemma load_of_take a n i :
  (Z.to_nat i < n)%nat -> load (take n a) i = load a i.
Proof. intros Hi. unfold load. rewrite lookup_take_lt by exact Hi. reflexivity. Qed.

Lemma load_middle pre x post i :
  Z.to_nat i = length pre -> load (pre ++ x :: post) i = x.
Proof.
  intros Hi. unfold load. rewrite Hi, list_lookup_middle by reflexivity.
  reflexivity.
Qed.

Lemma join_label_nil ls : ls <> [] -> join_label [] ls = ls.
Proof. destruct ls; [contradiction|reflexivity]. Qed.

Lemma split_labels_not_nil cs : split_labels cs <> [].
Proof. destruct (split_labels_cons cs) as (l & ls & ->). discriminate. Qed.

Lemma wire_labels_join cur ls :
  ls <> [] ->
  (Z.of_nat (length cur) :: map char_code cur) ++ wire_labels ls
  = wire_labels (cur :: ls).
Proof. reflexivity. Qed.

Section MakeNameEncoding.

Variable MAX : Z.

(** The cursor of a loop that ran to its end has moved by one per
    character and has stayed inside the array. *)
Lemma dns_make_name_loop_cursor cs :
  forall nm d len nm' d',
    dns_make_name_loop MAX cs nm d len = (true, nm', d') ->
    d' = d + Z.of_nat (length cs)
    /\ (d <= MAX - 1 -> d' <= MAX - 1)
    /\ length nm' = length nm.
Proof.
  induction cs as [|c cs IH]; intros nm d len nm' d'; cbn [dns_make_name_loop].
  - intros [= <- <-]. cbn [length]. repeat split; lia.
  - destruct (Z.geb_spec d (MAX - 1)); [discriminate|].
    destruct (Ascii.eqb c ".").
    + intros Hrun. apply IH in Hrun as (-> & Hb & Hl). rewrite length_store in Hl.
      cbn [length]. repeat split; [lia|intros _; apply Hb; lia|exact Hl].
    + destruct (load nm len >=? 63); [discriminate|].
      intros Hrun. apply IH in Hrun as (-> & Hb & Hl). rewrite !length_store in Hl.
      cbn [length]. repeat split; [lia|intros _; apply Hb; lia|exact Hl].
Qed.

Lemma dns_make_name_loop_encoding cs :
  forall nm d len pre cur nm' d',
    Z.of_nat (length nm) = MAX ->
    0 <= d ->
    take (Z.to_nat d) nm = pre ++ Z.of_nat (length cur) :: map char_code cur ->
    len = Z.of_nat (length pre) ->
    dns_make_name_loop MAX cs nm d len = (true, nm', d') ->
    take (Z.to_nat d') nm'
    = pre ++ wire_labels (join_label cur (split_labels cs)).
Proof.
  induction cs as [|c cs IH]; intros nm d len pre cur nm' d' Hlen Hd Htake Hpre;
    cbn [dns_make_name_loop].
  - intros [= <- <-]. rewrite Htake. cbn. rewrite !app_nil_r. reflexivity.
  - destruct (Z.geb_spec d (MAX - 1)) as [|Hroom]; [discriminate|].
    assert (Hdlen : (Z.to_nat d < length nm)%nat) by lia.
    assert (Hsize : Z.to_nat d = (length pre + S (length cur))%nat).
    { apply (f_equal length) in Htake.
      rewrite length_take, length_app in Htake. cbn [length] in Htake.
      rewrite length_map in Htake. lia. }
    destruct (Ascii.eqb c ".") eqn:Hc.
    + intros Hloop.
      rewrite (fun H1 H2 H3 H4 =>
                 IH _ _ _ (pre ++ Z.of_nat (length cur) :: map char_code cur) []
                    _ _ H1 H2 H3 H4 Hloop).
      * cbn [split_labels]. rewrite Hc.
        rewrite join_label_nil by apply split_labels_not_nil.
        cbn [join_label]. rewrite app_nil_r, <- app_assoc. reflexivity.
      * rewrite length_store. exact Hlen.
      * lia.
      * rewrite take_succ_store by lia. rewrite Htake. reflexivity.
      * rewrite <- Htake, length_take. lia.
    + destruct (Z.geb_spec (load nm len) 63) as [|Hk]; [discriminate|].
      intros Hloop.
      assert (Hcount : load nm len = Z.of_nat (length cur)).
      { rewrite <- (load_of_take nm (Z.to_nat d)) by lia.
        rewrite Htake. apply load_middle. lia. }
      rewrite (fun H1 H2 H3 H4 =>
                 IH _ _ _ pre (cur ++ [c]) _ _ H1 H2 H3 H4 Hloop).
      * cbn [split_labels]. rewrite Hc.
        destruct (split_labels_cons cs) as (l & ls & ->).
        cbn [join_label]. rewrite <- app_assoc. reflexivity.
      * rewrite !length_store. exact Hlen.
      * lia.
      * rewrite take_store_inside by lia.
        rewrite take_succ_store by lia. rewrite Htake.
        rewrite load_store_ne by lia. rewrite Hcount.
        unfold u8. rewrite Z.mod_small by lia.
        replace (Z.to_nat len) with (length pre + 0)%nat by lia.
        rewrite <- app_assoc. rewrite insert_app_r. cbn [app].
        cbn. rewrite length_app, map_app. cbn.
        f_equal. f_equal. lia.
      * exact Hpre.
Qed.

Lemma dns_make_name_stores state host s :
  Z.of_nat (length (name state)) = MAX ->
  2 <= MAX ->
  dns_make_name MAX state host = (true, s) ->
  name_len s = encoded_size (list_ascii_of_string host)
  /\ name_len s <= MAX
  /\ length (name s) = length (name state)
  /\ take (Z.to_nat (name_len s)) (name s)
     = wire_name (split_labels (list_ascii_of_string host)).
Proof.
  intros Hlen Hmax. unfold dns_make_name.
  destruct (dns_make_name_loop MAX (list_ascii_of_string host)
              (store (name state) 0 0) 1 0) as [[[] nm] d] eqn:Hloop;
    [|discriminate].
  intros [= <-]. cbn [name_len name set_name set_name_len].
  destruct (dns_make_name_loop_cursor _ _ _ _ _ _ Hloop) as (Hd & Hb & Hl).
  rewrite length_store in Hl.
  assert (Henc := dns_make_name_loop_encoding (list_ascii_of_string host)
                    (store (name state) 0 0) 1 0 [] [] nm d).
  rewrite join_label_nil in Henc by apply split_labels_not_nil.
  unfold encoded_size. split; [lia|]. split; [lia|].
  split; [rewrite length_store; exact Hl|].
  rewrite take_succ_store by lia. unfold wire_name. f_equal.
  apply Henc; try reflexivity; try lia.
  - rewrite length_store. exact Hlen.
  - change (Z.to_nat 1) with (Z.to_nat (0 + 1)).
    rewrite take_succ_store by lia. reflexivity.
  - exact Hloop.
Qed.

End MakeNameEncoding.

Lemma length_list_ascii_of_string (host : string) :
  length (list_ascii_of_string host) = String.length host.
Proof.
  induction host as [|c host IH]; [reflexivity|].
  cbn [list_ascii_of_string length String.length]. rewrite IH. reflexivity.
Qed.

(** X1.  After a successful [dns_make_name] the first [name_len] bytes of
    [state->name] are the RFC 1035 wire form of the host: every piece
    between two dots behind its length byte, empty pieces included, and a
    final zero. *)
Theorem dns_make_name_wire_form (MAX : Z) (state s : mobile_adapter_dns)
    (host : string) :
  Z.of_nat (length (name state)) = MAX ->
  2 <= MAX ->
  dns_make_name MAX state host = (true, s) ->
  take (Z.to_nat (name_len s)) (name s)
  = wire_name (split_labels (list_ascii_of_string host)).
Proof.
  intros Hlen Hmax Hrun.
  apply (dns_make_name_stores MAX state host s Hlen Hmax Hrun).
Qed.

(** The loop writes below its cursor only: the bytes from the final cursor
    on are the ones it found, whichever way it left. *)
Lemma dns_make_name_loop_frame MAX cs :
  forall nm d len ok nm' d',
    0 <= len < d ->
    dns_make_name_loop MAX cs nm d len = (ok, nm', d') ->
    d <= d'
    /\ (d <= MAX - 1 -> d' <= MAX - 1)
    /\ drop (Z.to_nat d') nm' = drop (Z.to_nat d') nm.
Proof.
  induction cs as [|c cs IH]; intros nm d len ok nm' d' Hlen;
    cbn [dns_make_name_loop].
  - intros [= <- <- <-]. repeat split; lia.
  - destruct (Z.geb_spec d (MAX - 1)).
    { intros [= <- <- <-]. repeat split; lia. }
    destruct (Ascii.eqb c ".").
    + intros Hrun. apply IH in Hrun as (Hd & Hb & Hdrop); [|lia].
      split; [lia|]. split; [intros _; apply Hb; lia|].
      rewrite Hdrop. unfold store. apply drop_insert_lt. lia.
    + destruct (load nm len >=? 63).
      { intros [= <- <- <-]. repeat split; lia. }
      intros Hrun. apply IH in Hrun as (Hd & Hb & Hdrop); [|lia].
      split; [lia|]. split; [intros _; apply Hb; lia|].
      rewrite Hdrop. unfold store.
      rewrite drop_insert_lt by lia. apply drop_insert_lt. lia.
Qed.

Lemma drop_further (a b : list Z) (n m : nat) :
  (n <= m)%nat -> drop n a = drop n b -> drop m a = drop m b.
Proof.
  intros Hle Heq. replace m with (n + (m - n))%nat by lia.
  rewrite <- !drop_drop, Heq. reflexivity.
Qed.

(** X2.  [dns_make_name] writes inside the [MOBILE_DNS_MAX_NAME_SIZE] bytes
    of [state->name] only.  The list that stands for the array may be longer
    than the capacity, its further elements standing for the memory behind
    the array: whether the call succeeds or fails, everything from the
    capacity on is as it was, provided the capacity is at least 2 (the
    first byte and the final zero are written without a check).  On success
    [name_len] is the length of the host plus 2, it does not exceed the
    capacity, and the bytes from [name_len] on are as they were. *)
Theorem dns_make_name_size (MAX : Z) (state s : mobile_adapter_dns)
    (host : string) (ok : bool) :
  2 <= MAX ->
  dns_make_name MAX state host = (ok, s) ->
  drop (Z.to_nat MAX) (name s) = drop (Z.to_nat MAX) (name state)
  /\ (ok = true ->
      name_len s = Z.of_nat (String.length host) + 2
      /\ name_len s <= MAX
      /\ drop (Z.to_nat (name_len s)) (name s)
         = drop (Z.to_nat (name_len s)) (name state)).
Proof.
  intros Hmax. unfold dns_make_name.
  destruct (dns_make_name_loop MAX (list_ascii_of_string host)
              (store (name state) 0 0) 1 0) as [[b nm] d] eqn:Hloop.
  assert (Hcursors : 0 <= 0 < 1) by lia.
  destruct (dns_make_name_loop_frame _ _ _ _ _ _ _ _ Hcursors Hloop)
    as (Hd & Hb & Hdrop).
  assert (Hd' : d <= MAX - 1) by (apply Hb; lia).
  assert (Hnm : drop (Z.to_nat d + 1) nm = drop (Z.to_nat d + 1) (name state)).
  { apply (drop_further _ _ (Z.to_nat d)); [lia|].
    rewrite Hdrop. unfold store. apply drop_insert_lt. lia. }
  destruct b; intros [= <- <-]; cbn [name name_len set_name set_name_len].
  - assert (Hend : drop (Z.to_nat (d + 1)) (store nm d 0)
                   = drop (Z.to_nat (d + 1)) (name state)).
    { unfold store. rewrite drop_insert_lt by lia.
      replace (Z.to_nat (d + 1)) with (Z.to_nat d + 1)%nat by lia. exact Hnm. }
    split.
    + apply (drop_further _ _ (Z.to_nat (d + 1))); [lia|exact Hend].
    + intros _.
      destruct (dns_make_name_loop_cursor MAX _ _ _ _ _ _ Hloop) as (Hcur & _).
      rewrite length_list_ascii_of_string in Hcur.
      split; [lia|]. split; [lia|exact Hend].
  - split; [|discriminate].
    apply (drop_further _ _ (Z.to_nat d + 1)); [lia|exact Hnm].
Qed.

(** * dns_compare_name: what it can return *)

Lemma dns_compare_step_ret state w r :
  dns_compare_step state w = Ret r -> r = -1 \/ r = 0.
Proof.
  unfold dns_compare_step.
  repeat match goal with
         | |- context [if ?b then _ else _] => destruct b
         end; first [discriminate | intros [= <-]; auto].
Qed.

Lemma dns_compare_loop_ret fuel state :
  forall w r, dns_compare_loop fuel state w = Some (inl r) -> r = -1 \/ r = 0.
Proof.
  induction fuel as [|fuel IH]; intros w r; [discriminate|].
  cbn [dns_compare_loop].
  destruct (dns_compare_step state w) as [r'|w'|w'] eqn:Hstep.
  - intros [= <-]. exact (dns_compare_step_ret _ _ _ Hstep).
  - discriminate.
  - apply IH.
Qed.

Lemma dns_compare_step_cont_bounds state w w' :
  dns_compare_step state w = Cont w' ->
  w_cmp w' < buffer_len state
  /\ (w_end w' = w_end w
      \/ (0 <= w_cmp w -> 0 <= w_end w') /\ w_end w' <= buffer_len state).
Proof.
  unfold dns_compare_step.
  destruct (load (buffer state) (w_cmp w) =? 0); [discriminate|].
  destruct (Z.land (load (buffer state) (w_cmp w)) 192 =? 192).
  - destruct (Z.gtb_spec (w_cmp w + 2) (buffer_len state)); [discriminate|].
    destruct (Z.geb_spec
                (Z.lor (Z.shiftl (Z.land (load (buffer state) (w_cmp w)) 63) 8)
                       (load (buffer state) (w_cmp w + 1)))
                (buffer_len state)); [discriminate|].
    intros [= <-]. cbn. split; [assumption|].
    destruct (w_end w <? 0); [right; lia|left; reflexivity].
  - destruct (Z.land (load (buffer state) (w_cmp w)) 192 =? 0); [|discriminate].
    destruct (_ >=? name_len state); [discriminate|].
    destruct (Z.geb_spec (w_cmp w + (load (buffer state) (w_cmp w) + 1))
                (buffer_len state)); [discriminate|].
    destruct (label_equal _ _ _ _ _); [|discriminate].
    intros [= <-]. cbn. split; [assumption|left; reflexivity].
Qed.

Lemma dns_compare_loop_bounds fuel state :
  forall w0 w,
    w_cmp w0 < buffer_len state ->
    w_end w0 < 0 \/ w_end w0 <= buffer_len state ->
    dns_compare_loop fuel state w0 = Some (inr w) ->
    w_cmp w < buffer_len state
    /\ (w_end w < 0 \/ w_end w <= buffer_len state).
Proof.
  induction fuel as [|fuel IH]; intros w0 w Hcmp Hend; [discriminate|].
  cbn [dns_compare_loop].
  destruct (dns_compare_step state w0) as [r'|w'|w'] eqn:Hstep.
  - discriminate.
  - apply dns_compare_step_brk in Hstep as [-> _]. intros [= <-]. auto.
  - apply dns_compare_step_cont_bounds in Hstep as [Hc He].
    apply IH; [exact Hc|]. destruct He as [->|[_ He]]; [exact Hend|right; exact He].
Qed.

(** X3.  [dns_compare_name] returns 0 or -1 and nothing else; when it
    returns -1 the offset is the one it was given; and an offset it has
    moved is at most [buffer_len] (it may be [buffer_len] itself, one past
    the last byte, as the note in the source says). *)
Theorem dns_compare_name_returns (fuel : nat) (state : mobile_adapter_dns)
    (offset r offset' : Z) :
  dns_compare_name fuel state offset = Some (r, offset') ->
  (r = 0 \/ r = -1)
  /\ (r = -1 -> offset' = offset)
  /\ (offset' = offset \/ offset' <= buffer_len state).
Proof.
  unfold dns_compare_name.
  destruct (Z.geb_spec offset (buffer_len state));
    [intros [= <- <-]; repeat split; auto|].
  destruct (name_len state =? 0); [intros [= <- <-]; repeat split; auto|].
  destruct (dns_compare_loop fuel state (walk_start offset)) as [[v|w]|] eqn:Hloop;
    cbn [mbind option_bind]; [| |discriminate].
  - intros [= <- <-]. apply dns_compare_loop_ret in Hloop.
    repeat split; auto. destruct Hloop; auto.
  - apply dns_compare_loop_bounds in Hloop as [Hc He];
      [|cbn; lia|cbn; left; lia].
    unfold dns_compare_finish.
    destruct (_ || _); [intros [= <- <-]; repeat split; auto|].
    intros [= <- <-]. split; [auto|]. split; [discriminate|]. right.
    destruct (Z.ltb_spec (w_end w) 0); lia.
Qed.

(** * dns_verify_response and dns_get_answer: codes and bounds *)

Lemma be16_range a i : bytes a -> 0 <= be16 a i < 65536.
Proof.
  intros Ha. unfold be16.
  pose proof (load_bytes a i Ha) as H0. pose proof (load_bytes a (i + 1) Ha) as H1.
  assert (Hhi : 0 <= Z.shiftl (load a i) 8 < 65536).
  { rewrite Z.shiftl_mul_pow2 by lia. change (2 ^ 8) with 256. lia. }
  split.
  - apply Z.lor_nonneg. lia.
  - destruct (Z.eq_dec (Z.lor (Z.shiftl (load a i) 8) (load a (i + 1))) 0)
      as [->|Hnz]; [lia|].
    apply Z.log2_lt_pow2 with (b := 16);
      [assert (0 <= Z.lor (Z.shiftl (load a i) 8) (load a (i + 1)))
         by (apply Z.lor_nonneg; lia); lia|].
    rewrite Z.log2_lor by lia.
    apply Z.max_lub_lt.
    + destruct (Z.eq_dec (Z.shiftl (load a i) 8) 0) as [->|]; [cbn; lia|].
      apply Z.log2_lt_pow2; lia.
    + destruct (Z.eq_dec (load a (i + 1)) 0) as [->|]; [cbn; lia|].
      apply Z.log2_lt_pow2; lia.
Qed.

(** X4.  [dns_verify_response] never returns 0: its result is an answer
    count between 1 and 65535, with the offset left inside the buffer
    behind the question, or an error code between -19 and -1. *)
Theorem dns_verify_response_returns (fuel : nat) (state : mobile_adapter_dns)
    (offset r offset' : Z) :
  bytes (buffer state) ->
  dns_verify_response fuel state offset = Some (r, offset') ->
  (1 <= r <= 65535 /\ r = be16 (buffer state) 6
   /\ offset' <= buffer_len state)
  \/ -19 <= r <= -1.
Proof.
  intros Hb. unfold dns_verify_response.
  pose proof (be16_range (buffer state) 6 Hb) as Han.
  pose proof (rcode_range (be16 (buffer state) 2)) as Hrc.
  rewrite land_0xF.
  destruct (buffer_len state <? DNS_HEADER_SIZE); [intros [= <- <-]; right; lia|].
  destruct (negb (be16 (buffer state) 0 =? id state));
    [intros [= <- <-]; right; lia|].
  destruct (negb (Z.land (be16 (buffer state) 2) 64511 =? 33152));
    [intros [= <- <-]; right; lia|].
  destruct (negb (be16 (buffer state) 4 =? 1)); [intros [= <- <-]; right; lia|].
  destruct (Z.ltb_spec (be16 (buffer state) 6) 1); [intros [= <- <-]; right; lia|].
  destruct (dns_compare_name fuel state DNS_HEADER_SIZE) as [[c o]|];
    [|discriminate].
  cbn [mbind option_bind].
  destruct (negb (c =? 0)); cbn [orb]; [intros [= <- <-]; right; lia|].
  destruct (Z.gtb_spec (o + DNS_QD_SIZE) (buffer_len state));
    [intros [= <- <-]; right; lia|].
  destruct (negb (be16 (buffer state) o =? qtype_code (type state)));
    [intros [= <- <-]; right; lia|].
  destruct (negb (be16 (buffer state) (o + 2) =? 1));
    [intros [= <- <-]; right; lia|].
  intros [= <- <-]. left. repeat split; lia.
Qed.

(** X5.  What [dns_get_answer] returns: -1; or -2 with the offset behind
    the record; or the offset of an RDATA whose 4 (A) or 16 (AAAA) bytes lie
    inside the received buffer, with the offset just behind them.  So the
    four bytes the caller copies from there were all received. *)
Theorem dns_get_answer_returns (fuel : nat) (s : mobile_adapter_dns)
    (offset r offset' : Z) :
  bytes (buffer s) ->
  0 <= offset ->
  dns_get_answer fuel s offset = Some (r, offset') ->
  r = -1
  \/ (r = -2 /\ offset' <= buffer_len s)
  \/ (10 <= r /\ offset' = r + address_size (type s)
      /\ r + 4 <= offset' /\ offset' <= buffer_len s).
Proof.
  intros Hb Hoff Hget.
  destruct (dns_compare_name fuel s offset) as [[c info]|] eqn:Hcmp;
    [|unfold dns_get_answer in Hget; rewrite Hcmp in Hget; discriminate].
  pose proof (dns_compare_name_offset_nonneg _ _ _ _ _ Hb Hoff Hcmp) as Hinfo.
  rewrite (dns_get_answer_record _ _ _ _ _ Hinfo Hcmp) in Hget.
  unfold record_in_buffer in Hget.
  destruct (Z.leb_spec (info + 10) (buffer_len s)); cbn [andb negb] in Hget;
    [|injection Hget as <- <-; auto].
  destruct (Z.leb_spec (info + 10 + record_rdlength s info) (buffer_len s));
    cbn [negb] in Hget; [|injection Hget as <- <-; auto].
  destruct (record_accepted s c info) eqn:Hacc; injection Hget as <- <-.
  - right. right. unfold record_accepted in Hacc.
    rewrite !andb_true_iff, !Z.eqb_eq in Hacc. destruct Hacc as (_ & Hlen).
    unfold record_rdata. rewrite Hlen in *.
    destruct (type s); cbn [address_size] in *; repeat split; lia.
  - right. left. split; [reflexivity|lia].
Qed.

(** * mobile_dns_query_recv: results and frame *)

Lemma answer_scan_returns fuel s n :
  forall offset ip r ip',
    answer_scan fuel s n offset ip = Some (r, ip') ->
    (r = 1 \/ r = -1) /\ (r = -1 -> ip' = ip).
Proof.
  induction n as [|n IH]; intros offset ip r ip'; cbn [answer_scan].
  - intros [= <- <-]. split; [auto|reflexivity].
  - destruct (dns_get_answer fuel s offset) as [[a o]|]; [|discriminate].
    cbn [mbind option_bind].
    destruct (a <? -1); [apply IH|].
    destruct (a =? -1); intros [= <- <-]; split; auto; discriminate.
Qed.

(** X6.  Whatever [mobile_dns_query_recv] returns, it has not touched
    [id], [type], [name], [name_len] or the resolver address.  A
    non-positive count from the board is returned as it is, with
    [buffer_len] unchanged; for a positive count the result is -1, 0 or 1
    and [buffer_len] is the count.  The caller's [ip] is written only on a
    return of 1. *)
Theorem mobile_dns_query_recv_returns (fuel : nat) (adapter adapter' : mobile_adapter)
    (conn : Z) (ip ip' : list Z) (rx : sock_recv_result) (r : Z) :
  mobile_dns_query_recv fuel adapter conn ip rx = Some (r, adapter', ip') ->
  id (dns adapter') = id (dns adapter)
  /\ type (dns adapter') = type (dns adapter)
  /\ name (dns adapter') = name (dns adapter)
  /\ name_len (dns adapter') = name_len (dns adapter)
  /\ dns1 adapter' = dns1 adapter
  /\ (recv_ret rx <= 0 ->
      r = recv_ret rx /\ buffer_len (dns adapter') = buffer_len (dns adapter))
  /\ (0 < recv_ret rx ->
      (r = -1 \/ r = 0 \/ r = 1) /\ buffer_len (dns adapter') = recv_ret rx)
  /\ (r <> 1 -> ip' = ip).
Proof.
  unfold mobile_dns_query_recv.
  destruct (Z.leb_spec (recv_ret rx) 0) as [Hle|Hgt].
  { intros [= <- <- <-]. cbn. repeat split; auto; lia. }
  destruct (negb (addrtype_eqb _ _)).
  { intros [= <- <- <-]. cbn. repeat split; auto; lia. }
  destruct (negb (addr4_memcmp_eq _ _ _)).
  { intros [= <- <- <-]. cbn. repeat split; auto; lia. }
  destruct (dns_verify_response _ _ _) as [[an o]|]; [|discriminate].
  cbn [mbind option_bind]. destruct (an <? 0).
  { intros [= <- <- <-]. cbn. repeat split; auto; lia. }
  destruct (answer_scan _ _ _ _ _) as [[r0 ip0]|] eqn:Hscan; [|discriminate].
  cbn [mbind option_bind]. intros [= <- <- <-].
  apply answer_scan_returns in Hscan as [Hr Hip].
  cbn. repeat split; auto; try lia.
  intros Hne. apply Hip. lia.
Qed.

(** X7.  A datagram from the resolver that is shorter than a header, or
    carries another id than the outstanding query, or flags off the
    pattern (whatever the response code), or a question count other than 1,
    or no answer, ends the call with -1: the distinct codes of
    [dns_verify_response] do not reach the caller, and [ip] is left
    alone. *)
Theorem mobile_dns_query_recv_bad_header (fuel : nat) (adapter : mobile_adapter)
    (conn : Z) (ip : list Z) (rx : sock_recv_result) :
  0 < recv_ret rx ->
  recv_from rx = resolver_addr adapter ->
  let s := taken_in (dns adapter) rx in
  (buffer_len s < DNS_HEADER_SIZE
   \/ be16 (buffer s) 0 <> id s
   \/ flags_pattern (be16 (buffer s) 2) = false
   \/ be16 (buffer s) 4 <> 1
   \/ be16 (buffer s) 6 < 1) ->
  mobile_dns_query_recv fuel adapter conn ip rx
  = Some (-1, set_dns adapter s, ip).
Proof.
  intros Hn Hfrom s Hbad.
  rewrite mobile_dns_query_recv_resolver by assumption. fold s.
  assert (Hver : exists c, dns_verify_response fuel s 0 = Some (c, 0) /\ c < 0).
  { unfold dns_verify_response. rewrite <- flags_pattern_spec, land_0xF.
    pose proof (rcode_range (be16 (buffer s) 2)) as Hrc.
    destruct (Z.ltb_spec (buffer_len s) DNS_HEADER_SIZE);
      [eexists; split; [reflexivity|lia]|].
    destruct (Z.eqb_spec (be16 (buffer s) 0) (id s)); cbn [negb];
      [|eexists; split; [reflexivity|lia]].
    destruct (flags_pattern (be16 (buffer s) 2)); cbn [negb];
      [|eexists; split; [reflexivity|lia]].
    destruct (Z.eqb_spec (be16 (buffer s) 4) 1); cbn [negb];
      [|eexists; split; [reflexivity|lia]].
    destruct (Z.ltb_spec (be16 (buffer s) 6) 1);
      [eexists; split; [reflexivity|lia]|].
    exfalso. destruct Hbad as [H'|[H'|[H'|[H'|H']]]];
      first [lia | contradiction | discriminate]. }
  destruct Hver as (c & -> & Hc). cbn [mbind option_bind].
  destruct (Z.ltb_spec c 0); [reflexivity|lia].
Qed.

(** * dns_make_query: the datagram *)

Lemma bytes_at_drop a n :
  forall off,
    0 <= off -> (Z.to_nat off + n <= length a)%nat ->
    bytes_at a off n = take n (drop (Z.to_nat off) a).
Proof.
  induction n as [|n IH]; intros off Hoff Hfit; [reflexivity|].
  cbn [bytes_at].
  destruct (lookup_lt_is_Some_2 a (Z.to_nat off)) as [x Hx]; [lia|].
  rewrite (drop_S _ _ _ Hx). cbn [take]. f_equal.
  - unfold load. rewrite Hx. reflexivity.
  - rewrite IH by lia. f_equal. f_equal. lia.
Qed.

Lemma store_app_r P R i k v :
  Z.to_nat i = (length P + k)%nat ->
  store (P ++ R) i v = P ++ <[k := v]> R.
Proof. intros Hi. unfold store. rewrite Hi. apply insert_app_r. Qed.

Lemma dns_make_query_buffer state t :
  0 <= name_len state ->
  (Z.to_nat (name_len state) <= length (name state))%nat ->
  16 + name_len state <= Z.of_nat (length (buffer state)) ->
  buffer (dns_make_query state t).2
  = (dns_query_header (u16 (id state + 1))
     ++ take (Z.to_nat (name_len state)) (name state)
     ++ dns_question_trailer t)
    ++ drop (Z.to_nat (16 + name_len state)) (buffer state).
Proof.
  intros Hlen Hname Hfit. unfold dns_make_query. cbn [snd buffer].
  rewrite Z.shiftr_0_r.
  fold (dns_query_header (u16 (id state + 1))).
  set (hdr := dns_query_header (u16 (id state + 1))).
  set (src := bytes_at (name state) 0 (Z.to_nat (name_len state))).
  assert (Hsrc : src = take (Z.to_nat (name_len state)) (name state)).
  { subst src. rewrite bytes_at_drop by (cbn; lia). reflexivity. }
  assert (Hn : length src = Z.to_nat (name_len state))
    by (subst src; apply length_bytes_at).
  assert (Hh : length hdr = 12%nat) by reflexivity.
  change DNS_HEADER_SIZE with (Z.of_nat (length hdr)).
  rewrite (memcpy_after_prefix _ hdr src).
  assert (Hrest : drop (length hdr + length src) (memcpy (buffer state) 0 hdr)
                  = drop (Z.to_nat (12 + name_len state)) (buffer state)).
  { unfold memcpy. change (Z.to_nat 0) with 0%nat.
    rewrite take_0, app_nil_l, Nat.add_0_l.
    rewrite drop_app_add, drop_drop. f_equal. lia. }
  rewrite Hrest.
  remember (drop (Z.to_nat (12 + name_len state)) (buffer state)) as R eqn:HR.
  assert (HlenR : (4 <= length R)%nat) by (subst R; rewrite length_drop; lia).
  assert (Htail : drop 4 R = drop (Z.to_nat (16 + name_len state)) (buffer state)).
  { subst R. rewrite drop_drop. f_equal. lia. }
  destruct R as [|r0 [|r1 [|r2 [|r3 R]]]]; cbn [length] in HlenR; try lia.
  cbn [drop] in Htail. rewrite <- Htail.
  rewrite (app_assoc hdr src).
  assert (Hp : length (hdr ++ src) = Z.to_nat (12 + name_len state)).
  { rewrite length_app, Hn, Hh. lia. }
  rewrite Hh. change (Z.of_nat 12) with 12.
  rewrite (store_app_r _ _ _ 0) by lia. cbn [insert list_insert].
  rewrite (store_app_r _ _ _ 1) by lia. cbn [insert list_insert].
  rewrite (store_app_r _ _ _ 2) by lia. cbn [insert list_insert].
  rewrite (store_app_r _ _ _ 3) by lia. cbn [insert list_insert].
  rewrite Hsrc. unfold dns_question_trailer.
  rewrite <- !app_assoc. cbn [app].
  destruct t; reflexivity.
Qed.

(** X8.  The query that [dns_make_query] leaves in the buffer, when the
    name lies inside its array and the query fits the buffer: the first
    [buffer_len] bytes are the 12-byte header (new id, flags 01 00, one
    question, no other record), the stored name, and 00 type 00 01; the
    bytes behind them are untouched, and so are [name] and [name_len]. *)
Theorem dns_make_query_datagram (state : mobile_adapter_dns) (t : dns_qtype) :
  0 <= name_len state ->
  (Z.to_nat (name_len state) <= length (name state))%nat ->
  16 + name_len state <= Z.of_nat (length (buffer state)) ->
  let q := (dns_make_query state t).2 in
  take (Z.to_nat (buffer_len q)) (buffer q)
  = dns_query_header (id q)
    ++ take (Z.to_nat (name_len state)) (name state)
    ++ dns_question_trailer t
  /\ drop (Z.to_nat (buffer_len q)) (buffer q)
     = drop (Z.to_nat (buffer_len q)) (buffer state)
  /\ buffer_len q = 16 + name_len state
  /\ name q = name state /\ name_len q = name_len state.
Proof.
  intros Hlen Hname Hfit q.
  assert (Hq : buffer_len q = 16 + name_len state)
    by (cbn; unfold DNS_HEADER_SIZE, DNS_QD_SIZE; lia).
  assert (Hsize : length (dns_query_header (id q)
                          ++ take (Z.to_nat (name_len state)) (name state)
                          ++ dns_question_trailer t)
                  = Z.to_nat (buffer_len q)).
  { rewrite !length_app, length_take.
    cbn [dns_query_header dns_question_trailer length]. lia. }
  rewrite Hq in *. subst q. rewrite dns_make_query_buffer by assumption.
  rewrite dns_make_query_id in *.
  split; [rewrite take_app_length' by (symmetry; exact Hsize); reflexivity|].
  split; [rewrite drop_app_length' by (symmetry; exact Hsize); reflexivity|].
  repeat split; reflexivity.
Qed.

(** * mobile_dns_query_send: when it succeeds and what it sends *)

Lemma dns_make_name_ok_iff MAX state host :
  Z.of_nat (length (name state)) = MAX ->
  2 <= MAX ->
  (dns_make_name MAX state host).1 = true <->
  ~ label_too_long (list_ascii_of_string host)
  /\ encoded_size (list_ascii_of_string host) <= MAX.
Proof.
  intros Hlen Hmax.
  pose proof (dns_make_name_loop_fails MAX (list_ascii_of_string host)
                (store (name state) 0 0) 1 0) as Hfail.
  rewrite load_store_eq, length_store, too_long_after_0 in Hfail by lia.
  rewrite <- dns_make_name_fst in Hfail.
  specialize (Hfail Hlen ltac:(lia) ltac:(lia) ltac:(lia)).
  unfold encoded_size in *.
  destruct (dns_make_name MAX state host).1.
  - split; [|reflexivity]. intros _. split.
    + intros Hl. assert (true = false) by (apply Hfail; right; exact Hl).
      discriminate.
    + destruct (Z.le_gt_cases (Z.of_nat (length (list_ascii_of_string host)) + 2) MAX)
        as [|Hgt]; [assumption|].
      assert (true = false) by (apply Hfail; left; lia). discriminate.
  - split; [discriminate|]. intros [Hl Hs].
    destruct (proj1 Hfail eq_refl) as [H'|H']; [lia|contradiction].
Qed.

(** X9.  [mobile_dns_query_send] returns true exactly when no label of the
    host is longer than 63 bytes, the host is at most
    [MOBILE_DNS_MAX_NAME_SIZE - 2] bytes long and the board took the
    datagram.  A host that does not encode causes no call on the board and
    does not use up an id; a datagram the board refuses is followed by a
    close of the connection, and only then. *)
Theorem mobile_dns_query_send_result (MAX : Z) (adapter adapter' : mobile_adapter)
    (conn : Z) (host : string) (send_ok ok : bool) (events : list board_event) :
  Z.of_nat (length (name (dns adapter))) = MAX ->
  2 <= MAX ->
  mobile_dns_query_send MAX adapter conn host send_ok = (ok, adapter', events) ->
  let encodes :=
    ~ label_too_long (list_ascii_of_string host)
    /\ encoded_size (list_ascii_of_string host) <= MAX in
  (ok = true <-> encodes /\ send_ok = true)
  /\ (~ encodes -> events = [] /\ id (dns adapter') = id (dns adapter))
  /\ (encodes ->
      id (dns adapter') = u16 (id (dns adapter) + 1)
      /\ exists data,
           events = board_sock_send conn data (resolver_addr adapter)
                    :: (if send_ok then [] else [board_sock_close conn])).
Proof.
  intros Hlen Hmax Hsend encodes.
  pose proof (dns_make_name_ok_iff MAX (dns adapter) host Hlen Hmax) as Hok.
  fold encodes in Hok.
  pose proof (dns_make_name_id MAX (dns adapter) host) as Hid.
  unfold mobile_dns_query_send in Hsend.
  destruct (dns_make_name MAX (dns adapter) host) as [[] s]; cbn [fst snd] in *.
  - assert (He : encodes) by (apply Hok; reflexivity).
    cbn [dns_make_query] in Hsend.
    destruct send_ok; cbn [negb] in Hsend; injection Hsend as <- <- <-;
      cbn [dns set_dns id]; rewrite Hid.
    + split; [tauto|]. split; [tauto|]. intros _. split; [reflexivity|].
      eexists. reflexivity.
    + split; [split; [discriminate|intros [_ [=]]]|]. split; [tauto|].
      intros _. split; [reflexivity|]. eexists. reflexivity.
  - assert (He : ~ encodes) by (intros He; apply Hok in He; discriminate).
    injection Hsend as <- <- <-. cbn [dns set_dns]. rewrite Hid.
    split; [split; [discriminate|tauto]|]. split; [auto|tauto].
Qed.

(** X10.  The datagram [mobile_dns_query_send] hands to the board, for a
    host that encodes and a buffer that holds the largest query: the
    header with the new id, the wire form of the host, and 00 01 00 01
    (type A, class IN); it is [String.length host + 18] bytes long and goes
    to port 53 of the configured resolver. *)
Theorem mobile_dns_query_send_datagram (MAX : Z) (adapter : mobile_adapter)
    (conn : Z) (host : string) (send_ok : bool) :
  Z.of_nat (length (name (dns adapter))) = MAX ->
  2 <= MAX ->
  MAX + 16 <= Z.of_nat (length (buffer (dns adapter))) ->
  (dns_make_name MAX (dns adapter) host).1 = true ->
  let data :=
    dns_query_header (u16 (id (dns adapter) + 1))
    ++ wire_name (split_labels (list_ascii_of_string host))
    ++ dns_question_trailer DNS_QTYPE_A in
  head (mobile_dns_query_send MAX adapter conn host send_ok).2
  = Some (board_sock_send conn data (addr4 DNS_PORT (dns1 adapter)))
  /\ Z.of_nat (length data) = Z.of_nat (String.length host) + 18.
Proof.
  intros Hlen Hmax Hbuf Hok data.
  unfold mobile_dns_query_send.
  destruct (dns_make_name MAX (dns adapter) host) as [[] s] eqn:Hname;
    [|discriminate].
  destruct (dns_make_name_stores MAX _ _ _ Hlen Hmax Hname)
    as (Hn & Hb & Hl & Hwire).
  pose proof (dns_make_name_id MAX (dns adapter) host) as Hid.
  rewrite Hname in Hid. cbn [snd] in Hid.
  assert (Hbuf' : buffer s = buffer (dns adapter)).
  { unfold dns_make_name in Hname.
    destruct (dns_make_name_loop _ _ _ _ _) as [[[] nm] d];
      [injection Hname as <-; reflexivity|discriminate]. }
  assert (H0 : 0 <= name_len s) by (unfold encoded_size in Hn; lia).
  assert (H1 : (Z.to_nat (name_len s) <= length (name s))%nat) by lia.
  assert (H2 : 16 + name_len s <= Z.of_nat (length (buffer s)))
    by (rewrite Hbuf'; lia).
  pose proof (dns_make_query_buffer s DNS_QTYPE_A H0 H1 H2) as Hq.
  rewrite Hid, Hwire in Hq. fold data in Hq.
  assert (Hlenq : buffer_len (dns_make_query s DNS_QTYPE_A).2 = 16 + name_len s)
    by (cbn; unfold DNS_HEADER_SIZE, DNS_QD_SIZE; lia).
  assert (Hsize : length data = Z.to_nat (16 + name_len s)).
  { subst data. rewrite <- Hwire, !length_app, length_take.
    cbn [dns_query_header dns_question_trailer length]. lia. }
  assert (Hdata : bytes_at (buffer (dns_make_query s DNS_QTYPE_A).2) 0
                    (Z.to_nat (buffer_len (dns_make_query s DNS_QTYPE_A).2))
                  = data).
  { rewrite Hlenq, bytes_at_drop;
      [|lia|rewrite Hq, length_app, length_drop; lia].
    change (Z.to_nat 0) with 0%nat. rewrite drop_0, Hq.
    apply take_app_length'. symmetry. exact Hsize. }
  destruct (dns_make_query s DNS_QTYPE_A) as [[] q] eqn:Hmq;
    [|unfold dns_make_query in Hmq; discriminate].
  cbn [snd] in Hdata. split.
  - destruct send_ok; cbn [negb snd head]; rewrite Hdata; reflexivity.
  - rewrite Hsize. unfold encoded_size in Hn.
    rewrite length_list_ascii_of_string in Hn. lia.
Qed.

(** * The sequence of transaction ids *)

(** X11.  After [n] more queries the id is the old one plus [n] modulo
    2^16: an id comes back after exactly 65536 queries and not before, so a
    reply to the query sent 65536 queries ago carries the id of the
    outstanding one. *)
Theorem after_queries_id (n : nat) (t : dns_qtype) (s : mobile_adapter_dns) :
  0 <= id s < 65536 ->
  id (after_queries n t s) = (id s + Z.of_nat n) mod 65536
  /\ id (after_queries (n + Z.to_nat 65536) t s) = id (after_queries n t s)
  /\ forall m : nat,
       0 < Z.of_nat m < 65536 ->
       id (after_queries (n + m) t s) <> id (after_queries n t s).
Proof.
  intros Hid.
  assert (Hform : forall k, id (after_queries k t s) = (id s + Z.of_nat k) mod 65536).
  { induction k as [|k IH].
    - cbn [after_queries Z.of_nat]. rewrite Z.add_0_r, Z.mod_small by lia.
      reflexivity.
    - cbn [after_queries]. rewrite dns_make_query_id, IH. unfold u16.
      rewrite Zplus_mod_idemp_l. f_equal. lia. }
  split; [apply Hform|]. split.
  - rewrite !Hform, Nat2Z.inj_add, Z2Nat.id by lia.
    replace (id s + (Z.of_nat n + 65536))
      with (id s + Z.of_nat n + 1 * 65536) by lia.
    apply Z_mod_plus_full.
  - intros m Hm. rewrite !Hform, Nat2Z.inj_add. intros Heq.
    assert (Hdiff : (Z.of_nat m) mod 65536 = 0).
    { replace (Z.of_nat m)
        with ((id s + (Z.of_nat n + Z.of_nat m)) - (id s + Z.of_nat n)) by lia.
      rewrite Zminus_mod, Heq, Z.sub_diag. reflexivity. }
    rewrite Z.mod_small in Hdiff by lia. lia.
Qed.

(** * dns_compare_name: names that match *)

Lemma six_bits_all_spec f c :
  six_bits_all f = true -> 0 <= c < 64 -> f c = true.
Proof.
  unfold six_bits_all. rewrite forallb_forall. intros H Hc.
  rewrite <- (Z2Nat.id c) by lia. apply H, in_seq. lia.
Qed.

Lemma land_label_length c : 0 <= c < 64 -> Z.land c 0xC0 = 0.
Proof.
  intros Hc. apply Z.eqb_eq.
  apply (six_bits_all_spec (fun c => Z.land c 0xC0 =? 0)); [|exact Hc].
  vm_compute. reflexivity.
Qed.

Lemma load_holds_at a off bs i x :
  holds_at a off bs -> 0 <= off -> bs !! i = Some x ->
  load a (off + Z.of_nat i) = x.
Proof.
  unfold holds_at. intros Hh Hoff Hi. unfold load.
  replace (Z.to_nat (off + Z.of_nat i)) with (Z.to_nat off + i)%nat by lia.
  rewrite <- lookup_drop.
  rewrite <- (lookup_take_lt _ (length bs)) by (apply lookup_lt_Some in Hi; lia).
  rewrite Hh, Hi. reflexivity.
Qed.

Lemma holds_at_app a off b1 b2 :
  holds_at a off (b1 ++ b2) -> 0 <= off ->
  holds_at a off b1 /\ holds_at a (off + Z.of_nat (length b1)) b2.
Proof.
  unfold holds_at. intros Hh Hoff. split.
  - apply (f_equal (take (length b1))) in Hh.
    rewrite take_take, length_app, take_app_length in Hh.
    rewrite Nat.min_l in Hh by lia. exact Hh.
  - apply (f_equal (drop (length b1))) in Hh.
    rewrite drop_app_length, length_app, skipn_firstn_comm, drop_drop in Hh.
    replace (length b1 + length b2 - length b1)%nat with (length b2) in Hh by lia.
    replace (Z.to_nat (off + Z.of_nat (length b1)))
      with (Z.to_nat off + length b1)%nat by lia.
    exact Hh.
Qed.

Lemma holds_at_length a off bs :
  holds_at a off bs -> (0 < length bs)%nat ->
  (Z.to_nat off + length bs <= length a)%nat.
Proof.
  unfold holds_at. intros Hh Hne. apply (f_equal length) in Hh.
  rewrite length_take, length_drop in Hh. lia.
Qed.

Lemma holds_at_memcpy a data : holds_at (memcpy a 0 data) 0 data.
Proof.
  unfold holds_at, memcpy. change (Z.to_nat 0) with 0%nat.
  rewrite take_0, app_nil_l, drop_0. apply take_app_length.
Qed.

Lemma label_equal_same buf nm n :
  forall cmp nam,
    (forall j, (j < n)%nat ->
               load buf (cmp + Z.of_nat j) = load nm (nam + Z.of_nat j)) ->
    label_equal buf nm cmp nam n = true.
Proof.
  induction n as [|n IH]; intros cmp nam Hsame; [reflexivity|].
  cbn [label_equal].
  pose proof (Hsame 0%nat ltac:(lia)) as H0. rewrite !Z.add_0_r in H0.
  rewrite H0, Z.eqb_refl. cbn [negb]. apply IH. intros j Hj.
  specialize (Hsame (S j) ltac:(lia)).
  replace (cmp + 1 + Z.of_nat j) with (cmp + Z.of_nat (S j)) by lia.
  replace (nam + 1 + Z.of_nat j) with (nam + Z.of_nat (S j)) by lia.
  exact Hsame.
Qed.

Lemma length_wire_labels_cons l ls :
  length (wire_labels (l :: ls)) = (S (length l) + length (wire_labels ls))%nat.
Proof.
  unfold wire_labels. cbn [flat_map]. rewrite length_app. cbn [length].
  rewrite length_map. reflexivity.
Qed.

Lemma wire_labels_app ls1 ls2 :
  wire_labels (ls1 ++ ls2) = wire_labels ls1 ++ wire_labels ls2.
Proof. unfold wire_labels. apply flat_map_app. Qed.

Lemma dns_compare_loop_S fuel state w :
  dns_compare_loop (S fuel) state w
  = match dns_compare_step state w with
    | Ret r => Some (inl r)
    | Brk w' => Some (inr w')
    | Cont w' => dns_compare_loop fuel state w'
    end.
Proof. reflexivity. Qed.

(** The walk over a copy of the stored name: one pass per label, then the
    [break] at the zero byte. *)
Lemma dns_compare_loop_labels state off e ls2 :
  forall ls1 pn,
    let bs := wire_labels ls1 ++ wire_labels ls2 ++ [0] in
    Forall label_ok ls2 ->
    holds_at (name state) 0 bs ->
    holds_at (buffer state) off bs ->
    0 <= off ->
    Z.of_nat (length bs) <= name_len state ->
    off + Z.of_nat (length bs) <= buffer_len state ->
    pn = Z.of_nat (length (wire_labels ls1)) ->
    dns_compare_loop (S (length ls2)) state
      {| w_name := pn; w_cmp := off + pn; w_end := e |}
    = Some (inr {| w_name := pn + Z.of_nat (length (wire_labels ls2));
                   w_cmp := off + pn + Z.of_nat (length (wire_labels ls2));
                   w_end := e |}).
Proof.
  induction ls2 as [|l ls2 IH]; intros ls1 pn bs Hok Hname Hbuf Hoff Hnl Hbl Hpn.
  - assert (Hz : bs !! length (wire_labels ls1) = Some 0)
      by (apply list_lookup_middle; reflexivity).
    cbn [dns_compare_loop]. unfold dns_compare_step. cbn [w_cmp].
    subst pn. rewrite (load_holds_at _ _ _ _ _ Hbuf Hoff Hz).
    cbn [Z.eqb wire_labels flat_map length Z.of_nat].
    rewrite !Z.add_0_r. reflexivity.
  - apply Forall_cons in Hok as [Hl Hok]. unfold label_ok in Hl.
    assert (Hlen_bs : length bs
                      = (length (wire_labels ls1) + S (length l)
                         + length (wire_labels ls2) + 1)%nat).
    { subst bs. rewrite !length_app, length_wire_labels_cons. cbn [length]. lia. }
    assert (Hc : bs !! length (wire_labels ls1) = Some (Z.of_nat (length l)))
      by (apply list_lookup_middle; reflexivity).
    assert (Hbs : wire_labels (ls1 ++ [l]) ++ wire_labels ls2 ++ [0] = bs).
    { subst bs. rewrite wire_labels_app. unfold wire_labels. cbn [flat_map].
      rewrite app_nil_r, <- !app_assoc. reflexivity. }
    assert (Hsame : forall j, (j < length bs)%nat ->
                load (buffer state) (off + Z.of_nat j)
                = load (name state) (0 + Z.of_nat j)).
    { intros j Hj. destruct (lookup_lt_is_Some_2 bs j Hj) as [x Hx].
      rewrite (load_holds_at _ _ _ _ _ Hbuf Hoff Hx).
      rewrite (load_holds_at _ _ _ _ _ Hname ltac:(lia) Hx). reflexivity. }
    change (S (length (l :: ls2))) with (S (S (length ls2))).
    rewrite (dns_compare_loop_S (S (length ls2))).
    unfold dns_compare_step at 1. cbn [w_cmp w_name w_end].
    subst pn. rewrite (load_holds_at _ _ _ _ _ Hbuf Hoff Hc).
    destruct (Z.eqb_spec (Z.of_nat (length l)) 0); [lia|].
    rewrite land_label_length by lia. cbn [Z.eqb].
    destruct (Z.geb_spec (Z.of_nat (length (wire_labels ls1))
                          + (Z.of_nat (length l) + 1)) (name_len state)); [lia|].
    destruct (Z.geb_spec (off + Z.of_nat (length (wire_labels ls1))
                          + (Z.of_nat (length l) + 1)) (buffer_len state)); [lia|].
    rewrite label_equal_same.
    + replace (off + Z.of_nat (length (wire_labels ls1))
               + (Z.of_nat (length l) + 1))
        with (off + (Z.of_nat (length (wire_labels ls1))
                     + (Z.of_nat (length l) + 1))) by lia.
      rewrite (IH (ls1 ++ [l])
                 (Z.of_nat (length (wire_labels ls1)) + (Z.of_nat (length l) + 1))).
      * rewrite length_wire_labels_cons. f_equal. f_equal. f_equal; lia.
      * exact Hok.
      * rewrite Hbs. exact Hname.
      * rewrite Hbs. exact Hbuf.
      * exact Hoff.
      * rewrite Hbs. exact Hnl.
      * rewrite Hbs. exact Hbl.
      * rewrite wire_labels_app, length_app, length_wire_labels_cons.
        cbn [wire_labels flat_map length]. lia.
    + intros j Hj.
      replace (off + Z.of_nat (length (wire_labels ls1)) + Z.of_nat j)
        with (off + Z.of_nat (length (wire_labels ls1) + j)) by lia.
      replace (Z.of_nat (length (wire_labels ls1)) + Z.of_nat j)
        with (0 + Z.of_nat (length (wire_labels ls1) + j)) by lia.
      apply Hsame. lia.
Qed.

Lemma length_wire_name ls : length (wire_name ls) = S (length (wire_labels ls)).
Proof. unfold wire_name. rewrite length_app. cbn [length]. lia. Qed.

Lemma wire_name_last ls : wire_name ls !! length (wire_labels ls) = Some 0.
Proof. apply list_lookup_middle. reflexivity. Qed.

(** The walk from [off], where a copy of the stored name stands, with any
    value of [end]: it breaks at the terminating zero with [end] as it
    was. *)
Lemma dns_compare_loop_echo fuel state off e ls :
  name_is state ls ->
  holds_at (buffer state) off (wire_name ls) ->
  0 <= off ->
  off + name_len state <= buffer_len state ->
  (length ls < fuel)%nat ->
  dns_compare_loop fuel state {| w_name := 0; w_cmp := off; w_end := e |}
  = Some (inr {| w_name := Z.of_nat (length (wire_labels ls));
                 w_cmp := off + Z.of_nat (length (wire_labels ls));
                 w_end := e |}).
Proof.
  intros (Hok & Hname & Hnl) Hbuf Hoff Hfit Hfuel.
  apply (dns_compare_loop_more_fuel (S (length ls))); [lia|].
  pose proof (dns_compare_loop_labels state off e ls [] 0) as Hwalk.
  cbn [wire_labels flat_map length app Z.of_nat] in Hwalk.
  rewrite !Z.add_0_r, !Z.add_0_l in Hwalk.
  apply Hwalk; try assumption; try reflexivity; fold (wire_name ls); lia.
Qed.

Lemma dns_compare_name_copy fuel state off ls :
  name_is state ls ->
  holds_at (buffer state) off (wire_name ls) ->
  0 <= off ->
  off + name_len state <= buffer_len state ->
  (length ls < fuel)%nat ->
  dns_compare_name fuel state off = Some (0, off + name_len state).
Proof.
  intros Hname Hbuf Hoff Hfit Hfuel.
  pose proof (dns_compare_loop_echo fuel state off (-1) ls
                Hname Hbuf Hoff Hfit Hfuel) as Hloop.
  destruct Hname as (Hok & Hname & Hnl). rewrite length_wire_name in Hnl.
  rewrite dns_compare_name_walks by lia.
  unfold walk_start. rewrite Hloop. cbn [mbind option_bind].
  unfold dns_compare_finish. cbn [w_cmp w_name w_end].
  rewrite (load_holds_at _ _ _ _ _ Hbuf Hoff (wire_name_last ls)).
  pose proof (load_holds_at _ _ _ _ _ Hname ltac:(lia) (wire_name_last ls)) as Hz.
  rewrite Z.add_0_l in Hz. rewrite Hz. cbn [Z.eqb negb orb Z.ltb Z.compare].
  f_equal. f_equal. lia.
Qed.

(** X12.  A copy of the stored name in the buffer, written out in full,
    matches: for a stored name of labels of 1 to 63 bytes,
    [dns_compare_name] returns 0 within one pass per label and one more,
    and moves the offset to the byte behind the copy. *)
Theorem dns_compare_name_echo (fuel : nat) (state : mobile_adapter_dns)
    (off : Z) (ls : list (list ascii)) :
  name_is state ls ->
  holds_at (buffer state) off (wire_name ls) ->
  0 <= off ->
  off + name_len state <= buffer_len state ->
  (length ls < fuel)%nat ->
  dns_compare_name fuel state off = Some (0, off + name_len state).
Proof. apply dns_compare_name_copy. Qed.

Lemma points_to_step state q target e :
  points_to (buffer state) q target ->
  q + 2 <= buffer_len state ->
  target < buffer_len state ->
  dns_compare_step state {| w_name := 0; w_cmp := q; w_end := e |}
  = Cont {| w_name := 0; w_cmp := target;
            w_end := if e <? 0 then q + 2 else e |}.
Proof.
  intros [Hptr Htarget] Hq Ht. unfold dns_compare_step. cbn [w_cmp w_name w_end].
  destruct (Z.eqb_spec (load (buffer state) q) 0) as [Hz|_];
    [rewrite Hz in Hptr; discriminate|].
  rewrite Hptr, Htarget. cbn [Z.eqb Pos.eqb].
  destruct (Z.gtb_spec (q + 2) (buffer_len state)); [lia|].
  destruct (Z.geb_spec target (buffer_len state)); [lia|]. reflexivity.
Qed.

Lemma dns_compare_name_pointer fuel state q off ls :
  name_is state ls ->
  holds_at (buffer state) off (wire_name ls) ->
  0 <= off ->
  off + name_len state <= buffer_len state ->
  points_to (buffer state) q off ->
  0 <= q ->
  q + 2 <= buffer_len state ->
  (length ls + 1 < fuel)%nat ->
  dns_compare_name fuel state q = Some (0, q + 2).
Proof.
  intros Hname Hbuf Hoff Hfit Hptr Hq Hq2 Hfuel.
  destruct fuel as [|fuel]; [lia|].
  pose proof (dns_compare_loop_echo fuel state off (q + 2) ls
                Hname Hbuf Hoff Hfit ltac:(lia)) as Hloop.
  destruct Hname as (Hok & Hname & Hnl). rewrite length_wire_name in Hnl.
  rewrite dns_compare_name_walks by lia.
  rewrite dns_compare_loop_S. unfold walk_start.
  rewrite (points_to_step state q off (-1) Hptr Hq2) by lia.
  cbn [Z.ltb Z.compare]. rewrite Hloop. cbn [mbind option_bind].
  unfold dns_compare_finish. cbn [w_cmp w_name w_end].
  rewrite (load_holds_at _ _ _ _ _ Hbuf Hoff (wire_name_last ls)).
  pose proof (load_holds_at _ _ _ _ _ Hname ltac:(lia) (wire_name_last ls)) as Hz.
  rewrite Z.add_0_l in Hz. rewrite Hz. cbn [Z.eqb negb orb].
  destruct (Z.ltb_spec (q + 2) 0); [lia|]. reflexivity.
Qed.

(** X13.  A name that is nothing but a compression pointer to a copy of
    the stored name matches too, in one pass more, and the offset moves
    behind the two bytes of the pointer whatever the length of the name. *)
Theorem dns_compare_name_compressed (fuel : nat) (state : mobile_adapter_dns)
    (q off : Z) (ls : list (list ascii)) :
  name_is state ls ->
  holds_at (buffer state) off (wire_name ls) ->
  0 <= off ->
  off + name_len state <= buffer_len state ->
  points_to (buffer state) q off ->
  0 <= q ->
  q + 2 <= buffer_len state ->
  (length ls + 1 < fuel)%nat ->
  dns_compare_name fuel state q = Some (0, q + 2).
Proof. apply dns_compare_name_pointer. Qed.

(** * mobile_dns_query_recv: a response that resolves *)

Lemma be16_holds_at a off bs i x y :
  holds_at a off bs -> 0 <= off ->
  bs !! i = Some x -> bs !! S i = Some y ->
  be16 a (off + Z.of_nat i) = Z.lor (Z.shiftl x 8) y.
Proof.
  intros Hh Hoff Hx Hy. unfold be16.
  rewrite (load_holds_at _ _ _ _ _ Hh Hoff Hx).
  replace (off + Z.of_nat i + 1) with (off + Z.of_nat (S i)) by lia.
  rewrite (load_holds_at _ _ _ _ _ Hh Hoff Hy). reflexivity.
Qed.

Lemma bytes_at_holds a off bs :
  holds_at a off bs -> 0 <= off -> (0 < length bs)%nat ->
  bytes_at a off (length bs) = bs.
Proof.
  intros Hh Hoff Hne. rewrite bytes_at_drop; [exact Hh|exact Hoff|].
  apply holds_at_length; assumption.
Qed.

Lemma lor_id_bytes v :
  0 <= v < 65536 ->
  Z.lor (Z.shiftl (Z.land (Z.shiftr v 8) 0xFF) 8) (Z.land v 0xFF) = v.
Proof. intros Hv. exact (be16_of_id_bytes v [] Hv). Qed.

Lemma be16_read a off bs i x y p :
  holds_at a off bs -> 0 <= off -> p = off + Z.of_nat i ->
  bs !! i = Some x -> bs !! S i = Some y ->
  be16 a p = Z.lor (Z.shiftl x 8) y.
Proof. intros Hh Hoff ->. apply be16_holds_at; assumption. Qed.

Lemma load_read a off bs i x p :
  holds_at a off bs -> 0 <= off -> p = off + Z.of_nat i ->
  bs !! i = Some x ->
  load a p = x.
Proof. intros Hh Hoff ->. apply load_holds_at; assumption. Qed.

(** The 16-bit field at [p], read off the bytes [H] says stand there. *)
Ltac read16 H p i :=
  rewrite (be16_read _ _ _ i _ _ p H ltac:(lia) ltac:(lia) eq_refl eq_refl).

Lemma mobile_dns_query_recv_answer fuel adapter conn ip ls an ttl a tail :
  name_is (dns adapter) ls ->
  0 <= id (dns adapter) < 65536 ->
  type (dns adapter) = DNS_QTYPE_A ->
  1 <= an ->
  length ttl = 4%nat ->
  length a = 4%nat ->
  (length ls + 1 < fuel)%nat ->
  let rx := datagram_from_resolver adapter
              (dns_response_a (id (dns adapter)) an ls ttl a tail) in
  mobile_dns_query_recv fuel adapter conn ip rx
  = Some (1, set_dns adapter (taken_in (dns adapter) rx), memcpy ip 0 a).
Proof.
  intros Hname Hid Htype Han Httl Ha Hfuel rx.
  set (data := dns_response_a (id (dns adapter)) an ls ttl a tail).
  set (s := taken_in (dns adapter) rx).
  set (n := Z.of_nat (length (wire_name ls))).
  assert (Hn : 1 <= n) by (subst n; rewrite length_wire_name; lia).
  assert (Hdlen : Z.of_nat (length data) = 32 + n + Z.of_nat (length tail)).
  { subst data n. unfold dns_response_a, dns_answer_a.
    rewrite !length_app, Httl, Ha.
    cbn [dns_response_header dns_question_trailer length]. lia. }
  assert (Hblen : buffer_len s = Z.of_nat (length data)) by reflexivity.
  assert (Hs_name : name_is s ls) by exact Hname.
  assert (Hs_nl : name_len s = n) by (destruct Hname as (_ & _ & Hnl); exact Hnl).
  assert (HB : holds_at (buffer s) 0 data) by apply holds_at_memcpy.
  unfold data, dns_response_a, dns_answer_a in HB.
  apply holds_at_app in HB as [Hhdr HB]; [|lia].
  apply holds_at_app in HB as [HN HB]; [|lia].
  apply holds_at_app in HB as [Hq HB]; [|lia].
  apply holds_at_app in HB as [Hrr _]; [|lia].
  apply holds_at_app in Hrr as [Hrr_name Hrr]; [|lia].
  apply holds_at_app in Hrr as [Hrr_ttl Hrr]; [|lia].
  apply holds_at_app in Hrr as [Hrr_len Hrr_a]; [|lia].
  fold n in Hq, Hrr_name, Hrr_ttl, Hrr_len, Hrr_a.
  rewrite Httl in Hrr_len, Hrr_a.
  change (0 + Z.of_nat (length (dns_response_header (id (dns adapter)) an)))
    with 12 in *.
  change (Z.of_nat (length (dns_question_trailer DNS_QTYPE_A))) with 4 in *.
  change (Z.of_nat (length [192; 12; 0; 1; 0; 1])) with 6 in *.
  change (Z.of_nat 4) with 4 in *.
  change (Z.of_nat (length [0; 4])) with 2 in *.
  rewrite mobile_dns_query_recv_resolver;
    [|cbn [rx datagram_from_resolver recv_ret]; fold data; lia|reflexivity].
  fold s.
  (* the header and the question *)
  assert (Hver : dns_verify_response fuel s 0 = Some (an, 16 + n)).
  { unfold dns_verify_response. rewrite Hblen.
    destruct (Z.ltb_spec (Z.of_nat (length data)) DNS_HEADER_SIZE);
      [unfold DNS_HEADER_SIZE in *; lia|].
    read16 Hhdr 0 0%nat.
    change (id s) with (id (dns adapter)).
    rewrite lor_id_bytes by exact Hid. rewrite Z.eqb_refl. cbn [negb].
    read16 Hhdr 2 2%nat.
    change (Z.land (Z.lor (Z.shiftl 129 8) 128) 64511 =? 33152) with true.
    cbn [negb].
    read16 Hhdr 4 4%nat.
    change (Z.lor (Z.shiftl 0 8) 1 =? 1) with true. cbn [negb].
    read16 Hhdr 6 6%nat.
    change (Z.shiftl 0 8) with 0. rewrite Z.lor_0_l.
    destruct (Z.ltb_spec an 1); [lia|].
    rewrite (dns_compare_name_copy fuel s DNS_HEADER_SIZE ls Hs_name HN)
      by (unfold DNS_HEADER_SIZE; lia).
    cbn [mbind option_bind]. rewrite Hs_nl. unfold DNS_HEADER_SIZE, DNS_QD_SIZE.
    cbn [Z.eqb negb orb].
    destruct (Z.gtb_spec (12 + n + 4) (Z.of_nat (length data))); [lia|].
    change (type s) with (type (dns adapter)). rewrite Htype.
    read16 Hq (12 + n) 0%nat.
    change (Z.lor (Z.shiftl 0 8) (qtype_code DNS_QTYPE_A)
            =? qtype_code DNS_QTYPE_A) with true. cbn [negb].
    read16 Hq (12 + n + 2) 2%nat.
    change (Z.lor (Z.shiftl 0 8) 1 =? 1) with true. cbn [negb].
    f_equal. f_equal. lia. }
  rewrite Hver. cbn [mbind option_bind].
  destruct (Z.ltb_spec an 0); [lia|].
  (* the record *)
  assert (Hptr : points_to (buffer s) (16 + n) 12).
  { unfold points_to.
    rewrite (load_read _ _ _ 0%nat _ (16 + n) Hrr_name ltac:(lia) ltac:(lia) eq_refl).
    rewrite (load_read _ _ _ 1%nat _ (16 + n + 1) Hrr_name
               ltac:(lia) ltac:(lia) eq_refl).
    split; reflexivity. }
  assert (Hcmp : dns_compare_name fuel s (16 + n) = Some (0, 18 + n)).
  { rewrite (dns_compare_name_pointer fuel s (16 + n) 12 ls Hs_name HN);
      try lia; [f_equal; f_equal; lia|exact Hptr]. }
  assert (Hget : dns_get_answer fuel s (16 + n) = Some (28 + n, 32 + n)).
  { rewrite (dns_get_answer_record fuel s (16 + n) 0 (18 + n) ltac:(lia) Hcmp).
    assert (Hlen : record_rdlength s (18 + n) = 4).
    { unfold record_rdlength. read16 Hrr_len (18 + n + 8) 0%nat. reflexivity. }
    assert (Hty : record_type s (18 + n) = 1).
    { unfold record_type. read16 Hrr_name (18 + n) 2%nat. reflexivity. }
    assert (Hcl : record_class s (18 + n) = 1).
    { unfold record_class. read16 Hrr_name (18 + n + 2) 4%nat. reflexivity. }
    unfold record_in_buffer, record_accepted, record_rdata.
    rewrite Hlen, Hty, Hcl, Hblen.
    change (type s) with (type (dns adapter)). rewrite Htype.
    destruct (Z.leb_spec (18 + n + 10) (Z.of_nat (length data))); [|lia].
    destruct (Z.leb_spec (18 + n + 10 + 4) (Z.of_nat (length data))); [|lia].
    cbn. f_equal. f_equal; lia. }
  replace (Z.to_nat an) with (S (Z.to_nat (an - 1))) by lia.
  cbn [answer_scan]. rewrite Hget. cbn [mbind option_bind].
  destruct (Z.ltb_spec (28 + n) (-1)); [lia|].
  destruct (Z.eqb_spec (28 + n) (-1)); [lia|].
  cbn [mbind option_bind]. do 3 f_equal.
  replace (28 + n) with (12 + n + 4 + 6 + 4 + 2) by lia.
  rewrite <- Ha. apply bytes_at_holds; [exact Hrr_a|lia|lia].
Qed.

(** X14.  The resolution end to end.  With a stored name of labels of 1 to
    63 bytes and an outstanding query of type A, a datagram from the
    resolver that carries the query's id, the flags 81 80, one question
    with the name written out, and first a type A, class IN record of four
    bytes named by a pointer to that question makes
    [mobile_dns_query_recv] return 1 with those four bytes in [ip],
    whatever the announced number of answers and whatever follows; two
    passes of the walk more than the name has labels are enough. *)
Theorem mobile_dns_query_recv_resolves (fuel : nat) (adapter : mobile_adapter)
    (conn : Z) (ip : list Z) (ls : list (list ascii)) (an : Z)
    (ttl a tail : list Z) :
  name_is (dns adapter) ls ->
  0 <= id (dns adapter) < 65536 ->
  type (dns adapter) = DNS_QTYPE_A ->
  1 <= an ->
  length ttl = 4%nat ->
  length a = 4%nat ->
  (length ls + 1 < fuel)%nat ->
  let rx := datagram_from_resolver adapter
              (dns_response_a (id (dns adapter)) an ls ttl a tail) in
  mobile_dns_query_recv fuel adapter conn ip rx
  = Some (1, set_dns adapter (taken_in (dns adapter) rx), memcpy ip 0 a).
Proof. apply mobile_dns_query_recv_answer. Qed.

(** * dns_compare_name: names that do not match *)

Lemma label_equal_true buf nm n :
  forall cmp nam,
    label_equal buf nm cmp nam n = true ->
    forall j, (j < n)%nat ->
              load buf (cmp + Z.of_nat j) = load nm (nam + Z.of_nat j).
Proof.
  induction n as [|n IH]; intros cmp nam Heq j Hj; [lia|].
  cbn [label_equal] in Heq.
  destruct (Z.eqb_spec (load buf cmp) (load nm nam)) as [H0|]; [|discriminate].
  cbn [negb] in Heq. destruct j as [|j].
  - rewrite !Z.add_0_r. exact H0.
  - replace (cmp + Z.of_nat (S j)) with (cmp + 1 + Z.of_nat j) by lia.
    replace (nam + Z.of_nat (S j)) with (nam + 1 + Z.of_nat j) by lia.
    apply IH; [exact Heq|lia].
Qed.

Lemma char_code_inj a b : char_code a = char_code b -> a = b.
Proof.
  unfold char_code. intros H. apply N2Z.inj in H.
  rewrite <- (ascii_N_embedding a), <- (ascii_N_embedding b), H. reflexivity.
Qed.

Lemma wire_labels_cons l ls :
  wire_labels (l :: ls) = (Z.of_nat (length l) :: map char_code l) ++ wire_labels ls.
Proof. reflexivity. Qed.

Lemma lookup_label_length w l rest :
  (w ++ wire_labels (l :: rest) ++ [0]) !! length w = Some (Z.of_nat (length l)).
Proof.
  rewrite lookup_app_r by lia. rewrite Nat.sub_diag. reflexivity.
Qed.

Lemma lookup_label_byte w l rest k c :
  l !! k = Some c ->
  (w ++ wire_labels (l :: rest) ++ [0]) !! (length w + S k)%nat
  = Some (char_code c).
Proof.
  intros Hk. rewrite lookup_app_r by lia.
  replace (length w + S k - length w)%nat with (S k) by lia.
  rewrite wire_labels_cons. cbn [app]. rewrite lookup_cons.
  rewrite <- app_assoc, lookup_app_l
    by (rewrite length_map; apply lookup_lt_Some in Hk; exact Hk).
  rewrite list_lookup_fmap, Hk. reflexivity.
Qed.

(** The walk over a name written out in full that is not the stored one
    ends with -1 or breaks where the stored name goes on. *)
Lemma dns_compare_loop_other state off e lsB :
  forall ls1 lsA pn,
    Forall label_ok lsA ->
    Forall label_ok lsB ->
    holds_at (name state) 0 (wire_labels ls1 ++ wire_labels lsA ++ [0]) ->
    name_len state
    = Z.of_nat (length (wire_labels ls1 ++ wire_labels lsA ++ [0])) ->
    holds_at (buffer state) off (wire_labels ls1 ++ wire_labels lsB ++ [0]) ->
    0 <= off ->
    lsA <> lsB ->
    pn = Z.of_nat (length (wire_labels ls1)) ->
    dns_compare_loop (S (length lsB)) state
      {| w_name := pn; w_cmp := off + pn; w_end := e |} = Some (inl (-1))
    \/ exists w,
         dns_compare_loop (S (length lsB)) state
           {| w_name := pn; w_cmp := off + pn; w_end := e |} = Some (inr w)
         /\ load (name state) (w_name w) <> 0.
Proof.
  induction lsB as [|lB lsB IH];
    intros ls1 lsA pn HokA HokB Hname Hnl Hbuf Hoff Hne Hpn; subst pn.
  - destruct lsA as [|lA lsA]; [contradiction|].
    apply Forall_cons in HokA as [HlA _]. unfold label_ok in HlA.
    right. eexists. split.
    + cbn [dns_compare_loop]. unfold dns_compare_step. cbn [w_cmp].
      rewrite (load_holds_at _ _ _ _ _ Hbuf Hoff
                 (list_lookup_middle _ _ _ _ eq_refl)).
      reflexivity.
    + cbn [w_name].
      pose proof (load_holds_at _ _ _ _ _ Hname ltac:(lia)
                    (lookup_label_length (wire_labels ls1) lA lsA)) as Hl.
      rewrite Z.add_0_l in Hl. rewrite Hl. lia.
  - apply Forall_cons in HokB as [HlB HokB]. unfold label_ok in HlB.
    change (S (length (lB :: lsB))) with (S (S (length lsB))).
    rewrite (dns_compare_loop_S (S (length lsB))).
    unfold dns_compare_step. cbn [w_cmp w_name w_end].
    rewrite (load_holds_at _ _ _ _ _ Hbuf Hoff
               (lookup_label_length (wire_labels ls1) lB lsB)).
    destruct (Z.eqb_spec (Z.of_nat (length lB)) 0); [lia|].
    rewrite land_label_length by lia. cbn [Z.eqb].
    destruct (Z.geb_spec (Z.of_nat (length (wire_labels ls1))
                          + (Z.of_nat (length lB) + 1)) (name_len state))
      as [|Hin]; [left; reflexivity|].
    destruct (_ >=? buffer_len state); [left; reflexivity|].
    destruct (label_equal _ _ _ _ _) eqn:Heq; [|left; reflexivity].
    pose proof (label_equal_true _ _ _ _ _ Heq) as Hsame.
    rewrite Hnl in Hin.
    assert (Hfirst : load (name state) (Z.of_nat (length (wire_labels ls1)))
                     = Z.of_nat (length lB)).
    { pose proof (Hsame 0%nat ltac:(lia)) as H0.
      cbn [Z.of_nat] in H0. rewrite !Z.add_0_r in H0. rewrite <- H0.
      apply (load_holds_at _ _ _ _ _ Hbuf Hoff
               (lookup_label_length (wire_labels ls1) lB lsB)). }
    (* the stored name goes on with the same label *)
    destruct lsA as [|lA lsA].
    { exfalso.
      pose proof (load_holds_at _ _ _ _ _ Hname ltac:(lia)
                    (list_lookup_middle (wire_labels ls1) [] 0 _ eq_refl)) as Hz.
      rewrite Z.add_0_l in Hz. cbn [wire_labels flat_map app] in Hz.
      rewrite Hz in Hfirst. lia. }
    assert (Hlen : length lA = length lB).
    { pose proof (load_holds_at _ _ _ _ _ Hname ltac:(lia)
                    (lookup_label_length (wire_labels ls1) lA lsA)) as Hl.
      rewrite Z.add_0_l in Hl. rewrite Hl in Hfirst. lia. }
    assert (HlAB : lA = lB).
    { apply list_eq. intros k.
      destruct (lB !! k) as [b|] eqn:Hb.
      - destruct (lookup_lt_is_Some_2 lA k) as [a Ha];
          [apply lookup_lt_Some in Hb; lia|].
        rewrite Ha. f_equal. apply char_code_inj.
        specialize (Hsame (S k) ltac:(apply lookup_lt_Some in Hb; lia)).
        replace (off + Z.of_nat (length (wire_labels ls1)) + Z.of_nat (S k))
          with (off + Z.of_nat (length (wire_labels ls1) + S k)) in Hsame by lia.
        replace (Z.of_nat (length (wire_labels ls1)) + Z.of_nat (S k))
          with (0 + Z.of_nat (length (wire_labels ls1) + S k)) in Hsame by lia.
        rewrite (load_holds_at _ _ _ _ _ Hbuf Hoff
                   (lookup_label_byte _ _ _ _ _ Hb)) in Hsame.
        rewrite (load_holds_at _ _ _ _ _ Hname ltac:(lia)
                   (lookup_label_byte _ _ _ _ _ Ha)) in Hsame.
        symmetry. exact Hsame.
      - apply lookup_ge_None in Hb. apply lookup_ge_None. lia. }
    subst lA. apply Forall_cons in HokA as [_ HokA].
    assert (Hbs : forall ls,
               wire_labels (ls1 ++ [lB]) ++ wire_labels ls ++ [0]
               = wire_labels ls1 ++ wire_labels (lB :: ls) ++ [0]).
    { intros ls. rewrite wire_labels_app. unfold wire_labels. cbn [flat_map].
      rewrite app_nil_r, <- !app_assoc. reflexivity. }
    replace (off + Z.of_nat (length (wire_labels ls1)) + (Z.of_nat (length lB) + 1))
      with (off + (Z.of_nat (length (wire_labels ls1))
                   + (Z.of_nat (length lB) + 1))) by lia.
    apply (IH (ls1 ++ [lB]) lsA); try assumption.
    + rewrite Hbs. exact Hname.
    + rewrite Hbs. exact Hnl.
    + rewrite Hbs. exact Hbuf.
    + intros ->. apply Hne. reflexivity.
    + rewrite wire_labels_app, length_app, length_wire_labels_cons.
      cbn [wire_labels flat_map length]. lia.
Qed.

Lemma dns_compare_name_other_aux (fuel : nat) (state : mobile_adapter_dns)
    (off : Z) (ls ls' : list (list ascii)) :
  name_is state ls ->
  Forall label_ok ls' ->
  holds_at (buffer state) off (wire_name ls') ->
  0 <= off < buffer_len state ->
  ls' <> ls ->
  (length ls' < fuel)%nat ->
  dns_compare_name fuel state off = Some (-1, off).
Proof.
  intros (Hok & Hname & Hnl) Hok' Hbuf Hoff Hne Hfuel.
  rewrite dns_compare_name_walks by (rewrite ?Hnl, ?length_wire_name; lia).
  pose proof (dns_compare_loop_other state off (-1) ls' [] ls 0
                Hok Hok' Hname Hnl Hbuf ltac:(lia)
                ltac:(intros ->; apply Hne; reflexivity) eq_refl) as Hwalk.
  rewrite Z.add_0_r in Hwalk. fold (walk_start off) in Hwalk.
  destruct Hwalk as [Hret|(w & Hbrk & Hw)].
  - rewrite (dns_compare_loop_more_fuel (S (length ls')) fuel _ _ _
               ltac:(lia) Hret).
    reflexivity.
  - rewrite (dns_compare_loop_more_fuel (S (length ls')) fuel _ _ _
               ltac:(lia) Hbrk).
    cbn [mbind option_bind]. unfold dns_compare_finish.
    destruct (Z.eqb_spec (load (name state) (w_name w)) 0); [contradiction|].
    rewrite orb_true_r. reflexivity.
Qed.

(** X15.  A name written out in full in the buffer that is not the stored
    name does not match: whatever differs (a byte of a label, a length, the
    number of labels), [dns_compare_name] returns -1 and leaves the offset
    where it was. *)
Theorem dns_compare_name_other (fuel : nat) (state : mobile_adapter_dns)
    (off : Z) (ls ls' : list (list ascii)) :
  name_is state ls ->
  Forall label_ok ls' ->
  holds_at (buffer state) off (wire_name ls') ->
  0 <= off < buffer_len state ->
  ls' <> ls ->
  (length ls' < fuel)%nat ->
  dns_compare_name fuel state off = Some (-1, off).
Proof. apply dns_compare_name_other_aux. Qed.

(** * Sending a query and receiving its answer *)

Lemma name_is_after_send MAX adapter conn host send_ok :
  Z.of_nat (length (name (dns adapter))) = MAX ->
  2 <= MAX ->
  Forall label_ok (split_labels (list_ascii_of_string host)) ->
  encoded_size (list_ascii_of_string host) <= MAX ->
  let adapter' := (mobile_dns_query_send MAX adapter conn host send_ok).1.2 in
  name_is (dns adapter') (split_labels (list_ascii_of_string host))
  /\ type (dns adapter') = DNS_QTYPE_A
  /\ id (dns adapter') = u16 (id (dns adapter) + 1).
Proof.
  intros Hlen Hmax Hok Hsize adapter'.
  assert (Hshort : ~ label_too_long (list_ascii_of_string host)).
  { unfold label_too_long. rewrite Exists_exists. intros (l & Hin & Hl).
    rewrite Forall_forall in Hok. apply Hok in Hin. unfold label_ok in Hin. lia. }
  pose proof (proj2 (dns_make_name_ok_iff MAX (dns adapter) host Hlen Hmax)
                (conj Hshort Hsize)) as Hrun.
  pose proof (dns_make_name_id MAX (dns adapter) host) as Hid.
  subst adapter'. unfold mobile_dns_query_send.
  destruct (dns_make_name MAX (dns adapter) host) as [[] s] eqn:Hname;
    [|discriminate].
  cbn [snd] in Hid.
  destruct (dns_make_name_stores MAX _ _ _ Hlen Hmax Hname)
    as (Hn & Hb & Hl & Hwire).
  assert (Hnm : name_is s (split_labels (list_ascii_of_string host))).
  { split; [exact Hok|].
    assert (Hlenw : Z.to_nat (name_len s)
                    = length (wire_name (split_labels (list_ascii_of_string host)))).
    { rewrite <- Hwire, length_take. lia. }
    unfold encoded_size in Hn.
    split; [|lia].
    unfold holds_at. change (Z.to_nat 0) with 0%nat.
    rewrite drop_0, <- Hlenw. exact Hwire. }
  cbn [dns_make_query].
  destruct send_ok; cbn [negb fst snd dns set_dns type id];
    (split; [exact Hnm|split; [reflexivity|rewrite Hid; reflexivity]]).
Qed.

(** X16.  Send and receive compose.  After [mobile_dns_query_send] for a
    host whose labels have 1 to 63 bytes and that fits the name array, the
    response of the resolver to that query (same id, the host echoed, a
    type A record of four bytes named by a pointer to the question) makes
    [mobile_dns_query_recv] return 1 with the four bytes in [ip]. *)
Theorem mobile_dns_query_round_trip (MAX : Z) (adapter : mobile_adapter)
    (conn : Z) (host : string) (send_ok : bool) (fuel : nat) (ip : list Z)
    (an : Z) (ttl a tail : list Z) :
  Z.of_nat (length (name (dns adapter))) = MAX ->
  2 <= MAX ->
  Forall label_ok (split_labels (list_ascii_of_string host)) ->
  encoded_size (list_ascii_of_string host) <= MAX ->
  1 <= an ->
  length ttl = 4%nat ->
  length a = 4%nat ->
  (length (split_labels (list_ascii_of_string host)) + 1 < fuel)%nat ->
  let adapter' := (mobile_dns_query_send MAX adapter conn host send_ok).1.2 in
  let rx := datagram_from_resolver adapter'
              (dns_response_a (id (dns adapter')) an
                 (split_labels (list_ascii_of_string host)) ttl a tail) in
  mobile_dns_query_recv fuel adapter' conn ip rx
  = Some (1, set_dns adapter' (taken_in (dns adapter') rx), memcpy ip 0 a).
Proof.
  intros Hlen Hmax Hok Hsize Han Httl Ha Hfuel adapter' rx.
  destruct (name_is_after_send MAX adapter conn host send_ok Hlen Hmax Hok Hsize)
    as (Hname & Htype & Hid).
  fold adapter' in Hname, Htype, Hid.
  apply mobile_dns_query_recv_answer; try assumption.
  rewrite Hid. apply u16_range.
Qed.

Lemma dns_verify_response_question_fails fuel s offset an :
  holds_at (buffer s) 0 (dns_response_header (id s) an) ->
  DNS_HEADER_SIZE <= buffer_len s ->
  0 <= id s < 65536 ->
  1 <= an ->
  dns_compare_name fuel s DNS_HEADER_SIZE = Some (-1, DNS_HEADER_SIZE) ->
  dns_verify_response fuel s offset = Some (-19, DNS_HEADER_SIZE).
Proof.
  intros Hhdr Hlen Hid Han Hcmp. unfold dns_verify_response.
  destruct (Z.ltb_spec (buffer_len s) DNS_HEADER_SIZE); [lia|].
  read16 Hhdr 0 0%nat.
  rewrite lor_id_bytes by exact Hid. rewrite Z.eqb_refl. cbn [negb].
  read16 Hhdr 2 2%nat.
  change (Z.land (Z.lor (Z.shiftl 129 8) 128) 64511 =? 33152) with true.
  cbn [negb].
  read16 Hhdr 4 4%nat.
  change (Z.lor (Z.shiftl 0 8) 1 =? 1) with true. cbn [negb].
  read16 Hhdr 6 6%nat.
  change (Z.shiftl 0 8) with 0. rewrite Z.lor_0_l.
  destruct (Z.ltb_spec an 1); [lia|].
  rewrite Hcmp. reflexivity.
Qed.

(** X17.  A response of the resolver with the right id and flags that
    echoes another name than the stored one is turned down with -1,
    whatever records it carries, and [ip] is left alone. *)
Theorem mobile_dns_query_recv_wrong_question (fuel : nat) (adapter : mobile_adapter)
    (conn : Z) (ip : list Z) (ls ls' : list (list ascii)) (an : Z)
    (ttl a tail : list Z) :
  name_is (dns adapter) ls ->
  Forall label_ok ls' ->
  ls' <> ls ->
  0 <= id (dns adapter) < 65536 ->
  1 <= an ->
  (length ls' < fuel)%nat ->
  let rx := datagram_from_resolver adapter
              (dns_response_a (id (dns adapter)) an ls' ttl a tail) in
  mobile_dns_query_recv fuel adapter conn ip rx
  = Some (-1, set_dns adapter (taken_in (dns adapter) rx), ip).
Proof.
  intros Hname Hok' Hne Hid Han Hfuel rx.
  set (data := dns_response_a (id (dns adapter)) an ls' ttl a tail).
  set (s := taken_in (dns adapter) rx).
  assert (Hdlen : 12 + Z.of_nat (length (wire_name ls')) <= Z.of_nat (length data)).
  { subst data. unfold dns_response_a. rewrite !length_app.
    cbn [dns_response_header length]. lia. }
  assert (Hblen : buffer_len s = Z.of_nat (length data)) by reflexivity.
  assert (HB : holds_at (buffer s) 0 data) by apply holds_at_memcpy.
  unfold data, dns_response_a in HB.
  apply holds_at_app in HB as [Hhdr HB]; [|lia].
  apply holds_at_app in HB as [HN _]; [|lia].
  change (0 + Z.of_nat (length (dns_response_header (id (dns adapter)) an)))
    with DNS_HEADER_SIZE in HN.
  pose proof (length_wire_name ls') as Hwl.
  rewrite mobile_dns_query_recv_resolver;
    [|cbn [rx datagram_from_resolver recv_ret]; fold data; lia|reflexivity].
  fold s.
  rewrite (dns_verify_response_question_fails fuel s 0 an Hhdr);
    [reflexivity|unfold DNS_HEADER_SIZE; lia|exact Hid|exact Han|].
  apply (dns_compare_name_other_aux fuel s DNS_HEADER_SIZE ls ls');
    try assumption. unfold DNS_HEADER_SIZE. lia.
Qed.

(** * Labels of a type the walk does not know *)

Lemma be16_high_byte a i : bytes a -> Z.shiftr (be16 a i) 8 = load a i.
Proof.
  intros Ha. unfold be16.
  pose proof (load_bytes a i Ha) as H0. pose proof (load_bytes a (i + 1) Ha) as H1.
  rewrite Z.shiftr_lor, Z.shiftr_shiftl_l by lia.
  rewrite (Z.shiftr_div_pow2 (load a (i + 1))) by lia.
  change (2 ^ 8) with 256. rewrite Z.div_small by lia.
  rewrite Z.lor_0_r. change (8 - 8) with 0. apply Z.shiftl_0_r.
Qed.

(** X18.  A name whose first byte has the top bits 01 or 10 (a label type
    the walk does not know) makes [dns_compare_name] return 0, not -1, with
    the offset where it was; nothing was compared.  A record that starts
    so is all the same never accepted by [dns_get_answer]: its type field
    is read at the same offset and has a non-zero high byte. *)
Theorem dns_compare_name_unknown_label (fuel : nat) (s : mobile_adapter_dns)
    (offset : Z) :
  bytes (buffer s) ->
  0 <= offset < buffer_len s ->
  name_len s <> 0 ->
  Z.land (load (buffer s) offset) 0xC0 <> 0 ->
  Z.land (load (buffer s) offset) 0xC0 <> 0xC0 ->
  (0 < fuel)%nat ->
  dns_compare_name fuel s offset = Some (0, offset)
  /\ exists r offset',
       dns_get_answer fuel s offset = Some (r, offset') /\ (r = -1 \/ r = -2).
Proof.
  intros Hb Hoff Hnl H00 H11 Hfuel.
  assert (Hcmp : dns_compare_name fuel s offset = Some (0, offset)).
  { rewrite dns_compare_name_walks by lia.
    destruct fuel as [|fuel]; [lia|].
    rewrite dns_compare_loop_S. unfold dns_compare_step, walk_start. cbn [w_cmp].
    destruct (Z.eqb_spec (load (buffer s) offset) 0) as [Hz|_];
      [rewrite Hz in H00; contradiction|].
    destruct (Z.eqb_spec (Z.land (load (buffer s) offset) 192) 192);
      [contradiction|].
    destruct (Z.eqb_spec (Z.land (load (buffer s) offset) 192) 0);
      [contradiction|]. reflexivity. }
  split; [exact Hcmp|].
  rewrite (dns_get_answer_record fuel s offset 0 offset ltac:(lia) Hcmp).
  destruct (negb (record_in_buffer s offset)); [eauto|].
  destruct (record_accepted s 0 offset) eqn:Hacc; [|eauto].
  exfalso. unfold record_accepted in Hacc.
  rewrite !andb_true_iff, !Z.eqb_eq in Hacc.
  destruct Hacc as (((_ & Hty) & _) & _). unfold record_type in Hty.
  pose proof (be16_high_byte (buffer s) offset Hb) as Hhigh.
  rewrite Hty in Hhigh.
  assert (Hzero : load (buffer s) offset = 0)
    by (rewrite <- Hhigh; destruct (type s); reflexivity).
  rewrite Hzero in H00. apply H00. reflexivity.
Qed.

(** * Instances of the further theorems at the sample data *)

Lemma sample_labels_ok : Forall label_ok sample_labels.
Proof. repeat constructor; unfold label_ok; cbn; lia. Qed.

Lemma sample_labels_other_ok : Forall label_ok sample_labels_other.
Proof. repeat constructor; unfold label_ok; cbn; lia. Qed.

Lemma sample_name_is_adapter1 : name_is (dns adapter1) sample_labels.
Proof.
  split; [exact sample_labels_ok|]. split; vm_compute; reflexivity.
Qed.

Lemma sample_name_is_received d : name_is (received adapter1 d) sample_labels.
Proof. exact sample_name_is_adapter1. Qed.

Lemma dns_make_name_wire_form_witness :
  Z.of_nat (length (name (dns adapter0))) = 256
  /\ 2 <= 256
  /\ dns_make_name 256 (dns adapter0) "a.b"
     = (true, (dns_make_name 256 (dns adapter0) "a.b").2)
  /\ take (Z.to_nat (name_len (dns_make_name 256 (dns adapter0) "a.b").2))
          (name (dns_make_name 256 (dns adapter0) "a.b").2)
     = wire_name (split_labels (list_ascii_of_string "a.b")).
Proof.
  assert (H1 : Z.of_nat (length (name (dns adapter0))) = 256) by reflexivity.
  assert (H2 : 2 <= 256) by lia.
  assert (H3 : dns_make_name 256 (dns adapter0) "a.b"
               = (true, (dns_make_name 256 (dns adapter0) "a.b").2))
    by (vm_compute; reflexivity).
  repeat (split; [assumption|]).
  exact (dns_make_name_wire_form 256 (dns adapter0) _ "a.b" H1 H2 H3).
Defined.

Lemma dns_make_name_size_witness :
  2 <= 5
  /\ dns_make_name 5 sample_name_state "a.b"
     = (true, (dns_make_name 5 sample_name_state "a.b").2)
  /\ name (dns_make_name 5 sample_name_state "a.b").2
     = [1; 97; 1; 98; 0; 7; 7; 7]
  /\ drop 5 (name (dns_make_name 5 sample_name_state "a.b").2) = [7; 7; 7].
Proof.
  assert (H1 : 2 <= 5) by lia.
  assert (H2 : dns_make_name 5 sample_name_state "a.b"
               = (true, (dns_make_name 5 sample_name_state "a.b").2))
    by (vm_compute; reflexivity).
  split; [exact H1|]. split; [exact H2|]. split; [vm_compute; reflexivity|].
  exact (proj1 (dns_make_name_size 5 sample_name_state _ "a.b" true H1 H2)).
Defined.

Lemma dns_compare_name_returns_witness :
  dns_compare_name 8 (received adapter1 sample_response_a) 21 = Some (0, 23)
  /\ (23 = 21 \/ 23 <= buffer_len (received adapter1 sample_response_a)).
Proof.
  assert (H1 : dns_compare_name 8 (received adapter1 sample_response_a) 21
               = Some (0, 23)) by (vm_compute; reflexivity).
  split; [exact H1|].
  exact (proj2 (proj2 (dns_compare_name_returns 8 _ 21 0 23 H1))).
Defined.

Lemma dns_verify_response_returns_witness :
  bytes (buffer (received adapter1 sample_response_a))
  /\ dns_verify_response 8 (received adapter1 sample_response_a) 0 = Some (1, 21)
  /\ ((1 <= 1 <= 65535
       /\ 1 = be16 (buffer (received adapter1 sample_response_a)) 6
       /\ 21 <= buffer_len (received adapter1 sample_response_a))
      \/ -19 <= 1 <= -1).
Proof.
  assert (H1 : bytes (buffer (received adapter1 sample_response_a)))
    by (apply bytesb_bytes; vm_compute; reflexivity).
  assert (H2 : dns_verify_response 8 (received adapter1 sample_response_a) 0
               = Some (1, 21)) by (vm_compute; reflexivity).
  split; [exact H1|]. split; [exact H2|].
  exact (dns_verify_response_returns 8 _ 0 1 21 H1 H2).
Defined.

Lemma dns_get_answer_returns_witness :
  bytes (buffer (received adapter1 sample_response_a))
  /\ 0 <= 21
  /\ dns_get_answer 8 (received adapter1 sample_response_a) 21 = Some (33, 37)
  /\ (33 = -1
      \/ (33 = -2 /\ 37 <= buffer_len (received adapter1 sample_response_a))
      \/ (10 <= 33
          /\ 37 = 33 + address_size (type (received adapter1 sample_response_a))
          /\ 33 + 4 <= 37
          /\ 37 <= buffer_len (received adapter1 sample_response_a))).
Proof.
  assert (H1 : bytes (buffer (received adapter1 sample_response_a)))
    by (apply bytesb_bytes; vm_compute; reflexivity).
  assert (H2 : 0 <= 21) by lia.
  assert (H3 : dns_get_answer 8 (received adapter1 sample_response_a) 21
               = Some (33, 37)) by (vm_compute; reflexivity).
  repeat (split; [assumption|]).
  exact (dns_get_answer_returns 8 _ 21 33 37 H1 H2 H3).
Defined.

Lemma mobile_dns_query_recv_returns_witness :
  mobile_dns_query_recv 8 adapter1 3 [0; 0; 0; 0] (from_resolver sample_response_a)
  = Some (1, set_dns adapter1 (received adapter1 sample_response_a),
          [93; 184; 216; 34])
  /\ name (dns (set_dns adapter1 (received adapter1 sample_response_a)))
     = name (dns adapter1).
Proof.
  assert (H1 : mobile_dns_query_recv 8 adapter1 3 [0; 0; 0; 0]
                 (from_resolver sample_response_a)
               = Some (1, set_dns adapter1 (received adapter1 sample_response_a),
                       [93; 184; 216; 34])) by (vm_compute; reflexivity).
  split; [exact H1|].
  exact (proj1 (proj2 (proj2
           (mobile_dns_query_recv_returns 8 adapter1 _ 3 _ _ _ 1 H1)))).
Defined.

Lemma mobile_dns_query_recv_bad_header_witness :
  0 < recv_ret (from_resolver sample_response_nxdomain)
  /\ recv_from (from_resolver sample_response_nxdomain) = resolver_addr adapter1
  /\ flags_pattern
       (be16 (buffer (taken_in (dns adapter1)
                        (from_resolver sample_response_nxdomain))) 2) = false
  /\ mobile_dns_query_recv 8 adapter1 3 [0; 0; 0; 0]
       (from_resolver sample_response_nxdomain)
     = Some (-1,
             set_dns adapter1
               (taken_in (dns adapter1) (from_resolver sample_response_nxdomain)),
             [0; 0; 0; 0]).
Proof.
  assert (H1 : 0 < recv_ret (from_resolver sample_response_nxdomain))
    by (vm_compute; reflexivity).
  assert (H2 : recv_from (from_resolver sample_response_nxdomain)
               = resolver_addr adapter1) by reflexivity.
  assert (H3 : flags_pattern
                 (be16 (buffer (taken_in (dns adapter1)
                                  (from_resolver sample_response_nxdomain))) 2)
               = false) by (vm_compute; reflexivity).
  repeat (split; [assumption|]).
  apply (mobile_dns_query_recv_bad_header 8 adapter1 3 [0; 0; 0; 0]
           (from_resolver sample_response_nxdomain) H1 H2).
  right. right. left. exact H3.
Defined.

Lemma dns_make_query_datagram_witness :
  0 <= name_len (dns adapter1)
  /\ (Z.to_nat (name_len (dns adapter1)) <= length (name (dns adapter1)))%nat
  /\ 16 + name_len (dns adapter1) <= Z.of_nat (length (buffer (dns adapter1)))
  /\ buffer_len (dns_make_query (dns adapter1) DNS_QTYPE_A).2
     = 16 + name_len (dns adapter1).
Proof.
  assert (H1 : 0 <= name_len (dns adapter1)) by (vm_compute; congruence).
  assert (H2 : (Z.to_nat (name_len (dns adapter1))
                <= length (name (dns adapter1)))%nat)
    by (apply Nat.leb_le; vm_compute; reflexivity).
  assert (H3 : 16 + name_len (dns adapter1)
               <= Z.of_nat (length (buffer (dns adapter1))))
    by (vm_compute; congruence).
  repeat (split; [assumption|]).
  exact (proj1 (proj2 (proj2
           (dns_make_query_datagram (dns adapter1) DNS_QTYPE_A H1 H2 H3)))).
Defined.

Lemma mobile_dns_query_send_result_witness :
  Z.of_nat (length (name (dns adapter0))) = 256
  /\ 2 <= 256
  /\ mobile_dns_query_send 256 adapter0 3 "a.b" true
     = (true, adapter1, (mobile_dns_query_send 256 adapter0 3 "a.b" true).2)
  /\ (true = true <->
      (~ label_too_long (list_ascii_of_string "a.b")
       /\ encoded_size (list_ascii_of_string "a.b") <= 256)
      /\ true = true).
Proof.
  assert (H1 : Z.of_nat (length (name (dns adapter0))) = 256) by reflexivity.
  assert (H2 : 2 <= 256) by lia.
  assert (H3 : mobile_dns_query_send 256 adapter0 3 "a.b" true
               = (true, adapter1,
                  (mobile_dns_query_send 256 adapter0 3 "a.b" true).2))
    by (vm_compute; reflexivity).
  repeat (split; [assumption|]).
  exact (proj1 (mobile_dns_query_send_result 256 adapter0 adapter1 3 "a.b"
                  true true _ H1 H2 H3)).
Defined.

Lemma mobile_dns_query_send_datagram_witness :
  Z.of_nat (length (name (dns adapter0))) = 256
  /\ 2 <= 256
  /\ 256 + 16 <= Z.of_nat (length (buffer (dns adapter0)))
  /\ (dns_make_name 256 (dns adapter0) "a.b").1 = true
  /\ head (mobile_dns_query_send 256 adapter0 3 "a.b" true).2
     = Some (board_sock_send 3
               (dns_query_header (u16 (id (dns adapter0) + 1))
                ++ wire_name (split_labels (list_ascii_of_string "a.b"))
                ++ dns_question_trailer DNS_QTYPE_A)
               (addr4 DNS_PORT (dns1 adapter0))).
Proof.
  assert (H1 : Z.of_nat (length (name (dns adapter0))) = 256) by reflexivity.
  assert (H2 : 2 <= 256) by lia.
  assert (H3 : 256 + 16 <= Z.of_nat (length (buffer (dns adapter0))))
    by (vm_compute; congruence).
  assert (H4 : (dns_make_name 256 (dns adapter0) "a.b").1 = true)
    by (vm_compute; reflexivity).
  repeat (split; [assumption|]).
  exact (proj1 (mobile_dns_query_send_datagram 256 adapter0 3 "a.b" true
                  H1 H2 H3 H4)).
Defined.

Lemma after_queries_id_witness :
  0 <= id (dns adapter1) < 65536
  /\ id (after_queries 3 DNS_QTYPE_A (dns adapter1))
     = (id (dns adapter1) + Z.of_nat 3) mod 65536.
Proof.
  assert (H1 : 0 <= id (dns adapter1) < 65536) by (vm_compute; split; congruence).
  split; [exact H1|].
  exact (proj1 (after_queries_id 3 DNS_QTYPE_A (dns adapter1) H1)).
Defined.

Lemma dns_compare_name_echo_witness :
  name_is (received adapter1 sample_response_a) sample_labels
  /\ holds_at (buffer (received adapter1 sample_response_a)) 12
       (wire_name sample_labels)
  /\ 0 <= 12
  /\ 12 + name_len (received adapter1 sample_response_a)
     <= buffer_len (received adapter1 sample_response_a)
  /\ (length sample_labels < 8)%nat
  /\ dns_compare_name 8 (received adapter1 sample_response_a) 12
     = Some (0, 12 + name_len (received adapter1 sample_response_a)).
Proof.
  assert (H1 := sample_name_is_received sample_response_a).
  assert (H2 : holds_at (buffer (received adapter1 sample_response_a)) 12
                 (wire_name sample_labels)) by (vm_compute; reflexivity).
  assert (H3 : 0 <= 12) by lia.
  assert (H4 : 12 + name_len (received adapter1 sample_response_a)
               <= buffer_len (received adapter1 sample_response_a))
    by (vm_compute; congruence).
  assert (H5 : (length sample_labels < 8)%nat) by (cbn; lia).
  repeat (split; [assumption|]).
  exact (dns_compare_name_echo 8 _ 12 sample_labels H1 H2 H3 H4 H5).
Defined.

Lemma dns_compare_name_compressed_witness :
  name_is (received adapter1 sample_response_a) sample_labels
  /\ holds_at (buffer (received adapter1 sample_response_a)) 12
       (wire_name sample_labels)
  /\ points_to (buffer (received adapter1 sample_response_a)) 21 12
  /\ dns_compare_name 8 (received adapter1 sample_response_a) 21 = Some (0, 21 + 2).
Proof.
  assert (H1 := sample_name_is_received sample_response_a).
  assert (H2 : holds_at (buffer (received adapter1 sample_response_a)) 12
                 (wire_name sample_labels)) by (vm_compute; reflexivity).
  assert (H3 : points_to (buffer (received adapter1 sample_response_a)) 21 12)
    by (split; vm_compute; reflexivity).
  repeat (split; [assumption|]).
  apply (dns_compare_name_compressed 8 _ 21 12 sample_labels H1 H2);
    [lia|vm_compute; congruence|exact H3|lia|vm_compute; congruence|cbn; lia].
Defined.

Lemma mobile_dns_query_recv_resolves_witness :
  name_is (dns adapter1) sample_labels
  /\ 0 <= id (dns adapter1) < 65536
  /\ type (dns adapter1) = DNS_QTYPE_A
  /\ mobile_dns_query_recv 8 adapter1 3 [0; 0; 0; 0]
       (datagram_from_resolver adapter1
          (dns_response_a (id (dns adapter1)) 1 sample_labels
             [0; 0; 0; 60] [93; 184; 216; 34] []))
     = Some (1,
             set_dns adapter1
               (taken_in (dns adapter1)
                  (datagram_from_resolver adapter1
                     (dns_response_a (id (dns adapter1)) 1 sample_labels
                        [0; 0; 0; 60] [93; 184; 216; 34] []))),
             memcpy [0; 0; 0; 0] 0 [93; 184; 216; 34]).
Proof.
  assert (H1 := sample_name_is_adapter1).
  assert (H2 : 0 <= id (dns adapter1) < 65536) by (vm_compute; split; congruence).
  assert (H3 : type (dns adapter1) = DNS_QTYPE_A) by reflexivity.
  repeat (split; [assumption|]).
  apply (mobile_dns_query_recv_resolves 8 adapter1 3 [0; 0; 0; 0] sample_labels 1
           [0; 0; 0; 60] [93; 184; 216; 34] [] H1 H2 H3);
    [lia|reflexivity|reflexivity|cbn; lia].
Defined.

Lemma dns_compare_name_other_witness :
  name_is (received adapter1 sample_response_other) sample_labels
  /\ Forall label_ok sample_labels_other
  /\ holds_at (buffer (received adapter1 sample_response_other)) 12
       (wire_name sample_labels_other)
  /\ sample_labels_other <> sample_labels
  /\ dns_compare_name 8 (received adapter1 sample_response_other) 12
     = Some (-1, 12).
Proof.
  assert (H1 := sample_name_is_received sample_response_other).
  assert (H2 := sample_labels_other_ok).
  assert (H3 : holds_at (buffer (received adapter1 sample_response_other)) 12
                 (wire_name sample_labels_other)) by (vm_compute; reflexivity).
  assert (H4 : sample_labels_other <> sample_labels)
    by (unfold sample_labels_other, sample_labels; congruence).
  repeat (split; [assumption|]).
  apply (dns_compare_name_other 8 _ 12 sample_labels sample_labels_other
           H1 H2 H3); [vm_compute; split; congruence|exact H4|cbn; lia].
Defined.

Lemma mobile_dns_query_round_trip_witness :
  Z.of_nat (length (name (dns adapter0))) = 256
  /\ Forall label_ok (split_labels (list_ascii_of_string "a.b"))
  /\ encoded_size (list_ascii_of_string "a.b") <= 256
  /\ mobile_dns_query_recv 8
       (mobile_dns_query_send 256 adapter0 3 "a.b" true).1.2 3 [0; 0; 0; 0]
       (datagram_from_resolver
          (mobile_dns_query_send 256 adapter0 3 "a.b" true).1.2
          (dns_response_a
             (id (dns (mobile_dns_query_send 256 adapter0 3 "a.b" true).1.2)) 1
             (split_labels (list_ascii_of_string "a.b"))
             [0; 0; 0; 60] [93; 184; 216; 34] []))
     = Some (1,
             set_dns (mobile_dns_query_send 256 adapter0 3 "a.b" true).1.2
               (taken_in
                  (dns (mobile_dns_query_send 256 adapter0 3 "a.b" true).1.2)
                  (datagram_from_resolver
                     (mobile_dns_query_send 256 adapter0 3 "a.b" true).1.2
                     (dns_response_a
                        (id (dns (mobile_dns_query_send 256 adapter0 3 "a.b"
                                    true).1.2)) 1
                        (split_labels (list_ascii_of_string "a.b"))
                        [0; 0; 0; 60] [93; 184; 216; 34] []))),
             memcpy [0; 0; 0; 0] 0 [93; 184; 216; 34]).
Proof.
  assert (H1 : Z.of_nat (length (name (dns adapter0))) = 256) by reflexivity.
  assert (H2 : Forall label_ok (split_labels (list_ascii_of_string "a.b")))
    by exact sample_labels_ok.
  assert (H3 : encoded_size (list_ascii_of_string "a.b") <= 256)
    by (vm_compute; congruence).
  repeat (split; [assumption|]).
  apply (mobile_dns_query_round_trip 256 adapter0 3 "a.b" true 8 [0; 0; 0; 0] 1
           [0; 0; 0; 60] [93; 184; 216; 34] [] H1 ltac:(lia) H2 H3);
    [lia|reflexivity|reflexivity|cbn; lia].
Defined.

Lemma mobile_dns_query_recv_wrong_question_witness :
  name_is (dns adapter1) sample_labels
  /\ Forall label_ok sample_labels_other
  /\ sample_labels_other <> sample_labels
  /\ mobile_dns_query_recv 8 adapter1 3 [0; 0; 0; 0]
       (datagram_from_resolver adapter1
          (dns_response_a (id (dns adapter1)) 1 sample_labels_other
             [0; 0; 0; 60] [93; 184; 216; 34] []))
     = Some (-1,
             set_dns adapter1
               (taken_in (dns adapter1)
                  (datagram_from_resolver adapter1
                     (dns_response_a (id (dns adapter1)) 1 sample_labels_other
                        [0; 0; 0; 60] [93; 184; 216; 34] []))),
             [0; 0; 0; 0]).
Proof.
  assert (H1 := sample_name_is_adapter1).
  assert (H2 := sample_labels_other_ok).
  assert (H3 : sample_labels_other <> sample_labels)
    by (unfold sample_labels_other, sample_labels; congruence).
  repeat (split; [assumption|]).
  apply (mobile_dns_query_recv_wrong_question 8 adapter1 3 [0; 0; 0; 0]
           sample_labels sample_labels_other 1 [0; 0; 0; 60] [93; 184; 216; 34] []
           H1 H2 H3); [vm_compute; split; congruence|lia|cbn; lia].
Defined.

Lemma dns_compare_name_unknown_label_witness :
  bytes (buffer (received adapter1 sample_unknown_label))
  /\ 0 <= 12 < buffer_len (received adapter1 sample_unknown_label)
  /\ name_len (received adapter1 sample_unknown_label) <> 0
  /\ dns_compare_name 8 (received adapter1 sample_unknown_label) 12 = Some (0, 12).
Proof.
  assert (H1 : bytes (buffer (received adapter1 sample_unknown_label)))
    by (apply bytesb_bytes; vm_compute; reflexivity).
  assert (H2 : 0 <= 12 < buffer_len (received adapter1 sample_unknown_label))
    by (vm_compute; split; congruence).
  assert (H3 : name_len (received adapter1 sample_unknown_label) <> 0)
    by (vm_compute; congruence).
  repeat (split; [assumption|]).
  apply (dns_compare_name_unknown_label 8 _ 12 H1 H2 H3);
    [vm_compute; congruence|vm_compute; congruence|lia].
Defined.

(** * dns_compare_name: when the walk ends *)

Lemma dns_compare_step_cont_cases state w w' :
  bytes (buffer state) ->
  dns_compare_step state w = Cont w' ->
  let c := load (buffer state) (w_cmp w) in
  (is_pointer c = true
   /\ w_cmp w' = pointer_target (buffer state) (w_cmp w)
   /\ 0 <= w_cmp w' < buffer_len state
   /\ w_name w' = w_name w)
  \/ (is_pointer c = false
      /\ 0 < c
      /\ w_cmp w' = w_cmp w + (c + 1)
      /\ w_cmp w' < buffer_len state
      /\ w_name w' = w_name w + (c + 1)
      /\ w_name w' < name_len state).
Proof.
  intros Hb Hstep c.
  destruct (dns_compare_step_cont _ _ _ Hb Hstep)
    as [(Hp & Hpos & Hn & _)|(Hp & Hc & Hn & Hlen & _)].
  - fold c in Hp. left. apply dns_compare_step_cont_bounds in Hstep as Hbound.
    destruct Hbound as [Hlt _]. repeat split; try assumption.
    unfold dns_compare_step in Hstep. fold c in Hstep.
    unfold is_pointer in Hp. apply andb_true_iff in Hp as [Hnz Hptr].
    apply negb_true_iff in Hnz. rewrite Hnz, Hptr in Hstep.
    destruct (w_cmp w + 2 >? buffer_len state); [discriminate|].
    destruct (_ >=? buffer_len state); [discriminate|].
    injection Hstep as <-. reflexivity.
  - fold c in Hp, Hc, Hn, Hlen.
    right. apply dns_compare_step_cont_bounds in Hstep as Hbound.
    destruct Hbound as [Hlt _]. repeat split; try assumption.
    unfold dns_compare_step in Hstep. fold c in Hstep.
    destruct (c =? 0); [discriminate|].
    destruct (Z.land c 192 =? 192) eqn:Hptr.
    { unfold is_pointer in Hp. rewrite Hptr, andb_true_r in Hp.
      apply negb_false_iff, Z.eqb_eq in Hp. lia. }
    destruct (Z.land c 192 =? 0); [|discriminate].
    destruct (Z.geb_spec (w_name w + (c + 1)) (name_len state)); [discriminate|].
    lia.
Qed.

Lemma dns_compare_loop_ends fuel state :
  bytes (buffer state) ->
  forall w,
    0 <= w_cmp w ->
    w_name w <= name_len state ->
    0 <= buffer_len state ->
    walk_bound state w <= Z.of_nat fuel ->
    Forall (fun p => pointer_target (buffer state) p < p)
           (pointers_followed fuel state w) ->
    exists r, dns_compare_loop fuel state w = Some r.
Proof.
  intros Hb. induction fuel as [|fuel IH]; intros w Hcmp Hname Hbl Hfuel Hback.
  - exfalso. unfold walk_bound in Hfuel.
    assert (0 <= (name_len state - w_name w) * (buffer_len state + 1))
      by (apply Z.mul_nonneg_nonneg; lia).
    lia.
  - cbn [dns_compare_loop pointers_followed] in *.
    destruct (dns_compare_step state w) as [r|w'|w'] eqn:Hstep; [eauto|eauto|].
    destruct (dns_compare_step_cont_cases _ _ _ Hb Hstep)
      as [(Hp & Ht & Hrange & Hn)|(Hp & Hc & Hc' & Hlt & Hn & Hnl)];
      rewrite Hp in Hback.
    + apply Forall_app in Hback as [Hhead Hback].
      apply Forall_cons in Hhead as [Hlow _].
      apply IH; try assumption; try lia.
      unfold walk_bound in *. rewrite Hn. lia.
    + apply IH; try assumption; try lia.
      unfold walk_bound in *. rewrite Hn, Hc'.
      set (c := load (buffer state) (w_cmp w)) in *.
      replace ((name_len state - (w_name w + (c + 1))) * (buffer_len state + 1))
        with ((name_len state - w_name w) * (buffer_len state + 1)
              - (c + 1) * (buffer_len state + 1)) by ring.
      assert (2 * (buffer_len state + 1) <= (c + 1) * (buffer_len state + 1))
        by (apply Z.mul_le_mono_nonneg_r; lia).
      lia.
Qed.

(** X19.  Only pointers that do not point backwards can keep the walk
    going: when every compression pointer the walk follows refers to a
    lower offset than its own, [dns_compare_name] returns within
    [name_len * (buffer_len + 1) + offset + 1] passes. *)
Theorem dns_compare_name_ends (fuel : nat) (state : mobile_adapter_dns)
    (offset : Z) :
  bytes (buffer state) ->
  0 <= offset ->
  0 <= name_len state ->
  name_len state * (buffer_len state + 1) + offset + 1 <= Z.of_nat fuel ->
  Forall (fun p => pointer_target (buffer state) p < p)
         (pointers_followed fuel state (walk_start offset)) ->
  exists r offset', dns_compare_name fuel state offset = Some (r, offset').
Proof.
  intros Hb Hoff Hnl Hfuel Hback. unfold dns_compare_name.
  destruct (Z.geb_spec offset (buffer_len state)); [eauto|].
  destruct (name_len state =? 0); [eauto|].
  destruct (dns_compare_loop_ends fuel state Hb (walk_start offset))
    as [r ->]; try assumption; cbn [walk_start w_cmp w_name]; try lia.
  - unfold walk_bound. cbn [walk_start w_cmp w_name]. rewrite Z.sub_0_r. lia.
  - cbn [mbind option_bind]. destruct r as [v|w]; [eauto|].
    destruct (dns_compare_finish state offset w) as [r o]. eauto.
Qed.

Lemma dns_compare_name_ends_witness :
  bytes (buffer (received adapter1 sample_response_a))
  /\ Forall (fun p => pointer_target
                        (buffer (received adapter1 sample_response_a)) p < p)
       (pointers_followed 256 (received adapter1 sample_response_a)
          (walk_start 21))
  /\ exists r offset',
       dns_compare_name 256 (received adapter1 sample_response_a) 21
       = Some (r, offset').
Proof.
  assert (H1 : bytes (buffer (received adapter1 sample_response_a)))
    by (apply bytesb_bytes; vm_compute; reflexivity).
  assert (H2 : Forall (fun p => pointer_target
                          (buffer (received adapter1 sample_response_a)) p < p)
                 (pointers_followed 256 (received adapter1 sample_response_a)
                    (walk_start 21))).
  { replace (pointers_followed 256 (received adapter1 sample_response_a)
               (walk_start 21)) with [21] by (vm_compute; reflexivity).
    constructor; [vm_compute; reflexivity|constructor]. }
  split; [exact H1|]. split; [exact H2|].
  apply (dns_compare_name_ends 256 _ 21 H1); [lia|vm_compute; congruence| |exact H2].
  vm_compute. congruence.
Defined.
